(** * FlightOps query planning and execution: a shallow embedding

    The development follows the two Python sources, [server.py] (the
    operations over the document store) and [client.py] (the plan
    executor).  Python values are dynamically typed, so the embedding
    starts with a small universe of JSON-like values and the string
    primitives the code calls ([str.strip], [str.split], [int], ...).

    Modelling conventions.
    - A Python [str] is a Rocq [string]; a character stands for the code
      point of the same number, so the model covers texts whose code
      points are below 256.
    - A Python [int] is a [Z]; JSON numbers are integers (no floats).
      [int()] of a text reads at most [max_str_digits] digits, the
      default limit of CPython, and raises [ValueError] beyond; the
      opposite conversion, [str()] of an integer, is modelled without
      that limit, so it is exact for integers within it.
    - [strftime] writes a year as the C library of a Linux system does,
      without leading zeros.
    - A Python [dict] is an association list in insertion order, looked
      up by its first matching key.
    - A Python exception is the [Raise] constructor of [res]; a
      [try ... except] is [try_except]. *)

From Stdlib Require Import ZArith String Ascii Bool.
From stdpp Require Import base option list strings gmap.
From Equations Require Import Equations.

Open Scope Z_scope.
Open Scope string_scope.

(** ** Exceptions *)

Inductive exn : Type :=
| ValueError
| TypeError
| AttributeError
| KeyError
| IndexError
| BackendError (msg : string).

Inductive res (A : Type) : Type :=
| Ok (a : A)
| Raise (e : exn).
Arguments Ok {A} a.
Arguments Raise {A} e.

(** [res] is the error monad; stdpp's [x ← m; k] sequences two steps and
    stops at the first exception. *)
#[global] Instance res_ret : MRet res := fun _ a => Ok a.
#[global] Instance res_bind : MBind res := fun _ _ k m =>
  match m with
  | Ok a => k a
  | Raise e => Raise e
  end.

(** [try: body except Exception as e: handler(e)] *)
Definition try_except {A} (body : res A) (handler : exn -> res A) : res A :=
  match body with
  | Ok a => Ok a
  | Raise e => handler e
  end.

(** ** Python values *)

#[warnings="-register-all"]
Inductive value : Type :=
| VNone
| VBool (b : bool)
| VInt (n : Z)
| VStr (s : string)
| VList (l : list value)
| VDict (d : list (string * value)).

Abbreviation dict := (list (string * value)).

(** Truth value of an object, as [if v:] and [not v] test it. *)
Definition truthy (v : value) : bool :=
  match v with
  | VNone => false
  | VBool b => b
  | VInt n => negb (n =? 0)%Z
  | VStr s => negb (String.eqb s "")
  | VList l => match l with [] => false | _ => true end
  | VDict d => match d with [] => false | _ => true end
  end.

Definition is_dict (v : value) : bool :=
  match v with VDict _ => true | _ => false end.

(** [v == s] for a text [s] *)
Definition is_text (s : string) (v : value) : bool :=
  match v with VStr t => String.eqb t s | _ => false end.

(** [d.get(k)]: the value stored under [k], if any. *)
Fixpoint dict_lookup (k : string) (d : dict) : option value :=
  match d with
  | [] => None
  | (k', v) :: rest => if String.eqb k' k then Some v else dict_lookup k rest
  end.

(** [d.get(k, default)] *)
Definition dict_get (k : string) (d : dict) (dflt : value) : value :=
  default dflt (dict_lookup k d).

(** [k in d] *)
Definition dict_mem (k : string) (d : dict) : bool :=
  bool_decide (is_Some (dict_lookup k d)).

(** [d[k] = v]: the entry is replaced where it stands, or added at the
    end. *)
Fixpoint dict_set (k : string) (v : value) (d : dict) : dict :=
  match d with
  | [] => [(k, v)]
  | (k', v') :: rest =>
      if String.eqb k' k then (k, v) :: rest else (k', v') :: dict_set k v rest
  end.

(** [d.keys()] *)
Definition dict_keys (d : dict) : list string := fst <$> d.

(** ** Python string primitives *)

Module PyStr.

(** Characters [str.strip()] and [int()] treat as white space: the
    code points 9--13, 28--32, 133 and 160. *)
Definition is_space (c : ascii) : bool :=
  let n := nat_of_ascii c in
  ((9 <=? n) && (n <=? 13) || (28 <=? n) && (n <=? 32)
   || (n =? 133) || (n =? 160))%nat.

(** Decimal digits, [0] to [9] (the class [\d] on this range). *)
Definition is_digit (c : ascii) : bool :=
  let n := nat_of_ascii c in ((48 <=? n) && (n <=? 57))%nat.

Definition digit_val (c : ascii) : Z := Z.of_nat (nat_of_ascii c) - 48.

Fixpoint lstrip (s : string) : string :=
  match s with
  | EmptyString => EmptyString
  | String c r => if is_space c then lstrip r else s
  end.

Fixpoint rstrip (s : string) : string :=
  match s with
  | EmptyString => EmptyString
  | String c r =>
      match rstrip r with
      | EmptyString => if is_space c then EmptyString else String c EmptyString
      | r' => String c r'
      end
  end.

(** [s.strip()] *)
Definition strip (s : string) : string := rstrip (lstrip s).

(** [c in s] for a one-character [c] *)
Fixpoint contains_char (c : ascii) (s : string) : bool :=
  match s with
  | EmptyString => false
  | String c' r => Ascii.eqb c' c || contains_char c r
  end.

(** [s.split(sep)] for a one-character separator: never empty. *)
Fixpoint split (sep : ascii) (s : string) : list string :=
  match s with
  | EmptyString => [EmptyString]
  | String c r =>
      if Ascii.eqb c sep then EmptyString :: split sep r
      else match split sep r with
           | p :: ps => String c p :: ps
           | [] => [String c EmptyString]
           end
  end.

(** [s.startswith(p)] *)
Fixpoint startswith (p s : string) : bool :=
  match p, s with
  | EmptyString, _ => true
  | String a p', String b s' => Ascii.eqb a b && startswith p' s'
  | String _ _, EmptyString => false
  end.

(** [p in s] for strings: [p] occurs somewhere in [s]. *)
Fixpoint contains (p s : string) : bool :=
  startswith p s ||
  match s with
  | EmptyString => false
  | String _ r => contains p r
  end.

(** [s.replace(a, b)] for one-character [a] and [b] *)
Fixpoint replace_char (a b : ascii) (s : string) : string :=
  match s with
  | EmptyString => EmptyString
  | String c r => String (if Ascii.eqb c a then b else c) (replace_char a b r)
  end.

Definition lower_char (c : ascii) : ascii :=
  let n := nat_of_ascii c in
  if ((65 <=? n) && (n <=? 90)
      || (192 <=? n) && (n <=? 222) && negb (n =? 215))%nat
  then ascii_of_nat (n + 32) else c.

(** [s.lower()] *)
Fixpoint lower (s : string) : string :=
  match s with
  | EmptyString => EmptyString
  | String c r => String (lower_char c) (lower r)
  end.

(** The digits of an integer literal after the first one: digits, each
    optionally preceded by a single underscore. *)
Fixpoint int_tail (acc : Z) (s : string) : option Z :=
  match s with
  | EmptyString => Some acc
  | String c r =>
      if is_digit c then int_tail (10 * acc + digit_val c) r
      else if Ascii.eqb c "_" then
        match r with
        | String c' r' =>
            if is_digit c' then int_tail (10 * acc + digit_val c') r' else None
        | EmptyString => None
        end
      else None
  end.

(** [sys.get_int_max_str_digits()], at its default: the most digits
    [int()] reads from a decimal literal. *)
Definition max_str_digits : nat := 4300.

(** The digits of a literal, its underscores not counted. *)
Fixpoint count_digits (s : string) : nat :=
  match s with
  | EmptyString => 0
  | String c r => ((if is_digit c then 1 else 0) + count_digits r)%nat
  end.

(** A well-formed literal with more digits than the limit is refused
    like a malformed one. *)
Definition int_digits (s : string) : option Z :=
  match s with
  | String c r =>
      if is_digit c then
        match int_tail (digit_val c) r with
        | Some n =>
            if (count_digits s <=? max_str_digits)%nat then Some n else None
        | None => None
        end
      else None
  | EmptyString => None
  end.

(** [int(s)] for a string, base ten: surrounding white space, an
    optional sign, then digits, no more of them than the limit; [None]
    stands for [ValueError]. *)
Definition int_of_str (s : string) : option Z :=
  match strip s with
  | String c r =>
      if Ascii.eqb c "-" then Z.opp <$> int_digits r
      else if Ascii.eqb c "+" then int_digits r
      else int_digits (String c r)
  | EmptyString => None
  end.

(** [p] holds of every character of [s]. *)
Fixpoint all_chars (p : ascii -> bool) (s : string) : bool :=
  match s with
  | EmptyString => true
  | String c r => p c && all_chars p r
  end.

(** The value of a run of digits read from the left. *)
Fixpoint digits_value (acc : Z) (s : string) : Z :=
  match s with
  | EmptyString => acc
  | String c r => digits_value (10 * acc + digit_val c) r
  end.

End PyStr.

(** [int(x)] on a value. *)
Definition py_int (v : value) : res Z :=
  match v with
  | VInt n => Ok n
  | VBool b => Ok (Z.b2z b)
  | VStr s => match PyStr.int_of_str s with
              | Some n => Ok n
              | None => Raise ValueError
              end
  | VNone | VList _ | VDict _ => Raise TypeError
  end.

(** ** Decimal text of an integer, [str(n)] *)

Definition digit_char (d : Z) : ascii := ascii_of_nat (Z.to_nat (48 + d)).

(** The recursion is on the binary length of [n], which shrinks with
    every division by ten. *)
Equations? dec (n : Z) : string by wf (Z.to_nat (Z.log2 n)) lt :=
  dec n with Z_lt_dec n 10 => {
    | left _ => String (digit_char n) EmptyString;
    | right _ => dec (n / 10) +:+ String (digit_char (n mod 10)) EmptyString }.
Proof.
  assert (Hle : (n / 10 <= n / 2)%Z) by (apply Z.div_le_compat_l; lia).
  apply Z.log2_le_mono in Hle.
  assert (Hhalf : (Z.log2 (n / 2) = Z.log2 n - 1)%Z).
  { rewrite <- Z.div2_div, Z.div2_spec, Z.log2_shiftr by lia.
    apply Z.max_r. assert (0 < Z.log2 n)%Z by (apply Z.log2_pos; lia). lia. }
  pose proof (Z.log2_nonneg (n / 10)). lia.
Qed.

Definition str_of_int (n : Z) : string :=
  if (n <? 0)%Z then String "-" (dec (- n)) else dec n.

(** ** Duration codec ([server.py], lines 931--1000) *)

Module Duration.
Import PyStr.

(** The longest run of digits at the start of [s], and what follows. *)
Fixpoint span_digits (s : string) : string * string :=
  match s with
  | String c r =>
      if is_digit c then let '(ds, rest) := span_digits r in (String c ds, rest)
      else (EmptyString, s)
  | EmptyString => (EmptyString, EmptyString)
  end.

(** One optional group [(?:(\d+)X)?] of the pattern: the digits
    captured and the text after the tag, or no capture and the text
    untouched.  [\d+] is greedy and the tag is not a digit, so the only
    run of digits that the tag can follow is the longest one. *)
Definition opt_group (tag : ascii) (s : string) : option string * string :=
  match span_digits s with
  | (String c ds, String t rest) =>
      if Ascii.eqb t tag then (Some (String c ds), rest) else (None, s)
  | _ => (None, s)
  end.

(** [re.match(r'PT(?:(\d+)H)?(?:(\d+)M)?', s)]: groups 1 and 2 of the
    match, [None] when the text does not start with [PT]. *)
Definition re_match_duration (s : string) : option (option string * option string) :=
  match s with
  | String "P" (String "T" r) =>
      let '(g1, r1) := opt_group "H" r in
      let '(g2, _) := opt_group "M" r1 in
      Some (g1, g2)
  | _ => None
  end.

(** [int(g) if g else 0] for a regex group. *)
Definition group_int (g : option string) : res Z :=
  match g with
  | Some ds => if String.eqb ds "" then Ok 0 else py_int (VStr ds)
  | None => Ok 0
  end.

(** The body of the [try] block. *)
Definition parse_duration_body (duration_str : value) : res Z :=
  match duration_str with
  | VStr s =>
      let s := strip s in
      if contains_char ":" s then
        match split ":" s with
        | [p0; p1] =>
            hours ← py_int (VStr p0);
            minutes ← py_int (VStr p1);
            Ok (hours * 60 + minutes)
        | _ => Ok 0
        end
      else if startswith "PT" s then
        match re_match_duration s with
        | None => Ok 0
        | Some (g1, g2) =>
            hours ← group_int g1;
            minutes ← group_int g2;
            Ok (hours * 60 + minutes)
        end
      else Ok 0
  | _ => Raise AttributeError
  end.

Definition parse_iso_duration_to_minutes (duration_str : value) : res Z :=
  if negb (truthy duration_str) then Ok 0
  else try_except (parse_duration_body duration_str) (fun _ => Ok 0).

(** The integer a call leaves the caller with; an exception that escaped
    would leave none. *)
Definition returned {A} (r : res A) : option A :=
  match r with Ok a => Some a | Raise _ => None end.

Definition plural (n : Z) : string := if (n =? 1)%Z then "" else "s".

Definition format_minutes_to_readable (total_minutes : Z) : string :=
  if (total_minutes =? 0)%Z then "No delay"
  else
    let hours := total_minutes / 60 in
    let minutes := total_minutes mod 60 in
    let parts :=
      ((if (0 <? hours)%Z
        then [str_of_int hours +:+ " hour" +:+ plural hours] else [])
       ++ (if (0 <? minutes)%Z
           then [str_of_int minutes +:+ " minute" +:+ plural minutes] else []))%list in
    String.concat " " parts.

(** The two textual forms the parser reads: [hours:minutes] with two
    integer literals around one colon, and text that starts with the
    designator prefix [PT] and holds no colon.  Every other text is an
    unrecognized form. *)
Definition recognized_form (s : string) : bool :=
  let s := strip s in
  if contains_char ":" s then
    match split ":" s with
    | [p0; p1] => bool_decide (is_Some (int_of_str p0))
                  && bool_decide (is_Some (int_of_str p1))
    | _ => false
    end
  else startswith "PT" s.

(** The zero-delay encodings, as the delay filters list them
    ([server.py], lines 879 and 1147). *)
Definition zero_delay_sentinels : list value :=
  [VStr "PT0H0M"; VStr "00:00"; VStr ""; VNone].

(** Modelled from the spec: the source has no function that renders a
    minute count back into either stored form (its only renderer,
    [format_minutes_to_readable], produces display text).  The designator
    form is the letter-tagged text with an hour and a minute component,
    [PT<hours>H<minutes>M]. *)
Definition render_designator (m : Z) : string :=
  "PT" +:+ dec (m / 60) +:+ "H" +:+ dec (m mod 60) +:+ "M".

Definition pad2 (n : Z) : string :=
  if (n <? 10)%Z then String "0" (dec n) else dec n.

(** Modelled from the spec: the colon form of the same missing renderer,
    the token-delimited [hours:minutes] text with two-digit padding, as
    in the stored values ["00:35"] and ["01:45"]. *)
Definition render_colon (m : Z) : string :=
  pad2 (m / 60) +:+ ":" +:+ pad2 (m mod 60).

End Duration.


(** ** Date normalisation ([server.py], lines 68--96) *)

Module Dates.
Import PyStr.

(** The pieces of a [strptime] format.  [datetime.strptime] turns a
    format into a regular expression, one group per directive, and
    matches the text against it with back-tracking and without regard
    to letter case. *)
Inductive directive : Type :=
| DYear          (* %Y : \d\d\d\d *)
| DMonth         (* %m : 1[0-2]|0[1-9]|[1-9] *)
| DDay           (* %d : 3[0-1]|[1-2]\d|0[1-9]|[1-9]| [1-9] *)
| DMonthName     (* %B : the full month names, longest first *)
| DMonthAbbr     (* %b : the abbreviated month names *)
| DSpace         (* white space in the format: \s+ *)
| DLit (c : ascii)
| DBad.          (* a directive the formats below do not use *)

Definition directive_of (c : ascii) : directive :=
  if Ascii.eqb c "Y" then DYear
  else if Ascii.eqb c "m" then DMonth
  else if Ascii.eqb c "d" then DDay
  else if Ascii.eqb c "B" then DMonthName
  else if Ascii.eqb c "b" then DMonthAbbr
  else DBad.

Fixpoint compile_format (fmt : string) : list directive :=
  match fmt with
  | EmptyString => []
  | String c r =>
      if Ascii.eqb c "%" then
        match r with
        | String d r' => directive_of d :: compile_format r'
        | EmptyString => [DBad]
        end
      else (if is_space c then DSpace else DLit c) :: compile_format r
  end.

(** The fields [strptime] collects, with its defaults. *)
Record fields : Type := { f_year : Z; f_month : Z; f_day : Z }.
Definition default_fields : fields := {| f_year := 1900; f_month := 1; f_day := 1 |}.
Definition set_year (y : Z) (f : fields) := {| f_year := y; f_month := f_month f; f_day := f_day f |}.
Definition set_month (m : Z) (f : fields) := {| f_year := f_year f; f_month := m; f_day := f_day f |}.
Definition set_day (d : Z) (f : fields) := {| f_year := f_year f; f_month := f_month f; f_day := d |}.

Definition in_range (lo hi : nat) (c : ascii) : bool :=
  let n := nat_of_ascii c in ((lo <=? n) && (n <=? hi))%nat.

(** One alternative of a group: one or two characters, each in a range
    of code points, read as a decimal number. *)
Definition alt1 (lo hi : nat) (s : string) : list (Z * string) :=
  match s with
  | String c r => if in_range lo hi c then [(digit_val c, r)] else []
  | EmptyString => []
  end.

Definition alt2 (lo1 hi1 lo2 hi2 : nat) (s : string) : list (Z * string) :=
  match s with
  | String c1 (String c2 r) =>
      if in_range lo1 hi1 c1 && in_range lo2 hi2 c2
      then [(10 * digit_val c1 + digit_val c2, r)%Z] else []
  | _ => []
  end.

(** [ (?P<m>1[0-2]|0[1-9]|[1-9]) ] *)
Definition month_alts (s : string) : list (Z * string) :=
  (alt2 49 49 48 50 s ++ alt2 48 48 49 57 s ++ alt1 49 57 s)%list.

(** [ (?P<d>3[0-1]|[1-2]\d|0[1-9]|[1-9]| [1-9]) ]: in the last
    alternative the first character is a blank. *)
Definition day_alts (s : string) : list (Z * string) :=
  (alt2 51 51 48 49 s ++ alt2 49 50 48 57 s ++ alt2 48 48 49 57 s
   ++ alt1 49 57 s
   ++ match s with
      | String c r => if Ascii.eqb c " " then alt1 49 57 r else []
      | EmptyString => []
      end)%list.

(** [ (?P<Y>\d\d\d\d) ] *)
Definition year_alts (s : string) : list (Z * string) :=
  match s with
  | String a (String b (String c (String d r))) =>
      if is_digit a && is_digit b && is_digit c && is_digit d
      then [(1000 * digit_val a + 100 * digit_val b + 10 * digit_val c + digit_val d, r)%Z]
      else []
  | _ => []
  end.

(** [name] at the start of [s], letter case ignored; what follows it. *)
Fixpoint skip_name (name s : string) : option string :=
  match name, s with
  | EmptyString, _ => Some s
  | String a name', String b s' =>
      if Ascii.eqb (lower_char a) (lower_char b) then skip_name name' s' else None
  | String _ _, EmptyString => None
  end.

(** Month names of the C locale with their numbers, in the order of the
    regular expression: sorted by length, longest first, names of equal
    length in calendar order. *)
Definition full_month_names : list (string * Z) :=
  [("september", 9); ("february", 2); ("november", 11); ("december", 12);
   ("january", 1); ("october", 10); ("august", 8); ("march", 3); ("april", 4);
   ("june", 6); ("july", 7); ("may", 5)]%Z.

Definition abbr_month_names : list (string * Z) :=
  [("jan", 1); ("feb", 2); ("mar", 3); ("apr", 4); ("may", 5); ("jun", 6);
   ("jul", 7); ("aug", 8); ("sep", 9); ("oct", 10); ("nov", 11); ("dec", 12)]%Z.

Definition name_alts (names : list (string * Z)) (s : string) : list (Z * string) :=
  omap (fun '(name, m) => (fun rest => (m, rest)) <$> skip_name name s) names.

(** [\s+]: every non-empty run of leading white space, longest first. *)
Fixpoint space_alts (s : string) : list string :=
  match s with
  | String c r => if is_space c then (space_alts r ++ [r])%list else []
  | EmptyString => []
  end.

(** The ways one directive matches at the start of [s], in the order
    the back-tracking matcher tries them: the field update and the rest
    of the text. *)
Definition directive_alts (d : directive) (s : string) : list ((fields -> fields) * string) :=
  match d with
  | DYear => (fun '(y, r) => (set_year y, r)) <$> year_alts s
  | DMonth => (fun '(m, r) => (set_month m, r)) <$> month_alts s
  | DDay => (fun '(d, r) => (set_day d, r)) <$> day_alts s
  | DMonthName => (fun '(m, r) => (set_month m, r)) <$> name_alts full_month_names s
  | DMonthAbbr => (fun '(m, r) => (set_month m, r)) <$> name_alts abbr_month_names s
  | DSpace => (fun r => (id, r)) <$> space_alts s
  | DLit c =>
      match s with
      | String c' r => if Ascii.eqb (lower_char c) (lower_char c') then [(id, r)] else []
      | EmptyString => []
      end
  | DBad => []
  end.

(** All matches of a format at the start of [s], first choice first. *)
Fixpoint match_format (ds : list directive) (s : string) (f : fields)
  : list (fields * string) :=
  match ds with
  | [] => [(f, s)]
  | d :: ds' =>
      '(upd, rest) ← directive_alts d s; match_format ds' rest (upd f)
  end.

Definition is_leap (y : Z) : bool :=
  ((y mod 4 =? 0) && (negb (y mod 100 =? 0) || (y mod 400 =? 0)))%Z.

Definition days_in_month (y m : Z) : Z :=
  if (m =? 2)%Z then (if is_leap y then 29 else 28)
  else if ((m =? 4) || (m =? 6) || (m =? 9) || (m =? 11))%Z then 30
  else 31.

(** [datetime.date(y, m, d)] exists. *)
Definition valid_date (f : fields) : bool :=
  ((1 <=? f_year f) && (f_year f <=? 9999)
   && (1 <=? f_month f) && (f_month f <=? 12)
   && (1 <=? f_day f) && (f_day f <=? days_in_month (f_year f) (f_month f)))%Z.

(** [datetime.strptime(date_str, fmt)]: the matcher's first match must
    use up the whole text and name a date of the calendar; [None]
    stands for [ValueError]. *)
Definition strptime (date_str fmt : string) : option fields :=
  match match_format (compile_format fmt) date_str default_fields with
  | (f, rest) :: _ =>
      if String.eqb rest "" && valid_date f then Some f else None
  | [] => None
  end.

(** [s.zfill(width)] for a run of digits. *)
Definition zfill (width : nat) (s : string) : string :=
  String.concat "" (replicate (width - String.length s) "0") +:+ s.

(** [dt.strftime("%Y-%m-%d")]: the C library's [%Y] writes the year
    without leading zeros, so a year below 1000 has fewer than four
    digits; month and day always have two. *)
Definition strftime_iso (f : fields) : string :=
  dec (f_year f) +:+ "-" +:+ zfill 2 (dec (f_month f))
  +:+ "-" +:+ zfill 2 (dec (f_day f)).

Definition formats : list string :=
  ["%Y-%m-%d"; "%d-%m-%Y"; "%Y/%m/%d"; "%d/%m/%Y";
   "%B %d, %Y"; "%d %B %Y"; "%b %d, %Y"; "%d %b %Y"].

(** The [for fmt in formats] loop: the first format that parses wins. *)
Fixpoint first_format (date_str : string) (fmts : list string) : option string :=
  match fmts with
  | [] => None
  | fmt :: rest =>
      match strptime date_str fmt with
      | Some f => Some (strftime_iso f)
      | None => first_format date_str rest
      end
  end.

Definition validate_date (date_str : string) : option string :=
  if String.eqb date_str "" then None else first_format date_str formats.

End Dates.

(** ** The document store, as the server sees it *)

(** The [_id] of a stored document. *)
Inductive id_value : Type :=
| ObjectId (hex : string)
| StrId (s : string)
| IntId (n : Z).

(** [str(d["_id"])] *)
Definition str_of_id (i : id_value) : string :=
  match i with
  | ObjectId hex => hex
  | StrId s => s
  | IntId n => str_of_int n
  end.

(** A row of the lightweight (meta) projection: its [_id] and its
    [flightLegState] entry, when the document has one. *)
Record meta_row : Type := { row_id : id_value; row_flightLegState : option value }.

(** The collection.  A call either answers or raises.
    - [count_documents q] is [col.count_documents(q)];
    - [find_sorted q] lists what the cursor
      [col.find(q, proj).sort("flightLegState.scheduledStartTime", 1)]
      yields, before any [.limit];
    - [find_one_by_id i proj] is [col.find_one({"_id": i}, proj)];
    - [find_documents q proj n] lists what
      [col.find(q, proj).sort("flightLegState.dateOfOrigin", -1).limit(n)]
      yields;
    - [aggregate pipeline] lists what
      [col.aggregate(pipeline).to_list(length=10)] yields. *)
Record Store : Type := {
  count_documents : dict -> res nat;
  find_sorted : dict -> res (list meta_row);
  find_one_by_id : id_value -> dict -> res (option dict);
  find_documents : dict -> dict -> Z -> res (list dict);
  aggregate : list value -> res (list value);
}.

(** [cursor.limit(n)]: a limit of 0 is no limit. *)
Definition cursor_limit {A} (n : nat) (rows : list A) : list A :=
  if (n =? 0)%nat then rows else take n rows.

(** The text of an exception, [str(e)]. *)
Definition exn_text (e : exn) : string :=
  match e with
  | ValueError => "ValueError"
  | TypeError => "TypeError"
  | AttributeError => "AttributeError"
  | KeyError => "KeyError"
  | IndexError => "IndexError"
  | BackendError msg => msg
  end.

(** ** Server operations ([server.py]) *)

Module Server.
Import PyStr.

(** What a tool call ends with: the uniform envelope,
    [response_ok(data)] or [response_error(msg, code)], or an exception
    that no handler of the tool caught. *)
Inductive response : Type :=
| response_ok (data : value)
| response_error (msg : string) (code : Z)
| tool_raised (e : exn).

(** The envelope as the JSON document the client decodes. *)
Definition envelope (r : response) : value :=
  match r with
  | response_ok data => VDict [("ok", VBool true); ("data", data)]
  | response_error msg code =>
      VDict [("ok", VBool false);
             ("error", VDict [("message", VStr msg); ("code", VInt code)])]
  | tool_raised e => VStr (exn_text e)
  end.

Definition normalize_flight_number (flight_number : value) : option Z :=
  match flight_number with
  | VNone => None
  | VStr s => if String.eqb s "" then None else int_of_str (strip s)
  | VInt n => Some n
  | VBool b => Some (Z.b2z b)
  | VList _ | VDict _ => None
  end.

Definition opt_text (o : option string) : string := default "" o.

Definition make_query (carrier : string) (flight_number : option Z)
    (date_of_origin startStation endStation : option string) : dict :=
  ((if String.eqb carrier "" then [] else [("flightLegState.carrier", VStr carrier)])
   ++ match flight_number with
      | Some n => [("flightLegState.flightNumber", VInt n)]
      | None => []
      end
   ++ (if String.eqb (opt_text date_of_origin) "" then []
       else [("flightLegState.dateOfOrigin", VStr (opt_text date_of_origin))])
   ++ (if String.eqb (opt_text startStation) "" then []
       else [("flightLegState.startStation", VStr (opt_text startStation))])
   ++ (if String.eqb (opt_text endStation) "" then []
       else [("flightLegState.endStation", VStr (opt_text endStation))]))%list.

(** *** The candidate resolver, [_find_matching_doc_meta] *)

(** A hashable field value as a member of a tuple in a [set]: [None],
    an integer ([True] and [False] are the integers 1 and 0 there) or a
    text.  Lists and mappings are not hashable. *)
Definition hashed : Type := option (Z + string).

Definition hash_value (v : value) : res hashed :=
  match v with
  | VNone => Ok None
  | VBool b => Ok (Some (inl (Z.b2z b)))
  | VInt n => Ok (Some (inl n))
  | VStr s => Ok (Some (inr s))
  | VList _ | VDict _ => Raise TypeError
  end.

(** The Canonical Flight Key:
    (carrier, flightNumber, dateOfOrigin, startStation, endStation). *)
Definition flight_key : Type := hashed * hashed * hashed * hashed * hashed.

(** [fl = d.get("flightLegState", {}) or {}]; a later [fl.get] needs a
    mapping. *)
Definition leg_state (d : meta_row) : res dict :=
  match row_flightLegState d with
  | None => Ok []
  | Some v =>
      if truthy v then
        match v with
        | VDict fl => Ok fl
        | _ => Raise AttributeError
        end
      else Ok []
  end.

(** [fl.get(k)] *)
Definition fl_get (k : string) (fl : dict) : value := dict_get k fl VNone.

Definition unique_key (fl : dict) : res flight_key :=
  c ← hash_value (fl_get "carrier" fl);
  n ← hash_value (fl_get "flightNumber" fl);
  d ← hash_value (fl_get "dateOfOrigin" fl);
  s ← hash_value (fl_get "startStation" fl);
  e ← hash_value (fl_get "endStation" fl);
  Ok (c, n, d, s, e).

(** The key of a row, as the loop computes it. *)
Definition row_key (d : meta_row) : res flight_key :=
  fl ← leg_state d; unique_key fl.

(** The keys of a list of rows, when every one of them can be hashed. *)
Fixpoint row_keys (rows : list meta_row) : res (list flight_key) :=
  match rows with
  | [] => Ok []
  | d :: rest => k ← row_key d; ks ← row_keys rest; Ok (k :: ks)
  end.

(** One entry of [docs]. *)
Record candidate : Type := {
  doc_id : string;
  startStation : value;
  endStation : value;
  scheduledStartTime : value;
  seqNumber : value;
  flightStatus : value;
}.

Definition candidate_of (d : meta_row) (fl : dict) : candidate :=
  {| doc_id := str_of_id (row_id d);
     startStation := fl_get "startStation" fl;
     endStation := fl_get "endStation" fl;
     scheduledStartTime := fl_get "scheduledStartTime" fl;
     seqNumber := fl_get "seqNumber" fl;
     flightStatus := fl_get "flightStatus" fl |}.

Definition candidate_value (c : candidate) : value :=
  VDict [("doc_id", VStr (doc_id c));
         ("startStation", startStation c);
         ("endStation", endStation c);
         ("scheduledStartTime", scheduledStartTime c);
         ("seqNumber", seqNumber c);
         ("flightStatus", flightStatus c)].

(** The [async for d in cursor] loop, with its [continue] on a key
    already seen and its [break] once [limit] candidates are held. *)
Fixpoint scan_cursor (limit : nat) (cursor : list meta_row)
    (seen : gset flight_key) (docs : list candidate) : res (list candidate) :=
  match cursor with
  | [] => Ok docs
  | d :: rest =>
      fl ← leg_state d;
      k ← unique_key fl;
      if decide (k ∈ seen) then scan_cursor limit rest seen docs
      else
        let docs' := (docs ++ [candidate_of d fl])%list in
        if (limit <=? length docs')%nat then Ok docs'
        else scan_cursor limit rest ({[k]} ∪ seen) docs'
  end.

(** What [_find_matching_doc_meta] returns:
    [{"count": .., "documents": .., "error": ..}]. *)
Record meta : Type := {
  meta_count : nat;
  meta_documents : list candidate;
  meta_error : option string;
}.

Definition _find_matching_doc_meta (col : Store) (query : dict) (limit : nat) : meta :=
  let body :=
    _ ← count_documents col query;
    _ ← count_documents col query;
    rows ← find_sorted col query;
    scan_cursor limit (cursor_limit (limit * 2) rows) ∅ [] in
  match body with
  | Ok docs => {| meta_count := length docs; meta_documents := docs; meta_error := None |}
  | Raise e => {| meta_count := 0; meta_documents := []; meta_error := Some (exn_text e) |}
  end.

(** *** Fetch by handle, [_get_document_by_id] *)

Definition is_hex (c : ascii) : bool :=
  let n := nat_of_ascii c in
  ((48 <=? n) && (n <=? 57) || (65 <=? n) && (n <=? 70) || (97 <=? n) && (n <=? 102))%nat.

(** [ObjectId(doc_id)] succeeds on 24 hexadecimal digits. *)
Definition valid_object_id (doc_id : string) : bool :=
  (String.length doc_id =? 24)%nat && all_chars is_hex doc_id.

(** [result.pop(k, None)] *)
Definition dict_pop (k : string) (d : dict) : dict :=
  filter (fun kv => kv.1 <> k) d.

Definition quote : ascii := ascii_of_nat 34.

Definition clean_document (result : dict) : dict :=
  dict_pop "_class" (dict_pop "_id" result).

(** [if result:] on what [find_one] returned. *)
Definition found (r : res (option dict)) : option dict :=
  match r with
  | Ok (Some (kv :: d)) => Some (kv :: d)
  | _ => None
  end.

Definition _get_document_by_id (col : Store) (doc_id : string) (projection : dict)
  : option dict :=
  let by_object_id :=
    if valid_object_id doc_id
    then found (find_one_by_id col (ObjectId doc_id) projection)
    else None in
  match by_object_id with
  | Some result => Some (clean_document result)
  | None =>
      match find_one_by_id col (StrId doc_id) projection with
      | Raise _ => None
      | r => clean_document <$> found r
      end
  end.

(** *** Single-flight lookups *)

Definition ones (fields : list string) : dict := (fun f => (f, VInt 1)) <$> fields.

(** The tail shared by the single-flight lookups: classify by the
    number of unique candidates. *)
Definition resolve (col : Store) (query projection : dict) (not_found : string)
  : response :=
  let meta := _find_matching_doc_meta col query 50 in
  if truthy (VStr (opt_text (meta_error meta)))
  then response_error ("DB error: " +:+ opt_text (meta_error meta)) 500
  else
    let count := meta_count meta in
    if (count =? 0)%nat then response_error not_found 404
    else if (count =? 1)%nat then
      match meta_documents meta with
      | [] => tool_raised IndexError
      | c :: _ =>
          match _get_document_by_id col (doc_id c) projection with
          | Some (kv :: full_doc) => response_ok (VDict (kv :: full_doc))
          | _ => response_error "Document not found" 404
          end
      end
    else
      response_ok (VDict [("needs_route_selection", VBool true);
                          ("count", VInt (Z.of_nat count));
                          ("matches", VList (candidate_value <$> meta_documents meta));
                          ("original_query", VDict query)]).

Definition basic_info_projection : dict :=
  ones ["flightLegState.carrier"; "flightLegState.flightNumber";
        "flightLegState.suffix"; "flightLegState.dateOfOrigin";
        "flightLegState.seqNumber"; "flightLegState.startStation";
        "flightLegState.endStation"; "flightLegState.startStationICAO";
        "flightLegState.endStationICAO"; "flightLegState.scheduledStartTime";
        "flightLegState.scheduledEndTime"; "flightLegState.flightStatus";
        "flightLegState.operationalStatus"; "flightLegState.flightType";
        "flightLegState.blockTimeSch"; "flightLegState.blockTimeActual";
        "flightLegState.flightHoursActual"; "flightLegState.isOTPFlight";
        "flightLegState.isOTPAchieved"; "flightLegState.isOTPConsidered";
        "flightLegState.isOTTFlight"; "flightLegState.isOTTAchievedFlight";
        "flightLegState.turnTimeFlightBeforeActual";
        "flightLegState.turnTimeFlightBeforeSch"].

Definition equipment_projection : dict :=
  ones ["flightLegState.carrier"; "flightLegState.flightNumber";
        "flightLegState.dateOfOrigin";
        "flightLegState.equipment.plannedAircraftType";
        "flightLegState.equipment.aircraft";
        "flightLegState.equipment.aircraftConfiguration";
        "flightLegState.equipment.aircraftRegistration";
        "flightLegState.equipment.assignedAircraftTypeIATA";
        "flightLegState.equipment.assignedAircraftTypeICAO";
        "flightLegState.equipment.assignedAircraftTypeIndigo";
        "flightLegState.equipment.assignedAircraftConfiguration";
        "flightLegState.equipment.tailLock";
        "flightLegState.equipment.onwardFlight";
        "flightLegState.equipment.actualOnwardFlight"].

(** [normalize_flight_number(flight_number) if flight_number else None] *)
Definition flight_number_arg (flight_number : string) : option Z :=
  if String.eqb flight_number "" then None
  else normalize_flight_number (VStr flight_number).

(** [validate_date(date_of_origin) if date_of_origin else None] *)
Definition date_arg (date_of_origin : string) : option string :=
  if String.eqb date_of_origin "" then None
  else Dates.validate_date date_of_origin.

(** [date_of_origin and not dob] *)
Definition date_rejected (date_of_origin : string) (dob : option string) : bool :=
  negb (String.eqb date_of_origin "") && String.eqb (opt_text dob) "".

Definition get_flight_basic_info (col : Store) (carrier flight_number date_of_origin : string)
    (startStation endStation : option string) : response :=
  let fn := flight_number_arg flight_number in
  let dob := date_arg date_of_origin in
  if date_rejected date_of_origin dob
  then response_error
         "Invalid date_of_origin format. Expected YYYY-MM-DD or common date formats" 400
  else
    let query := make_query carrier fn dob startStation endStation in
    resolve col query basic_info_projection "No matching document found.".

Definition get_equipment_info (col : Store) (carrier flight_number date_of_origin : string)
    (startStation endStation : option string) : response :=
  let fn := flight_number_arg flight_number in
  let dob := date_arg date_of_origin in
  let query := make_query carrier fn dob startStation endStation in
  resolve col query equipment_projection "No matching document found.".

(** *** The raw-filter query, [raw_mongodb_query] *)

Section Json.

(** [json.loads]: the JSON decoder is a library of its own; [None]
    stands for [json.JSONDecodeError]. *)
Variable json_loads : string -> option value.

Definition _safe_json_loads (text : string) : res value :=
  match json_loads text with
  | Some v => Ok v
  | None =>
      match json_loads (replace_char "'" quote text) with
      | Some v => Ok v
      | None => Raise ValueError
      end
  end.

(** The keys a JSON value holds, at every depth. *)
Fixpoint nested_keys (v : value) : list string :=
  match v with
  | VDict d =>
      (fix entries (d : list (string * value)) : list string :=
         match d with
         | [] => []
         | (k, v') :: rest => (k :: nested_keys v' ++ entries rest)%list
         end) d
  | VList l =>
      (fix items (l : list value) : list string :=
         match l with
         | [] => []
         | v' :: rest => (nested_keys v' ++ items rest)%list
         end) l
  | _ => []
  end.

(** A call the tool makes on the collection. *)
Inductive store_call : Type :=
| CallFind (query projection : dict) (limit : Z)
| CallAggregate (pipeline : list value).

Definition forbidden_ops : list string :=
  ["$where"; "$out"; "$merge"; "$accumulator"; "$function"].

(** [key in forbidden_ops or key.startswith("$")] *)
Definition forbidden_key (key : string) : bool :=
  bool_decide (key ∈ forbidden_ops) || startswith "$" key.

Definition fallback_projection : dict :=
  [("_id", VInt 0); ("flightLegState.carrier", VInt 1);
   ("flightLegState.flightNumber", VInt 1); ("flightLegState.dateOfOrigin", VInt 1)].

(** The tool answers with its envelope and leaves behind the calls it
    made on the collection, in order. *)
Definition raw_mongodb_query (col : Store) (query_json projection : string) (limit : Z)
  : response * list store_call :=
  match _safe_json_loads query_json with
  | Raise e => (response_error ("Invalid query_json: " +:+ exn_text e) 400, [])
  | Ok query =>
      let parsed_projection :=
        if String.eqb projection "" then Ok VNone else _safe_json_loads projection in
      match parsed_projection with
      | Raise e => (response_error ("Invalid projection JSON: " +:+ exn_text e) 400, [])
      | Ok projection_dict =>
          match query with
          | VDict query =>
              if truthy projection_dict && negb (is_dict projection_dict)
              then (response_error "projection must be a JSON object." 400, [])
              else
                match list_find (fun key => forbidden_key key = true) (dict_keys query) with
                | Some (_, key) =>
                    (response_error ("Operator '" +:+ key +:+ "' is not allowed.") 400, [])
                | None =>
                    let limit := Z.min (Z.max 1 limit) 50 in
                    let projection_dict :=
                      match projection_dict with
                      | VDict (kv :: p) => kv :: p
                      | _ => fallback_projection
                      end in
                    let calls := [CallFind query projection_dict limit] in
                    match find_documents col query projection_dict limit with
                    | Raise e =>
                        (response_error ("Raw MongoDB query failed: " +:+ exn_text e) 500, calls)
                    | Ok [] =>
                        (response_error "No documents found for the given query." 404, calls)
                    | Ok docs =>
                        let docs := clean_document <$> docs in
                        (response_ok
                           (VDict [("count", VInt (Z.of_nat (length docs)));
                                   ("query", VDict query);
                                   ("projection", VDict projection_dict);
                                   ("documents", VList (VDict <$> docs))]), calls)
                    end
                end
          | _ => (response_error "query_json must be a JSON object." 400, [])
          end
      end
  end.

(** *** Statistics, [run_aggregated_query] *)

(** [val == 0] *)
Definition eq_zero (val : value) : bool :=
  match val with
  | VInt n => (n =? 0)%Z
  | VBool b => negb b
  | _ => false
  end.

Definition delayed_condition : value :=
  VDict [("$nin", VList Duration.zero_delay_sentinels)].

Definition on_time_condition : value :=
  VDict [("$in", VList [VStr "PT0H0M"; VStr "00:00"])].

(** The loop [for op, val in value.items()] over the conditions on a
    delay entry, with its two [break]s: the conditions kept so far and
    the filter under construction. *)
Fixpoint scan_conditions (key : string) (conditions new_conditions normalized_filter : dict)
  : dict * dict :=
  match conditions with
  | [] => (new_conditions, normalized_filter)
  | (op, val) :: rest =>
      if String.eqb op "$gt" && eq_zero val
      then (new_conditions, dict_set key delayed_condition normalized_filter)
      else if String.eqb op "$eq" && eq_zero val
      then (new_conditions, dict_set key on_time_condition normalized_filter)
      else scan_conditions key rest (dict_set op val new_conditions) normalized_filter
  end.

(** A condition at which the loop breaks: [$gt] or [$eq] against zero. *)
Definition zero_comparison (condition : string * value) : bool :=
  (String.eqb condition.1 "$gt" || String.eqb condition.1 "$eq") && eq_zero condition.2.

(** A delay entry: its key names the delay total and not the flight
    number (which the loop tests first). *)
Definition delay_key (key : string) : Prop :=
  contains "flightNumber" key = false /\ contains "delays.total" key = true.

(** One turn of [for key, value in parsed_filter.items()]. *)
Definition normalize_entry (normalized_filter : dict) (entry : string * value) : dict :=
  let '(key, value) := entry in
  if contains "flightNumber" key then dict_set key value normalized_filter
  else if contains "delays.total" key then
    match value with
    | VDict conditions =>
        let '(new_conditions, normalized_filter) :=
          scan_conditions key conditions [] normalized_filter in
        if truthy (VDict new_conditions) && negb (dict_mem key normalized_filter)
        then dict_set key (VDict new_conditions) normalized_filter
        else normalized_filter
    | _ => dict_set key value normalized_filter
    end
  else dict_set key value normalized_filter.

Definition normalize_filter (parsed_filter : dict) : dict :=
  foldl normalize_entry [] parsed_filter.

(** [match_stage.update(normalized_filter)] *)
Definition dict_update (d other : dict) : dict :=
  foldl (fun d kv => dict_set kv.1 kv.2 d) d other.

Definition query_type_map : list (string * string) :=
  [("avg", "average"); ("mean", "average"); ("total", "sum"); ("cnt", "count");
   ("minimum", "min"); ("maximum", "max")].

Definition normalize_query_type (query_type : string) : string :=
  let q := lower query_type in
  default q ((fun found => found.2.2) <$> list_find (fun kv => kv.1 = q) query_type_map).

Definition agg_map (field : string) : list (string * value) :=
  [("average", VDict [("$avg", VStr ("$" +:+ field))]);
   ("sum", VDict [("$sum", VStr ("$" +:+ field))]);
   ("min", VDict [("$min", VStr ("$" +:+ field))]);
   ("max", VDict [("$max", VStr ("$" +:+ field))]);
   ("count", VDict [("$sum", VInt 1)])].

(** The [$match] stage: the normalised filter, then the carrier and the
    date range, which overwrite entries of the same name. *)
Definition build_match_stage (carrier start_date end_date filter_json : string)
  : res dict :=
  filtered ←
    (if String.eqb filter_json "" then Ok []
     else match json_loads (replace_char "'" quote filter_json) with
          | Some (VDict parsed_filter) => Ok (dict_update [] (normalize_filter parsed_filter))
          | Some _ => Raise AttributeError
          | None => Raise ValueError
          end);
  let with_carrier :=
    if String.eqb carrier "" then filtered
    else dict_set "flightLegState.carrier" (VStr carrier) filtered in
  Ok (if negb (String.eqb start_date "") && negb (String.eqb end_date "")
      then dict_set "flightLegState.dateOfOrigin"
             (VDict [("$gte", VStr start_date); ("$lte", VStr end_date)]) with_carrier
      else with_carrier).

Definition run_aggregated_query (col : Store)
    (query_type carrier field start_date end_date filter_json : string)
  : response * list store_call :=
  let query_type_normalized := normalize_query_type query_type in
  if contains "delays.total" field
     && bool_decide (query_type_normalized ∈ ["average"; "sum"; "min"; "max"])
  then (response_error
          ("Cannot compute " +:+ query_type +:+ " on 'delays.total' (it's a string field). "
           +:+ "Use 'get_total_delay_aggregated' tool instead for delay calculations.") 400, [])
  else
    match build_match_stage carrier start_date end_date filter_json with
    | Raise e => (response_error ("Invalid filter_json: " +:+ exn_text e) 400, [])
    | Ok match_stage =>
        match dict_lookup query_type_normalized (agg_map field) with
        | None =>
            (response_error ("Unsupported query_type '" +:+ query_type
                             +:+ "'. Use: average, sum, min, max, count") 400, [])
        | Some accumulator =>
            let pipeline :=
              [VDict [("$match", VDict match_stage)];
               VDict [("$group", VDict [("_id", VNone); ("value", accumulator)])]] in
            match aggregate col pipeline with
            | Ok docs =>
                (response_ok (VDict [("pipeline", VList pipeline); ("results", VList docs)]),
                 [CallAggregate pipeline])
            | Raise e =>
                (response_error ("Aggregation failed: " +:+ exn_text e) 500,
                 [CallAggregate pipeline])
            end
        end
    end.

End Json.

End Server.

(** ** The plan executor ([client.py], [FlightOpsMCPClient.run_query]) *)

Module Client.
Import PyStr.

(** [str(v).strip().lower() == "unknown"].  Only a text can print as
    [unknown]: numbers print as digits, [True] and [False] by name, and
    lists and mappings inside brackets. *)
Definition is_unknown (v : value) : bool :=
  match v with
  | VStr s => String.eqb (lower (strip s)) "unknown"
  | _ => false
  end.

(** The test of the comprehension,
    [v and str(v).strip().lower() != "unknown"]. *)
Definition kept (v : value) : bool := truthy v && negb (is_unknown v).

(** [{k: v for k, v in args.items() if ...}] *)
Definition clean_args (args : dict) : dict := filter (fun kv => kept kv.2 = true) args.

(** The spec's words for what is dropped: a value that is empty (the
    null value, the empty text, an empty list or mapping) or the literal
    token [unknown]. *)
Definition empty_or_unknown (v : value) : bool :=
  match v with
  | VNone => true
  | VStr s => String.eqb s "" || String.eqb s "unknown"
  | VList l => match l with [] => true | _ => false end
  | VDict d => match d with [] => true | _ => false end
  | VBool _ | VInt _ => false
  end.

(** A value usable as the key of [{tool: resp}]. *)
Definition hashable (v : value) : bool :=
  match v with VList _ | VDict _ => false | _ => true end.

(** The shape test after each invocation: does the response carry
    [needs_route_selection]? *)
Definition selection_candidate (tool resp : value) : value :=
  match resp with
  | VDict r =>
      if truthy (dict_get "ok" r VNone) && is_dict (dict_get "data" r VNone)
      then dict_get "data" r VNone
      else
        let under_tool :=
          match tool with VStr t => dict_get t r VNone | _ => VNone end in
        if truthy under_tool && is_dict under_tool then under_tool else resp
  | _ => resp
  end.

Definition needs_route_selection (tool resp : value) : bool :=
  match resp with
  | VDict _ =>
      match selection_candidate tool resp with
      | VDict c => truthy (dict_get "needs_route_selection" c VNone)
      | _ => false
      end
  | _ => false
  end.

(** What the loop does with a step before any invocation: skip it with
    an entry of its own, or invoke a tool with the cleaned arguments. *)
Inductive prepared : Type :=
| Skip (entry : value * value)
| Invoke (tool : value) (args : dict).

Definition prepare_step (step : value) : res prepared :=
  match step with
  | VDict s =>
      let tool := dict_get "tool" s VNone in
      match dict_get "arguments" s (VDict []) with
      | VDict args =>
          let args := clean_args args in
          if is_text "raw_mongodb_query" tool then
            let query_json := dict_get "query_json" args (VStr "") in
            if negb (truthy query_json)
            then Ok (Skip (VStr "raw_mongodb_query",
                           VDict [("error", VStr "Empty query_json")]))
            else
              limit ← py_int (dict_get "limit" args (VInt 50));
              Ok (Invoke tool (dict_set "limit" (VInt limit) args))
          else Ok (Invoke tool args)
      | _ => Raise AttributeError
      end
  | _ => Raise AttributeError
  end.

(** [for step in plan]: what iterating the plan value yields. *)
Definition plan_steps (plan : value) : res (list value) :=
  match plan with
  | VList steps => Ok steps
  | VStr s => Ok ((fun c => VStr (String c EmptyString)) <$> list_ascii_of_string s)
  | VDict d => Ok (VStr <$> dict_keys d)
  | VNone | VBool _ | VInt _ => Raise TypeError
  end.

(** What [run_query] hands back. *)
Inductive outcome : Type :=
| Failed (error : string)
| NeedsRouteSelection (plan : value) (results : list (value * value))
| Summarized (plan : value) (results : list (value * value)) (summary : value).

Definition results_of (o : outcome) : list (value * value) :=
  match o with
  | Failed _ => []
  | NeedsRouteSelection _ results | Summarized _ results _ => results
  end.

Section Executor.

(** The world outside the executor: the MCP session and the language
    model.  [invoke_tool] never raises (it turns every failure into a
    response); [plan_tools] always returns a mapping. *)
Variable world : Type.
Variable invoke_tool : world -> value -> dict -> value * world.
Variable plan_tools : world -> string -> dict * world.
Variable summarize_results : world -> string -> value -> list (value * value) -> value * world.

(** The state of a run: the world, the results so far, and the
    invocations made so far. *)
Record run_state : Type := {
  run_world : world;
  run_results : list (value * value);
  run_calls : list (value * dict);
}.

(** How one turn of the loop ends. *)
Inductive turn : Type :=
| Next (st : run_state)
| Stop (st : run_state)
| Crash (e : exn) (st : run_state).

Definition turn_state (t : turn) : run_state :=
  match t with Next st | Stop st | Crash _ st => st end.

Definition run_step (st : run_state) (step : value) : turn :=
  match prepare_step step with
  | Raise e => Crash e st
  | Ok (Skip entry) =>
      Next {| run_world := run_world st;
              run_results := run_results st ++ [entry];
              run_calls := run_calls st |}
  | Ok (Invoke tool args) =>
      let '(resp, w) := invoke_tool (run_world st) tool args in
      let calls := (run_calls st ++ [(tool, args)])%list in
      if hashable tool then
        let st' := {| run_world := w;
                      run_results := run_results st ++ [(tool, resp)];
                      run_calls := calls |} in
        if needs_route_selection tool resp then Stop st' else Next st'
      else Crash TypeError {| run_world := w; run_results := run_results st;
                              run_calls := calls |}
  end.

Fixpoint run_steps (st : run_state) (steps : list value) : turn :=
  match steps with
  | [] => Next st
  | step :: rest =>
      match run_step st step with
      | Next st' => run_steps st' rest
      | t => t
      end
  end.

(** [run_query]: the outcome, the invocations it made, and the world
    it leaves. *)
Definition run_query (w : world) (user_query : string)
  : outcome * list (value * dict) * world :=
  let '(plan_data, w) := plan_tools w user_query in
  let plan := dict_get "plan" plan_data (VList []) in
  if negb (truthy plan)
  then (Failed "LLM did not produce a valid tool plan.", [], w)
  else
    match plan_steps plan with
    | Raise e => (Failed (exn_text e), [], w)
    | Ok steps =>
        match run_steps {| run_world := w; run_results := []; run_calls := [] |} steps with
        | Crash e st => (Failed (exn_text e), run_calls st, run_world st)
        | Stop st => (NeedsRouteSelection plan (run_results st), run_calls st, run_world st)
        | Next st =>
            let '(summary, w') :=
              summarize_results (run_world st) user_query plan (run_results st) in
            (Summarized plan (run_results st) summary, run_calls st, w')
        end
    end.

End Executor.

Arguments Build_run_state {world} _ _ _.
Arguments run_world {world} _.
Arguments run_results {world} _.
Arguments run_calls {world} _.
Arguments Next {world} st.
Arguments Stop {world} st.
Arguments Crash {world} e st.
Arguments turn_state {world} t.

End Client.

(** ** Sample collections and worlds, for the closed examples *)

Module Examples.
Import Server.

#[global] Instance id_value_eq_dec : EqDecision id_value.
Proof. solve_decision. Defined.

(** A [flightLegState] entry. *)
Definition leg (carrier : string) (number : Z) (date origin destination departure : string)
    (seq : Z) : value :=
  VDict [("carrier", VStr carrier); ("flightNumber", VInt number);
         ("dateOfOrigin", VStr date); ("startStation", VStr origin);
         ("endStation", VStr destination); ("scheduledStartTime", VStr departure);
         ("seqNumber", VInt seq); ("flightStatus", VStr "ARRIVED")].

(** A collection in which every stored document matches the query at
    hand; the documents are listed in schedule order.  A document is
    found by its [_id] when the identifier asked for is the stored one,
    of the same type. *)
Definition collection_of (docs : list (id_value * dict)) : Store :=
  {| count_documents _ := Ok (length docs);
     find_sorted _ :=
       Ok ((fun d => {| row_id := d.1;
                        row_flightLegState := dict_lookup "flightLegState" d.2 |}) <$> docs);
     find_one_by_id i _ :=
       Ok ((fun found => ("_id", VStr (str_of_id found.2.1)) :: found.2.2)
             <$> list_find (fun d => d.1 = i) docs);
     find_documents _ _ _ := Ok (snd <$> docs);
     aggregate _ := Ok [] |}.

(** A collection whose calls fail without a message: [str(e)] is
    empty. *)
Definition silent_failure : Store :=
  {| count_documents _ := Raise (BackendError "");
     find_sorted _ := Raise (BackendError "");
     find_one_by_id _ _ := Raise (BackendError "");
     find_documents _ _ _ := Raise (BackendError "");
     aggregate _ := Raise (BackendError "") |}.

(** A collection that cannot be reached. *)
Definition unreachable : Store :=
  {| count_documents _ := Raise (BackendError "connection refused");
     find_sorted _ := Raise (BackendError "connection refused");
     find_one_by_id _ _ := Raise (BackendError "connection refused");
     find_documents _ _ _ := Raise (BackendError "connection refused");
     aggregate _ := Raise (BackendError "connection refused") |}.

(** A decoder that knows the texts listed in [table] and rejects every
    other text. *)
Definition decode_table (table : list (string * value)) (text : string) : option value :=
  (fun found => found.2.2) <$> list_find (fun entry => entry.1 = text) table.

Definition oid1 : id_value := ObjectId "65a1f0c2e4b0a1b2c3d4e5f1".
Definition oid2 : id_value := ObjectId "65a1f0c2e4b0a1b2c3d4e5f2".
Definition oid3 : id_value := ObjectId "65a1f0c2e4b0a1b2c3d4e5f3".

Definition del_bom (seq : Z) : dict :=
  [("flightLegState", leg "6E" 215 "2024-06-23" "DEL" "BOM" "2024-06-23T05:00:00Z" seq)].
Definition bom_goi (seq : Z) : dict :=
  [("flightLegState", leg "6E" 215 "2024-06-23" "BOM" "GOI" "2024-06-23T09:30:00Z" seq)].

(** A world that counts the invocations made on it.  The delay summary
    answers with the ambiguous envelope; every other tool succeeds. *)
Definition ambiguous_answer : value :=
  envelope (response_ok
    (VDict [("needs_route_selection", VBool true); ("count", VInt 2);
            ("matches", VList [candidate_value
                                 {| doc_id := "65a1f0c2e4b0a1b2c3d4e5f1";
                                    startStation := VStr "DEL"; endStation := VStr "BOM";
                                    scheduledStartTime := VStr "2024-06-23T05:00:00Z";
                                    seqNumber := VInt 1; flightStatus := VStr "ARRIVED" |};
                               candidate_value
                                 {| doc_id := "65a1f0c2e4b0a1b2c3d4e5f3";
                                    startStation := VStr "BOM"; endStation := VStr "GOI";
                                    scheduledStartTime := VStr "2024-06-23T09:30:00Z";
                                    seqNumber := VInt 1; flightStatus := VStr "ARRIVED" |}]);
            ("original_query", VDict (make_query "6E" (Some 215%Z) (Some "2024-06-23") None None))])).

Definition counting_invoke (w : nat) (tool : value) (args : dict) : value * nat :=
  (if is_text "get_delay_summary" tool then ambiguous_answer
   else envelope (response_ok (VDict [("status", VStr "ok")])), S w).

(** A planner that always proposes [plan]. *)
Definition fixed_plan (plan : value) (w : nat) (user_query : string) : dict * nat :=
  ([("plan", plan)], w).

Definition plain_summary (w : nat) (user_query : string) (plan : value)
    (results : list (value * value)) : value * nat :=
  (VDict [("summary", VStr "done")], w).

Definition step_of (tool : string) (arguments : dict) : value :=
  VDict [("tool", VStr tool); ("arguments", VDict arguments)].

Definition flight_args : dict :=
  [("carrier", VStr "6E"); ("flight_number", VStr "215");
   ("date_of_origin", VStr "2024-06-23"); ("startStation", VStr "unknown");
   ("endStation", VStr "")].

Definition three_step_plan : value :=
  VList [step_of "health_check" [];
         step_of "get_delay_summary" flight_args;
         step_of "get_fuel_summary" flight_args].

End Examples.

(** ** Checks by enumeration, used in the proofs on dates *)

Module DateChecks.
Import PyStr Dates.

(** The text of a year of four digits reads back as that year. *)
Definition year_text_ok (y : Z) : bool :=
  match dec y with
  | String a (String b (String c (String d EmptyString))) =>
      is_digit a && is_digit b && is_digit c && is_digit d
      && (1000 * digit_val a + 100 * digit_val b + 10 * digit_val c + digit_val d =? y)%Z
  | _ => false
  end.

Definition years : list Z := Z.of_nat <$> seq (Z.to_nat 1000) (Z.to_nat 9000).

(** A digit or the dash: the characters of an ISO date text. *)
Definition digit_or_dash (c : ascii) : bool := is_digit c || Ascii.eqb c "-".

End DateChecks.

(** ** The other single-flight lookups ([server.py], lines 400--717) *)

Module Lookups.
Import Server.

(** [normalize_flight_number(flight_number) if flight_number else None],
    the guard of every lookup, for an argument of any type. *)
Definition flight_number_guard (flight_number : value) : option Z :=
  if truthy flight_number then normalize_flight_number flight_number else None.

Definition operation_times_projection : dict :=
  ones ["flightLegState.carrier"; "flightLegState.flightNumber";
        "flightLegState.dateOfOrigin"; "flightLegState.startStation";
        "flightLegState.endStation"; "flightLegState.scheduledStartTime";
        "flightLegState.scheduledEndTime"; "flightLegState.startTimeOffset";
        "flightLegState.endTimeOffset"; "flightLegState.operation.estimatedTimes";
        "flightLegState.operation.actualTimes"; "flightLegState.taxiOutTime";
        "flightLegState.taxiInTime"; "flightLegState.blockTimeSch";
        "flightLegState.blockTimeActual"; "flightLegState.flightHoursActual"].

Definition fuel_projection : dict :=
  ones ["flightLegState.carrier"; "flightLegState.flightNumber";
        "flightLegState.dateOfOrigin"; "flightLegState.startStation";
        "flightLegState.endStation"; "flightLegState.operation.fuel";
        "flightLegState.operation.flightPlan.offBlockFuel";
        "flightLegState.operation.flightPlan.takeoffFuel";
        "flightLegState.operation.flightPlan.landingFuel";
        "flightLegState.operation.flightPlan.holdFuel"].

Definition passenger_projection : dict :=
  ones ["flightLegState.carrier"; "flightLegState.flightNumber";
        "flightLegState.dateOfOrigin"; "flightLegState.pax.passengerCount.count"].

Definition crew_projection : dict :=
  ones ["flightLegState.carrier"; "flightLegState.flightNumber";
        "flightLegState.dateOfOrigin"; "flightLegState.crewConnections"].

Definition get_operation_times (col : Store) (carrier flight_number date_of_origin : string)
    (startStation endStation : option string) : response :=
  let fn := flight_number_arg flight_number in
  let dob := date_arg date_of_origin in
  if date_rejected date_of_origin dob
  then response_error "Invalid date format." 400
  else
    let query := make_query carrier fn dob startStation endStation in
    resolve col query operation_times_projection "No matching document found.".

Definition get_fuel_summary (col : Store) (carrier flight_number date_of_origin : string)
    (startStation endStation : option string) : response :=
  let fn := flight_number_arg flight_number in
  let dob := date_arg date_of_origin in
  let query := make_query carrier fn dob startStation endStation in
  resolve col query fuel_projection "No matching document found.".

Definition get_passenger_info (col : Store) (carrier flight_number date_of_origin : string)
    (startStation endStation : option string) : response :=
  let fn := flight_number_arg flight_number in
  let dob := date_arg date_of_origin in
  let query := make_query carrier fn dob startStation endStation in
  resolve col query passenger_projection "No matching document found.".

Definition get_crew_info (col : Store) (carrier flight_number date_of_origin : string)
    (startStation endStation : option string) : response :=
  let fn := flight_number_arg flight_number in
  let dob := date_arg date_of_origin in
  let query := make_query carrier fn dob startStation endStation in
  resolve col query crew_projection "No matching document found.".

End Lookups.

(** A document that shows neither [_id] nor [_class]. *)
Definition no_identifiers (d : dict) : Prop :=
  dict_lookup "_id" d = None /\ dict_lookup "_class" d = None.

(** The aggregates over numbers and their aliases in [query_type_map]
    ([server.py], lines 833--845). *)
Definition numeric_aggregates : list string :=
  ["average"; "sum"; "min"; "max"; "avg"; "mean"; "total"; "minimum"; "maximum"].


(** ** Total delay across legs, [get_total_delay_aggregated]
       ([server.py], lines 1002--1128) *)

Module TotalDelay.
Import Server.

Definition delay_projection : dict :=
  ones ["flightLegState.carrier"; "flightLegState.flightNumber";
        "flightLegState.dateOfOrigin"; "flightLegState.startStation";
        "flightLegState.endStation"; "flightLegState.seqNumber";
        "flightLegState.delays.total"; "flightLegState.scheduledStartTime"].

(** [fl.get("delays", {}).get("total", "PT0H0M")] *)
Definition delay_text (fl : dict) : res value :=
  match dict_get "delays" fl (VDict []) with
  | VDict delays => Ok (dict_get "total" delays (VStr "PT0H0M"))
  | _ => Raise AttributeError
  end.

(** [doc.get("flightLegState", {}) or {}] on a fetched document. *)
Definition doc_leg_state (doc : dict) : res dict :=
  match dict_lookup "flightLegState" doc with
  | None => Ok []
  | Some v =>
      if truthy v then
        match v with
        | VDict fl => Ok fl
        | _ => Raise AttributeError
        end
      else Ok []
  end.

(** The minutes a leg entry of the answer reports. *)
Definition leg_minutes (leg : dict) : Z :=
  match dict_lookup "delayMinutes" leg with
  | Some (VInt m) => m
  | _ => 0%Z
  end.

(** The [async for doc in cursor] loop: the legs, the running total and
    the dates met so far. *)
Fixpoint scan_legs (cursor : list dict) (flight_legs : list dict) (total : Z)
    (dates : list value) : res (list dict * Z * list value) :=
  match cursor with
  | [] => Ok (flight_legs, total, dates)
  | doc :: rest =>
      fl ← doc_leg_state doc;
      delay_str ← delay_text fl;
      delay_minutes ← Duration.parse_iso_duration_to_minutes delay_str;
      _ ← hash_value (fl_get "dateOfOrigin" fl);
      scan_legs rest
        (flight_legs ++
           [[("date", fl_get "dateOfOrigin" fl);
             ("startStation", fl_get "startStation" fl);
             ("endStation", fl_get "endStation" fl);
             ("seqNumber", fl_get "seqNumber" fl);
             ("delayRaw", delay_str);
             ("delayMinutes", VInt delay_minutes);
             ("scheduledStartTime", fl_get "scheduledStartTime" fl)]])%list
        (total + delay_minutes)%Z
        (dates ++ [fl_get "dateOfOrigin" fl])%list
  end.

(** The sum of the minutes of a list of leg entries. *)
Definition sum_minutes (legs : list dict) : Z := foldr Z.add 0%Z (leg_minutes <$> legs).

Section TotalDelay.

(** The collection and Python's [sorted(list(set))]:
    - [find_legs q proj] lists what the cursor
      [col.find(q, proj).sort([("flightLegState.dateOfOrigin", 1),
      ("flightLegState.seqNumber", 1)])] yields;
    - [sorted_dates ds] is the sorted list of the distinct dates among
      [ds], or the [TypeError] of comparing values of different types. *)
Variable find_legs : dict -> dict -> res (list dict).
Variable sorted_dates : list value -> res (list value).

(** The date part of the query and the [dateRange] text, or the
    message of the 400 answer. *)
Definition date_constraint (date_of_origin start_date end_date : string)
  : string + (value * string) :=
  if negb (String.eqb start_date "") && negb (String.eqb end_date "") then
    match Dates.validate_date start_date, Dates.validate_date end_date with
    | Some sd, Some ed =>
        if String.eqb sd "" || String.eqb ed ""
        then inl "Invalid start_date or end_date format."
        else inr (VDict [("$gte", VStr sd); ("$lte", VStr ed)], sd +:+ " to " +:+ ed)
    | _, _ => inl "Invalid start_date or end_date format."
    end
  else if negb (String.eqb date_of_origin "") then
    match Dates.validate_date date_of_origin with
    | Some dob =>
        if String.eqb dob "" then inl "Invalid date_of_origin format."
        else inr (VStr dob, dob)
    | None => inl "Invalid date_of_origin format."
    end
  else inl "Either date_of_origin or start_date + end_date must be provided.".

(** The answer and the queries sent to the collection. *)
Definition get_total_delay_aggregated
    (carrier flight_number date_of_origin start_date end_date : string)
    (startStation endStation : option string) : response * list dict :=
  let fn := flight_number_arg flight_number in
  match date_constraint date_of_origin start_date end_date with
  | inl msg => (response_error msg 400, [])
  | inr (date_filter, date_range) =>
      let query :=
        ((if String.eqb carrier "" then [] else [("flightLegState.carrier", VStr carrier)])
         ++ match fn with
            | Some n => [("flightLegState.flightNumber", VInt n)]
            | None => []
            end
         ++ [("flightLegState.dateOfOrigin", date_filter)]
         ++ (if String.eqb (opt_text startStation) "" then []
             else [("flightLegState.startStation", VStr (opt_text startStation))])
         ++ (if String.eqb (opt_text endStation) "" then []
             else [("flightLegState.endStation", VStr (opt_text endStation))]))%list in
      let body : res response :=
        cursor ← find_legs query delay_projection;
        '(flight_legs, total_delay_minutes, dates) ← scan_legs cursor [] 0%Z [];
        match flight_legs with
        | [] => Ok (response_error "No matching flights found." 404)
        | _ =>
            dates_processed ← sorted_dates dates;
            Ok (response_ok
                  (VDict [("carrier", VStr carrier);
                          ("flightNumber", match fn with Some n => VInt n | None => VNone end);
                          ("dateRange", VStr date_range);
                          ("datesProcessed", VList dates_processed);
                          ("totalDelayMinutes", VInt total_delay_minutes);
                          ("totalDelayReadable",
                           VStr (Duration.format_minutes_to_readable total_delay_minutes));
                          ("numberOfLegs", VInt (Z.of_nat (length flight_legs)));
                          ("legs", VList (VDict <$> flight_legs));
                          ("query", VDict query)]))
        end in
      (match body with
       | Ok r => r
       | Raise e => response_error ("Delay aggregation failed: " +:+ exn_text e) 500
       end, [query])
  end.

End TotalDelay.

End TotalDelay.

(** ** More samples, for the closed examples *)

Module Samples.

(** Two legs of one flight on one day, with delays in both stored
    forms. *)
Definition two_legs : list dict :=
  [[("flightLegState",
     VDict [("dateOfOrigin", VStr "2024-06-23"); ("startStation", VStr "DEL");
            ("endStation", VStr "BOM"); ("seqNumber", VInt 1);
            ("delays", VDict [("total", VStr "PT1H3M")]);
            ("scheduledStartTime", VStr "2024-06-23T05:00:00Z")])];
   [("flightLegState",
     VDict [("dateOfOrigin", VStr "2024-06-23"); ("startStation", VStr "BOM");
            ("endStation", VStr "GOI"); ("seqNumber", VInt 2);
            ("delays", VDict [("total", VStr "00:45")]);
            ("scheduledStartTime", VStr "2024-06-23T09:30:00Z")])]].

Definition find_two_legs (query projection : dict) : res (list dict) := Ok two_legs.

(** Sorting the dates of legs that all fall on one day. *)
Definition one_day (dates : list value) : res (list value) := Ok (take 1 dates).

End Samples.

(** ** The plan validator, [plan_tools] ([client.py], lines 371--409) *)

Module Planner.
Import PyStr.

(** [s.lstrip(chars)] and [s.rstrip(chars)], the characters given by a
    test. *)
Fixpoint lstrip_by (p : ascii -> bool) (s : string) : string :=
  match s with
  | EmptyString => EmptyString
  | String c r => if p c then lstrip_by p r else s
  end.

Fixpoint rstrip_by (p : ascii -> bool) (s : string) : string :=
  match s with
  | EmptyString => EmptyString
  | String c r =>
      match rstrip_by p r with
      | EmptyString => if p c then EmptyString else String c EmptyString
      | r' => String c r'
      end
  end.

Definition backtick : ascii := "`".

(** [s.strip("`")] *)
Definition strip_backticks (s : string) : string :=
  rstrip_by (Ascii.eqb backtick) (lstrip_by (Ascii.eqb backtick) s).

(** [s.replace("```", "")]: the occurrences are found from the left and
    do not overlap; [skip] counts the characters of an occurrence still
    to be dropped. *)
Fixpoint remove_fences (skip : nat) (s : string) : string :=
  match s with
  | EmptyString => EmptyString
  | String c r =>
      match skip with
      | S k => remove_fences k r
      | O => if startswith "```" s then remove_fences 2 r
             else String c (remove_fences 0 r)
      end
  end.

(** [s[n:]] *)
Fixpoint drop_chars (n : nat) (s : string) : string :=
  match n, s with
  | S k, String _ r => drop_chars k r
  | _, _ => s
  end.

(** The cleaning of the oracle's text before it is decoded. *)
Definition clean_plan_text (content : string) : string :=
  let cleaned := strip content in
  if startswith "```" cleaned then
    let cleaned := strip_backticks cleaned in
    let cleaned :=
      if startswith "json" (lower cleaned) then strip (drop_chars 4 cleaned)
      else cleaned in
    strip (remove_fences 0 cleaned)
  else cleaned.

Definition empty_plan : dict := [("plan", VList [])].

(** A fenced block: the fence, a tag, the body between white space, and
    the closing fence. *)
Definition fenced (tag ws1 body ws2 : string) : string :=
  "```" +:+ tag +:+ ws1 +:+ body +:+ ws2 +:+ "```".

(** What [json.loads] does with a text: it decodes it, or it raises
    [json.JSONDecodeError], or it raises another exception (a
    [RecursionError] on deep nesting, the [ValueError] of an integer
    with more digits than [int()] reads). *)
Inductive decoding : Type :=
| Decoded (v : value)
| JSONDecodeError
| OtherError (e : exn).

Section Planner.

(** [json.loads] and the language model: [call_azure_openai] is
    [_call_azure_openai(messages, temperature=0.1)] on the planning
    prompt and the user's question; it returns the text of the reply, or
    nothing. *)
Variable json_loads : string -> decoding.
Variable world : Type.
Variable call_azure_openai : world -> string -> option string * world.

(** What [plan_tools] makes of the reply.  Its handler catches
    [json.JSONDecodeError] only: any other exception of the decoder
    leaves [plan_tools]. *)
Definition parse_plan (content : option string) : res dict :=
  match content with
  | None => Ok empty_plan
  | Some content =>
      if String.eqb content "" then Ok empty_plan
      else
        match json_loads (clean_plan_text content) with
        | Decoded (VDict plan) =>
            Ok (if dict_mem "plan" plan then plan else empty_plan)
        | Decoded _ => Ok empty_plan
        | JSONDecodeError => Ok empty_plan
        | OtherError e => Raise e
        end
  end.

Definition plan_tools (w : world) (user_query : string) : res dict * world :=
  let '(content, w') := call_azure_openai w user_query in
  (parse_plan content, w').

(** [run_query] with this planner.  An exception that leaves
    [plan_tools] is caught by the handler around the whole body of
    [run_query], which answers with the text of the exception. *)
Variable invoke_tool : world -> value -> dict -> value * world.
Variable summarize_results :
  world -> string -> value -> list (value * value) -> value * world.

Definition run_query (w : world) (user_query : string)
  : Client.outcome * list (value * dict) * world :=
  match plan_tools w user_query with
  | (Ok plan_data, w') =>
      Client.run_query world invoke_tool (fun _ _ => (plan_data, w'))
        summarize_results w user_query
  | (Raise e, w') => (Client.Failed (exn_text e), [], w')
  end.

End Planner.

End Planner.

(** ** The client's tool call

    [invoke_tool] asks the MCP session for the tool and decodes the
    content of the result.  An item of the content either has a text or
    has none; the session's [call_tool] may raise. *)

Module ToolCall.

Section ToolCall.

Variable json_loads : string -> option value.
Variable world : Type.
Variable call_tool : world -> value -> dict -> res (list (option string)) * world.

(** [json.loads(item.text)], the text itself when it is not JSON. *)
Definition decode_item (text : string) : value :=
  match json_loads text with
  | Some v => v
  | None => VStr text
  end.

(** The loop over [result.content]: the items without a text are
    passed over. *)
Fixpoint content_items (content : list (option string)) : list value :=
  match content with
  | [] => []
  | Some text :: rest => decode_item text :: content_items rest
  | None :: rest => content_items rest
  end.

Definition decode_content (content : list (option string)) : value :=
  match content with
  | [] => VDict [("error", VStr "No content in response")]
  | _ =>
      match content_items content with
      | [one] => one
      | items => VDict [("results", VList items)]
      end
  end.

Definition invoke_tool (w : world) (tool_name : value) (args : dict) : value * world :=
  match call_tool w tool_name args with
  | (Ok content, w') => (decode_content content, w')
  | (Raise e, w') => (VDict [("error", VStr (exn_text e))], w')
  end.

End ToolCall.

End ToolCall.
(* ===================================================================== *)
(** * Properties *)
(* ===================================================================== *)

Example parse_ex1 : Duration.parse_iso_duration_to_minutes (VStr "PT1H3M") = Ok 63.
Proof. reflexivity. Qed.
Example parse_ex2 : Duration.parse_iso_duration_to_minutes (VStr "PT34M") = Ok 34.
Proof. reflexivity. Qed.
Example parse_ex3 : Duration.parse_iso_duration_to_minutes (VStr "PT2H") = Ok 120.
Proof. reflexivity. Qed.
Example parse_ex4 : Duration.parse_iso_duration_to_minutes (VStr " 01:45 ") = Ok 105.
Proof. reflexivity. Qed.
Example parse_ex5 : Duration.parse_iso_duration_to_minutes (VStr "1:2:3") = Ok 0.
Proof. reflexivity. Qed.
Example parse_ex6 : Duration.parse_iso_duration_to_minutes (VStr "a:b") = Ok 0.
Proof. reflexivity. Qed.
Example parse_ex7 : Duration.parse_iso_duration_to_minutes (VStr "-1:30") = Ok (-30).
Proof. reflexivity. Qed.
Example fmt_ex1 : Duration.format_minutes_to_readable 108 = "1 hour 48 minutes".
Proof. reflexivity. Qed.
Example fmt_ex2 : Duration.format_minutes_to_readable 135 = "2 hours 15 minutes".
Proof. reflexivity. Qed.
Example dec_ex : dec 12345678901234567890 = "12345678901234567890".
Proof. vm_compute. reflexivity. Qed.

(** ** Strings: helper lemmas *)

Section StringFacts.
Import PyStr.

Lemma all_chars_app p s1 s2 :
  all_chars p (s1 +:+ s2) = all_chars p s1 && all_chars p s2.
Proof.
  induction s1 as [|c r IH]; simpl; [done|]. by rewrite IH, andb_assoc.
Qed.

Lemma all_chars_weaken (p q : ascii -> bool) s :
  (forall c, p c = true -> q c = true) ->
  all_chars p s = true -> all_chars q s = true.
Proof.
  intros Hpq. induction s as [|c r IH]; simpl; [done|].
  rewrite !andb_true_iff. intros [Hc Hr]. auto.
Qed.

Lemma lstrip_no_space s :
  all_chars (fun c => negb (is_space c)) s = true -> lstrip s = s.
Proof.
  destruct s as [|c r]; simpl; [done|].
  rewrite andb_true_iff, negb_true_iff. by intros [-> _].
Qed.

Lemma rstrip_no_space s :
  all_chars (fun c => negb (is_space c)) s = true -> rstrip s = s.
Proof.
  induction s as [|c r IH]; simpl; [done|].
  rewrite andb_true_iff, negb_true_iff. intros [Hc Hr].
  rewrite (IH Hr), Hc. by destruct r.
Qed.

Lemma strip_no_space s :
  all_chars (fun c => negb (is_space c)) s = true -> strip s = s.
Proof.
  intros H. unfold strip. rewrite (lstrip_no_space _ H). by apply rstrip_no_space.
Qed.

Lemma contains_char_app c s1 s2 :
  contains_char c (s1 +:+ s2) = contains_char c s1 || contains_char c s2.
Proof.
  induction s1 as [|c' r IH]; simpl; [done|]. by rewrite IH, orb_assoc.
Qed.

Lemma contains_char_all_chars (p : ascii -> bool) c s :
  p c = false -> all_chars p s = true -> contains_char c s = false.
Proof.
  intros Hc. induction s as [|c' r IH]; simpl; [done|].
  rewrite andb_true_iff. intros [Hc' Hr]. rewrite (IH Hr), orb_false_r.
  destruct (Ascii.eqb_spec c' c) as [->|]; [congruence|done].
Qed.

Lemma split_no_sep sep s : contains_char sep s = false -> split sep s = [s].
Proof.
  induction s as [|c r IH]; simpl; [done|].
  rewrite orb_false_iff. intros [-> Hr]. by rewrite (IH Hr).
Qed.

Lemma split_app_sep sep s1 s2 :
  contains_char sep s1 = false ->
  split sep (s1 +:+ String sep s2) = s1 :: split sep s2.
Proof.
  induction s1 as [|c r IH]; simpl.
  - intros _. by rewrite Ascii.eqb_refl.
  - rewrite orb_false_iff. intros [-> Hr]. by rewrite (IH Hr).
Qed.

Lemma digits_value_app acc s1 s2 :
  digits_value acc (s1 +:+ s2) = digits_value (digits_value acc s1) s2.
Proof. revert acc. induction s1 as [|c r IH]; intros acc; simpl; [done|]. apply IH. Qed.

Lemma int_tail_digits acc s :
  all_chars is_digit s = true -> int_tail acc s = Some (digits_value acc s).
Proof.
  revert acc. induction s as [|c r IH]; intros acc; simpl; [done|].
  rewrite andb_true_iff. intros [-> Hr]. by apply IH.
Qed.

Lemma count_digits_all s :
  all_chars is_digit s = true -> count_digits s = String.length s.
Proof.
  induction s as [|c r IH]; simpl; [done|].
  rewrite andb_true_iff. intros [-> Hr]. by rewrite (IH Hr).
Qed.

Lemma int_digits_digits s :
  all_chars is_digit s = true -> s <> EmptyString ->
  (String.length s <= max_str_digits)%nat ->
  int_digits s = Some (digits_value 0 s).
Proof.
  intros Hd Hne Hlen. pose proof (count_digits_all s Hd) as Hcount.
  destruct s as [|c r]; [done|]. unfold int_digits.
  cbn [all_chars] in Hd. apply andb_true_iff in Hd as [Hc Hr].
  rewrite Hc, (int_tail_digits _ _ Hr), Hcount.
  apply Nat.leb_le in Hlen. rewrite Hlen. reflexivity.
Qed.

Lemma int_digits_too_long s :
  (max_str_digits < count_digits s)%nat -> int_digits s = None.
Proof.
  intros Hlong. destruct s as [|c r]; [done|]. unfold int_digits.
  destruct (is_digit c); [|done]. destruct (int_tail _ _); [|done].
  apply Nat.leb_gt in Hlong. by rewrite Hlong.
Qed.

Lemma max_str_digits_ge_2 : (2 <= max_str_digits)%nat.
Proof. apply Nat.leb_le. vm_compute. reflexivity. Qed.

Lemma is_digit_not_space c : is_digit c = true -> negb (is_space c) = true.
Proof.
  unfold is_digit, is_space. generalize (nat_of_ascii c). intros n H.
  apply andb_true_iff in H as [H1 H2].
  apply Nat.leb_le in H1. apply Nat.leb_le in H2.
  apply negb_true_iff. repeat (apply orb_false_iff; split).
  all: try (apply andb_false_iff; left; apply Nat.leb_gt; lia).
  all: try (apply andb_false_iff; right; apply Nat.leb_gt; lia).
  all: apply Nat.eqb_neq; lia.
Qed.

Lemma is_digit_digit_char d : (0 <= d < 10)%Z -> is_digit (digit_char d) = true.
Proof.
  intros Hd. assert (Hc : In d [0; 1; 2; 3; 4; 5; 6; 7; 8; 9]%Z).
  { simpl. lia. }
  simpl in Hc. intuition subst; reflexivity.
Qed.

Lemma digit_val_digit_char d : (0 <= d < 10)%Z -> digit_val (digit_char d) = d.
Proof.
  intros Hd. assert (Hc : In d [0; 1; 2; 3; 4; 5; 6; 7; 8; 9]%Z).
  { simpl. lia. }
  simpl in Hc. intuition subst; reflexivity.
Qed.

Lemma dec_digits n : (0 <= n)%Z -> all_chars is_digit (dec n) = true.
Proof.
  funelim (dec n); intros Hn; simpl.
  - rewrite is_digit_digit_char by lia. done.
  - rewrite all_chars_app. simpl.
    rewrite is_digit_digit_char by (apply Z.mod_pos_bound; lia).
    rewrite andb_true_r.
    match goal with IH : _ -> all_chars _ _ = true |- _ => apply IH end.
    apply Z.div_pos; lia.
Qed.

Lemma dec_nonempty n : dec n <> EmptyString.
Proof.
  funelim (dec n); simpl; [done|].
  destruct (dec (n / 10)); done.
Qed.

Lemma dec_value n : (0 <= n)%Z -> digits_value 0 (dec n) = n.
Proof.
  funelim (dec n); intros Hn; simpl.
  - rewrite digit_val_digit_char by lia. lia.
  - rewrite digits_value_app. simpl.
    match goal with IH : _ -> digits_value _ _ = _ |- _ => rewrite IH end.
    + rewrite digit_val_digit_char by (apply Z.mod_pos_bound; lia).
      pose proof (Z.div_mod n 10 ltac:(lia)). lia.
    + apply Z.div_pos; lia.
Qed.

Lemma string_length_append s1 s2 :
  String.length (s1 +:+ s2) = (String.length s1 + String.length s2)%nat.
Proof. induction s1 as [|c r IH]; simpl; [done|]. by rewrite IH. Qed.

(** The decimal text of [n] has at most [k] digits exactly when
    [n < 10 ^ k]. *)
Lemma dec_step n :
  (10 <= n)%Z -> dec n = dec (n / 10) +:+ String (digit_char (n mod 10)) EmptyString.
Proof. funelim (dec n); intros Hn; [lia|reflexivity]. Qed.

Lemma dec_small n : (n < 10)%Z -> dec n = String (digit_char n) EmptyString.
Proof. funelim (dec n); intros Hn; [reflexivity|lia]. Qed.

Lemma dec_length_le (k : nat) (n : Z) :
  (0 <= n < 10 ^ Z.of_nat (S k))%Z -> (String.length (dec n) <= S k)%nat.
Proof.
  revert n. induction k as [|k IH]; intros n Hn.
  - rewrite dec_small by (change (10 ^ Z.of_nat 1)%Z with 10%Z in Hn; lia). simpl. lia.
  - destruct (Z_lt_dec n 10) as [Hlt|Hge].
    + rewrite dec_small by done. simpl. lia.
    + rewrite dec_step by lia. rewrite string_length_append. simpl.
      assert (Hdiv : (0 <= n / 10 < 10 ^ Z.of_nat (S k))%Z).
      { split; [apply Z.div_pos; lia|].
        apply Z.div_lt_upper_bound; [lia|].
        rewrite (Nat2Z.inj_succ (S k)), Z.pow_succ_r in Hn by lia. lia. }
      pose proof (IH _ Hdiv). lia.
Qed.

Lemma dec_length_gt (k : nat) (n : Z) :
  (10 ^ Z.of_nat k <= n)%Z -> (k < String.length (dec n))%nat.
Proof.
  revert n. induction k as [|k IH]; intros n Hn.
  - pose proof (dec_nonempty n). destruct (dec n); [done|]. simpl. lia.
  - rewrite Nat2Z.inj_succ, Z.pow_succ_r in Hn by lia.
    assert (Hpos : (0 < 10 ^ Z.of_nat k)%Z) by (apply Z.pow_pos_nonneg; lia).
    rewrite dec_step by lia. rewrite string_length_append. simpl.
    assert (Hdiv : (10 ^ Z.of_nat k <= n / 10)%Z).
    { apply Z.div_le_lower_bound; lia. }
    pose proof (IH _ Hdiv). lia.
Qed.

Lemma dec_fits n :
  (0 <= n < 10 ^ Z.of_nat max_str_digits)%Z ->
  (String.length (dec n) <= max_str_digits)%nat.
Proof.
  pose proof max_str_digits_ge_2 as Hmax.
  destruct max_str_digits as [|k]; [lia|]. apply dec_length_le.
Qed.

Lemma dec_overflows n :
  (10 ^ Z.of_nat max_str_digits <= n)%Z ->
  (max_str_digits < String.length (dec n))%nat.
Proof. apply dec_length_gt. Qed.

End StringFacts.

(** ** Duration codec *)

Section DurationFacts.
Import PyStr Duration.

Lemma int_of_str_run s :
  all_chars is_digit s = true -> s <> EmptyString ->
  int_of_str s = int_digits s.
Proof.
  intros Hd Hne. unfold int_of_str.
  rewrite strip_no_space by (eapply all_chars_weaken; [apply is_digit_not_space|done]).
  destruct s as [|c r]; [done|].
  assert (Hc : is_digit c = true)
    by (cbn [all_chars] in Hd; by apply andb_true_iff in Hd as [? _]).
  destruct (Ascii.eqb_spec c "-") as [->|_]; [done|].
  destruct (Ascii.eqb_spec c "+") as [->|_]; [done|].
  reflexivity.
Qed.

Lemma int_of_str_digits s :
  all_chars is_digit s = true -> s <> EmptyString ->
  (String.length s <= max_str_digits)%nat ->
  int_of_str s = Some (digits_value 0 s).
Proof.
  intros Hd Hne Hlen. rewrite int_of_str_run by done. by apply int_digits_digits.
Qed.

(** A run of more digits than the limit is a [ValueError]. *)
Lemma int_of_str_too_long s :
  all_chars is_digit s = true -> (max_str_digits < String.length s)%nat ->
  int_of_str s = None.
Proof.
  intros Hd Hlong.
  assert (Hne : s <> EmptyString) by (intros ->; simpl in Hlong; lia).
  rewrite int_of_str_run by done. apply int_digits_too_long.
  by rewrite count_digits_all.
Qed.

Lemma py_int_dec n :
  (0 <= n < 10 ^ Z.of_nat max_str_digits)%Z -> py_int (VStr (dec n)) = Ok n.
Proof.
  intros Hn. cbn [py_int].
  rewrite int_of_str_digits
    by (apply dec_digits; lia) || apply dec_nonempty || (by apply dec_fits).
  rewrite dec_value by lia. reflexivity.
Qed.

Lemma py_int_dec_too_long n :
  (10 ^ Z.of_nat max_str_digits <= n)%Z -> py_int (VStr (dec n)) = Raise ValueError.
Proof.
  intros Hn. cbn [py_int].
  assert (Hpos : (0 < 10 ^ Z.of_nat max_str_digits)%Z) by (apply Z.pow_pos_nonneg; lia).
  rewrite int_of_str_too_long; [done| |by apply dec_overflows].
  apply dec_digits. lia.
Qed.

Lemma pad2_digits n : (0 <= n)%Z -> all_chars is_digit (pad2 n) = true.
Proof.
  intros Hn. unfold pad2. destruct (n <? 10)%Z; simpl; by rewrite dec_digits.
Qed.

Lemma pad2_large n : (10 <= n)%Z -> pad2 n = dec n.
Proof. intros Hn. unfold pad2. by destruct (Z.ltb_spec n 10); [lia|]. Qed.

Lemma py_int_pad2 n :
  (0 <= n < 10 ^ Z.of_nat max_str_digits)%Z -> py_int (VStr (pad2 n)) = Ok n.
Proof.
  intros Hn. destruct (Z_lt_dec n 10) as [Hlt|Hge].
  - cbn [py_int]. rewrite int_of_str_digits.
    + unfold pad2. destruct (Z.ltb_spec n 10); [|lia].
      cbn [digits_value]. change (10 * 0 + digit_val "0")%Z with 0%Z.
      rewrite dec_value by lia. reflexivity.
    + apply pad2_digits. lia.
    + unfold pad2. by destruct (n <? 10)%Z; [|apply dec_nonempty].
    + unfold pad2. destruct (Z.ltb_spec n 10); [|lia].
      rewrite dec_small by done. pose proof max_str_digits_ge_2. simpl. lia.
  - rewrite pad2_large by lia. by apply py_int_dec.
Qed.

Lemma py_int_pad2_too_long n :
  (10 ^ Z.of_nat max_str_digits <= n)%Z -> py_int (VStr (pad2 n)) = Raise ValueError.
Proof.
  intros Hn. pose proof max_str_digits_ge_2 as Hmax.
  assert (Hten : (10 ^ 1 <= 10 ^ Z.of_nat max_str_digits)%Z)
    by (apply Z.pow_le_mono_r; lia).
  rewrite pad2_large by lia. by apply py_int_dec_too_long.
Qed.

Lemma span_digits_run ds t rest :
  all_chars is_digit ds = true -> is_digit t = false ->
  span_digits (ds +:+ String t rest) = (ds, String t rest).
Proof.
  intros Hds Ht. induction ds as [|c r IH]; simpl.
  - by rewrite Ht.
  - simpl in Hds. apply andb_true_iff in Hds as [-> Hr]. by rewrite (IH Hr).
Qed.

Lemma opt_group_run tag ds rest :
  all_chars is_digit ds = true -> ds <> EmptyString -> is_digit tag = false ->
  opt_group tag (ds +:+ String tag rest) = (Some ds, rest).
Proof.
  intros Hds Hne Ht. unfold opt_group. rewrite span_digits_run by done.
  destruct ds as [|c r]; [done|]. by rewrite Ascii.eqb_refl.
Qed.

Lemma group_int_text n : group_int (Some (dec n)) = py_int (VStr (dec n)).
Proof.
  unfold group_int.
  by destruct (String.eqb_spec (dec n) "") as [He|_]; [apply dec_nonempty in He|].
Qed.

Lemma group_int_dec n :
  (0 <= n < 10 ^ Z.of_nat max_str_digits)%Z -> group_int (Some (dec n)) = Ok n.
Proof. intros Hn. rewrite group_int_text. by apply py_int_dec. Qed.

Lemma truthy_nonempty c r : truthy (VStr (String c r)) = true.
Proof. reflexivity. Qed.

(** What the parser does with a designator text [PT<h>H<m>M]: both
    components are converted, and an exception of either conversion
    leaves 0. *)
Lemma parse_designator_groups h mi :
  (0 <= h)%Z -> (0 <= mi)%Z ->
  parse_iso_duration_to_minutes
    (VStr ("PT" +:+ dec h +:+ "H" +:+ dec mi +:+ "M"))
  = try_except (hours ← py_int (VStr (dec h));
                minutes ← py_int (VStr (dec mi));
                Ok (hours * 60 + minutes)%Z)
               (fun _ => Ok 0%Z).
Proof.
  intros Hh Hm.
  set (body := dec h +:+ "H" +:+ dec mi +:+ "M").
  assert (Hns : all_chars (fun c => negb (is_space c)) ("PT" +:+ body) = true).
  { subst body. simpl. rewrite !all_chars_app. simpl.
    rewrite !(all_chars_weaken is_digit _ _ is_digit_not_space) by by apply dec_digits.
    done. }
  assert (Hnc : contains_char ":" ("PT" +:+ body) = false).
  { subst body. simpl. rewrite !contains_char_app. simpl.
    rewrite !(contains_char_all_chars is_digit) by (done || by apply dec_digits).
    done. }
  unfold parse_iso_duration_to_minutes.
  change ("PT" +:+ body) with (String "P" (String "T" body)) in *.
  rewrite truthy_nonempty. simpl negb. cbv iota.
  unfold parse_duration_body. rewrite (strip_no_space _ Hns), Hnc.
  change (startswith "PT" (String "P" (String "T" body))) with true. cbv iota.
  unfold re_match_duration. subst body.
  change (dec h +:+ "H" +:+ dec mi +:+ "M")
    with (dec h +:+ String "H" (dec mi +:+ String "M" "")).
  rewrite opt_group_run by (by apply dec_digits || apply dec_nonempty || done).
  rewrite opt_group_run by (by apply dec_digits || apply dec_nonempty || done).
  rewrite !group_int_text. reflexivity.
Qed.

(** A designator text [PT<h>H<m>M] whose components are within the
    digit limit parses to [60 h + m]. *)
Lemma parse_designator_text h mi :
  (0 <= h < 10 ^ Z.of_nat max_str_digits)%Z ->
  (0 <= mi < 10 ^ Z.of_nat max_str_digits)%Z ->
  parse_iso_duration_to_minutes
    (VStr ("PT" +:+ dec h +:+ "H" +:+ dec mi +:+ "M")) = Ok (h * 60 + mi)%Z.
Proof.
  intros Hh Hm. rewrite parse_designator_groups by lia.
  rewrite !py_int_dec by done. reflexivity.
Qed.

(** With an hour component beyond the digit limit the conversion
    raises and the parser answers 0. *)
Lemma parse_designator_text_too_long h mi :
  (10 ^ Z.of_nat max_str_digits <= h)%Z -> (0 <= mi)%Z ->
  parse_iso_duration_to_minutes
    (VStr ("PT" +:+ dec h +:+ "H" +:+ dec mi +:+ "M")) = Ok 0%Z.
Proof.
  intros Hh Hm.
  assert (Hpos : (0 < 10 ^ Z.of_nat max_str_digits)%Z) by (apply Z.pow_pos_nonneg; lia).
  rewrite parse_designator_groups by lia.
  rewrite (py_int_dec_too_long h) by done. reflexivity.
Qed.

(** What the parser does with a colon text [hh:mm] of two digit
    runs. *)
Lemma parse_colon_parts h mi :
  (0 <= h)%Z -> (0 <= mi)%Z ->
  parse_iso_duration_to_minutes (VStr (pad2 h +:+ ":" +:+ pad2 mi))
  = try_except (hours ← py_int (VStr (pad2 h));
                minutes ← py_int (VStr (pad2 mi));
                Ok (hours * 60 + minutes)%Z)
               (fun _ => Ok 0%Z).
Proof.
  intros Hh Hm.
  set (text := pad2 h +:+ ":" +:+ pad2 mi).
  assert (Hns : all_chars (fun c => negb (is_space c)) text = true).
  { subst text. rewrite !all_chars_app. simpl.
    rewrite !(all_chars_weaken is_digit _ _ is_digit_not_space) by by apply pad2_digits.
    done. }
  assert (Hc : contains_char ":" text = true).
  { subst text. rewrite !contains_char_app. simpl. by rewrite orb_true_r. }
  assert (Hsp : split ":" text = [pad2 h; pad2 mi]).
  { subst text. change (":" +:+ pad2 mi) with (String ":" (pad2 mi)).
    rewrite split_app_sep, split_no_sep; [done| |];
      by apply (contains_char_all_chars is_digit); [|apply pad2_digits]. }
  assert (Hne : exists c r, text = String c r).
  { subst text. unfold pad2 at 1. destruct (h <? 10)%Z; simpl; [by eauto|].
    pose proof (dec_nonempty h). destruct (dec h); [done|]. simpl. by eauto. }
  destruct Hne as (c & r & Hcr).
  unfold parse_iso_duration_to_minutes.
  rewrite Hcr, truthy_nonempty, <- Hcr. simpl negb. cbv iota.
  unfold parse_duration_body. rewrite (strip_no_space _ Hns), Hc, Hsp.
  reflexivity.
Qed.

(** A colon text [hh:mm] whose parts are within the digit limit parses
    to [60 h + m]; with an hour part beyond it the parser answers 0. *)
Lemma parse_colon_text h mi :
  (0 <= h < 10 ^ Z.of_nat max_str_digits)%Z ->
  (0 <= mi < 10 ^ Z.of_nat max_str_digits)%Z ->
  parse_iso_duration_to_minutes (VStr (pad2 h +:+ ":" +:+ pad2 mi))
  = Ok (h * 60 + mi)%Z.
Proof.
  intros Hh Hm. rewrite parse_colon_parts by lia.
  rewrite !py_int_pad2 by done. reflexivity.
Qed.

Lemma parse_colon_text_too_long h mi :
  (10 ^ Z.of_nat max_str_digits <= h)%Z -> (0 <= mi)%Z ->
  parse_iso_duration_to_minutes (VStr (pad2 h +:+ ":" +:+ pad2 mi)) = Ok 0%Z.
Proof.
  intros Hh Hm.
  assert (Hpos : (0 < 10 ^ Z.of_nat max_str_digits)%Z) by (apply Z.pow_pos_nonneg; lia).
  rewrite parse_colon_parts by lia.
  rewrite (py_int_pad2_too_long h) by done. reflexivity.
Qed.

Lemma sixty_fits : (60 <= 10 ^ Z.of_nat max_str_digits)%Z.
Proof.
  pose proof max_str_digits_ge_2 as Hmax.
  assert (H : (10 ^ 2 <= 10 ^ Z.of_nat max_str_digits)%Z)
    by (apply Z.pow_le_mono_r; lia).
  change (10 ^ 2)%Z with 100%Z in H. lia.
Qed.

(** C3, as stated, fails: [int()] refuses a literal of more than
    4300 digits, the parser turns that refusal into 0, and so the texts
    of [60 * 10 ^ 4300] minutes, whose hour count has 4301 digits, do
    not parse back. *)
Lemma duration_round_trip_breaks_at_the_digit_limit :
  let m := (60 * 10 ^ 4300)%Z in
  (0 < m)%Z
  /\ parse_iso_duration_to_minutes (VStr (render_designator m)) = Ok 0%Z
  /\ parse_iso_duration_to_minutes (VStr (render_colon m)) = Ok 0%Z.
Proof.
  intros m.
  assert (Hpos : (0 < 10 ^ 4300)%Z) by (apply Z.pow_pos_nonneg; lia).
  assert (Hq : (m / 60 = 10 ^ 4300)%Z).
  { subst m. rewrite Z.mul_comm. apply Z.div_mul. lia. }
  assert (Hr : (m mod 60 = 0)%Z).
  { subst m. rewrite Z.mul_comm. apply Z.mod_mul. lia. }
  split; [subst m; lia|].
  unfold render_designator, render_colon. rewrite Hq, Hr. split.
  - apply parse_designator_text_too_long; [|lia].
    change (Z.of_nat max_str_digits) with 4300%Z. lia.
  - apply parse_colon_text_too_long; [|lia].
    change (Z.of_nat max_str_digits) with 4300%Z. lia.
Qed.

(** C3, amended.  Round trip of the duration codec within the digit
    limit of [int()]: for every minute count [m >= 0] whose hour count
    has at most 4300 decimal digits, that is [m < 60 * 10 ^ 4300],
    parsing the designator-form text of [m] gives [m] back, and so does
    parsing its colon-form text; for every larger [m] both texts parse
    to 0. *)
Theorem duration_round_trip (m : Z) :
  (0 <= m)%Z ->
  ((m < 60 * 10 ^ Z.of_nat max_str_digits)%Z ->
     parse_iso_duration_to_minutes (VStr (render_designator m)) = Ok m
     /\ parse_iso_duration_to_minutes (VStr (render_colon m)) = Ok m)
  /\ ((60 * 10 ^ Z.of_nat max_str_digits <= m)%Z ->
      parse_iso_duration_to_minutes (VStr (render_designator m)) = Ok 0%Z
      /\ parse_iso_duration_to_minutes (VStr (render_colon m)) = Ok 0%Z).
Proof.
  intros Hm.
  assert (Hq : (0 <= m / 60)%Z) by (apply Z.div_pos; lia).
  assert (Hr : (0 <= m mod 60 < 60)%Z) by (apply Z.mod_pos_bound; lia).
  assert (Hdm : (m / 60 * 60 + m mod 60 = m)%Z).
  { pose proof (Z.div_mod m 60 ltac:(lia)). lia. }
  pose proof sixty_fits as Hsixty.
  unfold render_designator, render_colon. split.
  - intros Hfits.
    assert (Hh : (m / 60 < 10 ^ Z.of_nat max_str_digits)%Z)
      by (apply Z.div_lt_upper_bound; lia).
    rewrite parse_designator_text, parse_colon_text by lia. by rewrite Hdm.
  - intros Hlong.
    assert (Hh : (10 ^ Z.of_nat max_str_digits <= m / 60)%Z)
      by (apply Z.div_le_lower_bound; lia).
    by rewrite parse_designator_text_too_long, parse_colon_text_too_long by lia.
Qed.

Lemma duration_round_trip_witness :
  parse_iso_duration_to_minutes (VStr (render_designator 108)) = Ok 108%Z
  /\ parse_iso_duration_to_minutes (VStr (render_colon 108)) = Ok 108%Z.
Proof.
  apply (duration_round_trip 108); [lia|].
  apply Z.ltb_lt. vm_compute. reflexivity.
Defined.

(** The display renderer is not an inverse of the parser: its text is
    an unrecognized form. *)
Example readable_text_is_not_parsed :
  format_minutes_to_readable 63 = "1 hour 3 minutes"
  /\ parse_iso_duration_to_minutes (VStr (format_minutes_to_readable 63)) = Ok 0%Z.
Proof. split; reflexivity. Qed.

(** C8.  Every member of the zero-delay sentinel set, ["PT0H0M"],
    ["00:00"], the empty text and the absent value [None], parses to 0
    minutes. *)
Theorem zero_delay_sentinels_parse_to_zero :
  Forall (fun x => parse_iso_duration_to_minutes x = Ok 0%Z) zero_delay_sentinels.
Proof. repeat constructor. Qed.

End DurationFacts.

Section DurationTotality.
Import PyStr Duration.

Lemma try_except_default {A} (body : res A) (a : A) :
  exists r, try_except body (fun _ => Ok a) = Ok r.
Proof. destruct body; simpl; eauto. Qed.

Lemma py_int_str s :
  py_int (VStr s) = match int_of_str s with Some n => Ok n | None => Raise ValueError end.
Proof. reflexivity. Qed.

Lemma unrecognized_text_is_zero s :
  recognized_form s = false -> parse_iso_duration_to_minutes (VStr s) = Ok 0%Z.
Proof.
  unfold recognized_form, parse_iso_duration_to_minutes, parse_duration_body.
  destruct (truthy (VStr s)); [|done]. simpl negb. cbv iota.
  destruct (contains_char ":" (strip s)).
  - destruct (split ":" (strip s)) as [|p0 [|p1 [|p2 ps]]]; try done.
    rewrite !py_int_str.
    destruct (int_of_str p0) as [h|]; [|done].
    destruct (int_of_str p1) as [mi|]; [|done].
    intros H. exfalso. revert H. rewrite !bool_decide_eq_true_2 by eauto. done.
  - intros ->. done.
Qed.

(** C10.  The duration parser is total: on every input value it returns
    an integer and lets no exception escape; every unrecognized form
    (and every value that is not text) gives 0; and the result can be
    negative, as for the colon-form text ["-1:30"]. *)
Theorem parse_duration_total_not_nonnegative :
  (forall v : value, exists n : Z, parse_iso_duration_to_minutes v = Ok n)
  /\ (forall s : string, recognized_form s = false ->
        parse_iso_duration_to_minutes (VStr s) = Ok 0%Z)
  /\ (forall v : value, (forall s, v <> VStr s) ->
        parse_iso_duration_to_minutes v = Ok 0%Z)
  /\ (parse_iso_duration_to_minutes (VStr "-1:30") = Ok (-30)%Z /\ (-30 < 0)%Z).
Proof.
  split; [|split; [|split]].
  - intros v. unfold parse_iso_duration_to_minutes.
    destruct (truthy v); simpl; [apply try_except_default | eauto].
  - apply unrecognized_text_is_zero.
  - intros v Hv. unfold parse_iso_duration_to_minutes.
    destruct (truthy v); [|done]. simpl.
    destruct v; try done. by destruct (Hv s).
  - split; [reflexivity | lia].
Qed.

Lemma parse_duration_total_not_nonnegative_witness :
  recognized_form "about an hour" = false
  /\ parse_iso_duration_to_minutes (VStr "about an hour") = Ok 0%Z
  /\ parse_iso_duration_to_minutes (VInt 90) = Ok 0%Z.
Proof.
  split; [reflexivity|]. split.
  - apply (proj1 (proj2 parse_duration_total_not_nonnegative)). reflexivity.
  - apply (proj1 (proj2 (proj2 parse_duration_total_not_nonnegative))). discriminate.
Defined.

End DurationTotality.

(** ** Dates *)

Example validate_date_dmy : Dates.validate_date "23-06-2024" = Some "2024-06-23".
Proof. vm_compute. reflexivity. Qed.
Example validate_date_bad : Dates.validate_date "2024-13-45" = None.
Proof. vm_compute. reflexivity. Qed.
Example validate_date_iso : Dates.validate_date "2024-6-3" = Some "2024-06-03".
Proof. vm_compute. reflexivity. Qed.
Example validate_date_long : Dates.validate_date "June 23, 2024" = Some "2024-06-23".
Proof. vm_compute. reflexivity. Qed.
Example validate_date_abbr : Dates.validate_date "23 JUN 2024" = Some "2024-06-23".
Proof. vm_compute. reflexivity. Qed.
Example validate_date_feb30 : Dates.validate_date "2023-02-29" = None.
Proof. vm_compute. reflexivity. Qed.
Example validate_date_leap : Dates.validate_date "29/02/2024" = Some "2024-02-29".
Proof. vm_compute. reflexivity. Qed.
Example validate_date_trailing : Dates.validate_date "2024-06-231" = None.
Proof. vm_compute. reflexivity. Qed.

(** ** The candidate resolver *)

Section ResolverFacts.
Import Server.
Local Open Scope nat_scope.

Implicit Types (seen : gset flight_key) (docs : list candidate).

Lemma row_key_unfold d k :
  row_key d = Ok k ->
  exists fl, leg_state d = Ok fl /\ unique_key fl = Ok k.
Proof.
  unfold row_key. destruct (leg_state d) as [fl|e]; simpl; [eauto|done].
Qed.

Lemma row_keys_cons d rest ks :
  row_keys (d :: rest) = Ok ks ->
  exists k ks', ks = k :: ks' /\ row_key d = Ok k /\ row_keys rest = Ok ks'.
Proof.
  simpl. destruct (row_key d) as [k|]; simpl; [|done].
  destruct (row_keys rest) as [ks'|]; simpl; [|done].
  intros [= <-]. eauto.
Qed.

(** The loop returns, and the number of candidates it holds is the
    number of keys not seen before, capped at [limit]. *)
Lemma scan_cursor_count limit rows : forall seen docs ks,
  row_keys rows = Ok ks ->
  length docs < limit ->
  exists out,
    scan_cursor limit rows seen docs = Ok out
    /\ length out = (length docs + size (list_to_set ks ∖ seen)) `min` limit.
Proof.
  induction rows as [|d rest IH]; intros seen docs ks Hks Hlen.
  - injection Hks as <-. exists docs. split; [done|].
    simpl. rewrite difference_disjoint_L by set_solver.
    rewrite size_empty. lia.
  - apply row_keys_cons in Hks as (k & ks' & -> & Hk & Hrest).
    apply row_key_unfold in Hk as (fl & Hfl & Hkey).
    simpl. rewrite Hfl. simpl. rewrite Hkey. simpl.
    destruct (decide (k ∈ seen)) as [Hin|Hnin].
    + destruct (IH seen docs ks' Hrest Hlen) as (out & Hout & Hsize).
      exists out. split; [done|]. rewrite Hsize.
      replace (({[k]} ∪ list_to_set ks') ∖ seen) with (list_to_set ks' ∖ seen : gset _)
        by set_solver. done.
    + assert (Hsz : size (({[k]} ∪ list_to_set ks') ∖ seen)
                    = S (size (list_to_set ks' ∖ ({[k]} ∪ seen)))).
      { replace (({[k]} ∪ list_to_set ks') ∖ seen)
          with ({[k]} ∪ (list_to_set ks' ∖ ({[k]} ∪ seen)) : gset _).
        - rewrite size_union by set_solver. by rewrite size_singleton.
        - apply set_eq. intros x. rewrite !elem_of_union, !elem_of_difference,
            !elem_of_union, !elem_of_singleton.
          destruct (decide (x = k)) as [->|]; naive_solver. }
      rewrite Hsz. rewrite length_app. simpl.
      destruct (Nat.leb_spec limit (length docs + 1)) as [Hle|Hgt].
      * eexists. split; [done|]. rewrite length_app. simpl. lia.
      * destruct (IH ({[k]} ∪ seen) (docs ++ [candidate_of d fl])%list ks' Hrest) as (out & Hout & Hsize).
        { rewrite length_app. simpl. lia. }
        exists out. split; [done|]. rewrite Hsize, length_app. simpl. lia.
Qed.

End ResolverFacts.

Section ResolverClassification.
Import Server.
Local Open Scope nat_scope.

Lemma find_meta_count_documents col query limit :
  let meta := _find_matching_doc_meta col query limit in
  meta_count meta = length (meta_documents meta).
Proof.
  unfold _find_matching_doc_meta.
  destruct (count_documents col query); simpl; [|done].
  destruct (find_sorted col query); simpl; [|done].
  by destruct (scan_cursor _ _ _ _).
Qed.

(** Without an exception the count is the number of distinct keys among
    the rows fetched, capped at the limit. *)
Lemma find_meta_unique_count col query limit n rows ks :
  0 < limit ->
  count_documents col query = Ok n ->
  find_sorted col query = Ok rows ->
  row_keys (cursor_limit (limit * 2) rows) = Ok ks ->
  let meta := _find_matching_doc_meta col query limit in
  meta_error meta = None
  /\ meta_count meta = size (list_to_set ks : gset flight_key) `min` limit.
Proof.
  intros Hlimit Hcount Hfind Hks. unfold _find_matching_doc_meta.
  rewrite Hcount, Hfind. simpl.
  destruct (scan_cursor_count limit _ ∅ [] ks Hks) as (out & -> & Hsize);
    [simpl; lia|].
  simpl. split; [done|]. rewrite Hsize. simpl.
  by rewrite difference_empty_L.
Qed.

Lemma row_keys_same_key rows k :
  Forall (fun d => row_key d = Ok k) rows ->
  row_keys rows = Ok (replicate (length rows) k).
Proof.
  induction 1 as [|d rest Hd _ IH]; simpl; [done|]. by rewrite Hd, IH.
Qed.

Lemma size_replicate_key (k : flight_key) n :
  size (list_to_set (replicate (S n) k) : gset flight_key) = 1.
Proof.
  assert (H : (list_to_set (replicate (S n) k) : gset flight_key) = {[k]}).
  { induction n as [|n IH]; simpl in *; [set_solver|]. rewrite IH. set_solver. }
  rewrite H. apply size_singleton.
Qed.

(** Deduplication: any number [N >= 1] of raw records that share one
    key leave exactly one candidate. *)
Lemma find_meta_dedup col query limit n rows k :
  0 < limit ->
  count_documents col query = Ok n ->
  find_sorted col query = Ok rows ->
  rows <> [] ->
  Forall (fun d => row_key d = Ok k) rows ->
  let meta := _find_matching_doc_meta col query limit in
  meta_error meta = None /\ meta_count meta = 1.
Proof.
  intros Hlimit Hcount Hfind Hne Hall.
  set (window := cursor_limit (limit * 2) rows).
  assert (Hw : Forall (fun d => row_key d = Ok k) window /\ window <> []).
  { subst window. unfold cursor_limit.
    destruct (Nat.eqb_spec (limit * 2) 0) as [|_]; [lia|].
    split; [by apply Forall_take|].
    destruct rows; [done|]. destruct limit; [lia|]. done. }
  destruct Hw as [Hwall Hwne].
  pose proof (row_keys_same_key _ _ Hwall) as Hks.
  destruct (find_meta_unique_count col query limit n rows _ Hlimit Hcount Hfind Hks)
    as [Herr Hcnt].
  split; [done|]. rewrite Hcnt.
  destruct window as [|d w]; [done|]. simpl length.
  rewrite size_replicate_key. lia.
Qed.

(** Classification by the count, as [resolve] does it. *)
Lemma resolve_classification col query projection not_found :
  let meta := _find_matching_doc_meta col query 50 in
  let error := opt_text (meta_error meta) in
  (error <> EmptyString ->
     resolve col query projection not_found
     = response_error ("DB error: " +:+ error) 500)
  /\ (error = EmptyString -> meta_count meta = 0 ->
        resolve col query projection not_found = response_error not_found 404)
  /\ (error = EmptyString -> meta_count meta = 1 ->
        exists c, meta_documents meta = [c]
          /\ resolve col query projection not_found
             = match _get_document_by_id col (doc_id c) projection with
               | Some (kv :: full_doc) => response_ok (VDict (kv :: full_doc))
               | _ => response_error "Document not found" 404
               end)
  /\ (error = EmptyString -> 1 < meta_count meta ->
        length (meta_documents meta) = meta_count meta
        /\ resolve col query projection not_found
           = response_ok
               (VDict [("needs_route_selection", VBool true);
                       ("count", VInt (Z.of_nat (meta_count meta)));
                       ("matches", VList (candidate_value <$> meta_documents meta));
                       ("original_query", VDict query)])).
Proof.
  intros meta error. pose proof (find_meta_count_documents col query 50) as Hlen.
  fold meta in Hlen. simpl in Hlen. unfold resolve. fold meta. fold error.
  split; [|split; [|split]].
  - intros Hne. simpl. destruct (String.eqb_spec error EmptyString); done.
  - intros He H0. rewrite He. simpl. by rewrite H0.
  - intros He H1. rewrite He. simpl. rewrite H1 in *. simpl.
    destruct (meta_documents meta) as [|c [|c' rest]]; try done. by exists c.
  - intros He Hgt. rewrite He. simpl. split; [done|].
    destruct (meta_count meta) as [|[|n]]; [lia|lia|done].
Qed.

End ResolverClassification.

Section ResolverClaims.
Import Server.
Local Open Scope nat_scope.

Example three_legs_two_routes :
  let col := Examples.collection_of
               [(Examples.oid1, Examples.del_bom 1); (Examples.oid2, Examples.del_bom 2);
                (Examples.oid3, Examples.bom_goi 1)] in
  let meta := _find_matching_doc_meta col [] 50 in
  meta_count meta = 2
  /\ doc_id <$> meta_documents meta
     = ["65a1f0c2e4b0a1b2c3d4e5f1"; "65a1f0c2e4b0a1b2c3d4e5f3"].
Proof. vm_compute. done. Qed.

Example unreachable_store_is_500 :
  get_flight_basic_info Examples.unreachable "6E" "215" "2024-06-23" None None
  = response_error "DB error: connection refused" 500.
Proof. vm_compute. reflexivity. Qed.

(** C1, as stated, fails: a collection whose only matching document has
    an integer [_id].  There is exactly one unique candidate, yet the
    lookup answers 404 and carries no record, because the fetch by handle
    tries the handle as an ObjectId and as a text only. *)
Lemma single_candidate_not_resolved :
  let col := Examples.collection_of [(IntId 7, Examples.del_bom 1)] in
  let query := make_query "6E" (Some 215%Z) (Some "2024-06-23") None None in
  meta_count (_find_matching_doc_meta col query 50) = 1
  /\ get_flight_basic_info col "6E" "215" "2024-06-23" None None
     = response_error "Document not found" 404.
Proof. vm_compute. done. Qed.

(** A store failure is told from an empty result by the text of the
    exception alone: a failure whose text is empty is answered 404. *)
Example silent_store_failure_is_404 :
  meta_error (_find_matching_doc_meta Examples.silent_failure [] 50) = Some EmptyString
  /\ get_flight_basic_info Examples.silent_failure "6E" "215" "2024-06-23" None None
     = response_error "No matching document found." 404.
Proof. vm_compute. done. Qed.

(** The key of a row is the tuple of its five fields. *)
Lemma row_key_fields d fl c n o s e :
  leg_state d = Ok fl ->
  hash_value (fl_get "carrier" fl) = Ok c ->
  hash_value (fl_get "flightNumber" fl) = Ok n ->
  hash_value (fl_get "dateOfOrigin" fl) = Ok o ->
  hash_value (fl_get "startStation" fl) = Ok s ->
  hash_value (fl_get "endStation" fl) = Ok e ->
  row_key d = Ok (c, n, o, s, e).
Proof.
  intros Hfl Hc Hn Ho Hs He. unfold row_key, unique_key.
  rewrite Hfl. cbn. rewrite Hc. cbn. rewrite Hn. cbn. rewrite Ho. cbn.
  rewrite Hs. cbn. by rewrite He.
Qed.

(** What the search leaves when a call on the collection raises. *)
Lemma find_meta_failure col query limit e :
  count_documents col query = Raise e
  \/ (exists n, count_documents col query = Ok n) /\ find_sorted col query = Raise e ->
  let meta := _find_matching_doc_meta col query limit in
  meta_error meta = Some (exn_text e) /\ meta_count meta = 0 /\ meta_documents meta = [].
Proof.
  intros [Hc|[[n Hc] Hf]]; unfold _find_matching_doc_meta; rewrite Hc; cbn; [done|].
  by rewrite Hf.
Qed.

Lemma resolve_failure col query projection not_found msg :
  meta_error (_find_matching_doc_meta col query 50) = Some msg ->
  resolve col query projection not_found
  = if String.eqb msg EmptyString then response_error not_found 404
    else response_error ("DB error: " +:+ msg) 500.
Proof.
  intros Herr.
  assert (Hcount : meta_count (_find_matching_doc_meta col query 50) = 0).
  { revert Herr. unfold _find_matching_doc_meta.
    by destruct (_ ← count_documents col query; _). }
  unfold resolve. rewrite Herr, Hcount. cbn.
  by destruct (String.eqb msg EmptyString).
Qed.

(** C1, amended.  For every lookup query the resolver deduplicates the
    raw records it fetches (the first hundred in schedule order) by the
    Canonical Flight Key, the tuple of the fields carrier, flightNumber,
    dateOfOrigin, startStation and endStation: any [N >= 1] records that
    agree on these five fields leave exactly one candidate, and the
    count is the number of distinct keys, capped at 50.  The lookup then
    classifies.  A call on the collection that raises gives a 500
    envelope when the text of the exception is not empty, and the 404 of
    an empty result when it is empty; a count of zero gives 404; a count
    of one gives the record fetched by the candidate's handle as the
    resolved outcome, or 404 when that fetch returns nothing; a larger
    count gives the ambiguous outcome with the flag, the count, the
    whole candidate list and the original query. *)
Theorem candidate_resolver_dedup_and_classification
    (col : Store) (query projection : dict) (not_found : string) :
  let meta := _find_matching_doc_meta col query 50 in
  let error := opt_text (meta_error meta) in
  (forall n rows (c f o s e : hashed),
      count_documents col query = Ok n -> find_sorted col query = Ok rows ->
      rows <> [] ->
      Forall (fun d => exists fl,
                leg_state d = Ok fl
                /\ hash_value (fl_get "carrier" fl) = Ok c
                /\ hash_value (fl_get "flightNumber" fl) = Ok f
                /\ hash_value (fl_get "dateOfOrigin" fl) = Ok o
                /\ hash_value (fl_get "startStation" fl) = Ok s
                /\ hash_value (fl_get "endStation" fl) = Ok e) rows ->
      meta_error meta = None /\ meta_count meta = 1)
  /\ (forall n rows ks,
      count_documents col query = Ok n -> find_sorted col query = Ok rows ->
      row_keys (take 100 rows) = Ok ks ->
      meta_error meta = None
      /\ meta_count meta = size (list_to_set ks : gset flight_key) `min` 50)
  /\ (forall exc,
      count_documents col query = Raise exc
      \/ (exists n, count_documents col query = Ok n) /\ find_sorted col query = Raise exc ->
      meta_error meta = Some (exn_text exc)
      /\ resolve col query projection not_found
         = if String.eqb (exn_text exc) EmptyString
           then response_error not_found 404
           else response_error ("DB error: " +:+ exn_text exc) 500)
  /\ (error <> EmptyString ->
      resolve col query projection not_found
      = response_error ("DB error: " +:+ error) 500)
  /\ (error = EmptyString -> meta_count meta = 0 ->
      resolve col query projection not_found = response_error not_found 404)
  /\ (error = EmptyString -> meta_count meta = 1 ->
      exists c, meta_documents meta = [c]
        /\ resolve col query projection not_found
           = match _get_document_by_id col (doc_id c) projection with
             | Some (kv :: full_doc) => response_ok (VDict (kv :: full_doc))
             | _ => response_error "Document not found" 404
             end)
  /\ (error = EmptyString -> 1 < meta_count meta ->
      length (meta_documents meta) = meta_count meta
      /\ resolve col query projection not_found
         = response_ok
             (VDict [("needs_route_selection", VBool true);
                     ("count", VInt (Z.of_nat (meta_count meta)));
                     ("matches", VList (candidate_value <$> meta_documents meta));
                     ("original_query", VDict query)]))
  /\ (forall carrier flight_number date_of_origin startStation endStation,
      date_rejected date_of_origin (date_arg date_of_origin) = false ->
      get_flight_basic_info col carrier flight_number date_of_origin
        startStation endStation
      = resolve col
          (make_query carrier (flight_number_arg flight_number)
             (date_arg date_of_origin) startStation endStation)
          basic_info_projection "No matching document found.").
Proof.
  intros meta error.
  split; [|split; [|split; [|split; [|split; [|split; [|split]]]]]].
  - intros n rows c f o s e Hc Hf Hne Hall.
    apply (find_meta_dedup col query 50 n rows (c, f, o, s, e)); [lia|done..|].
    eapply Forall_impl; [exact Hall|]. cbn.
    intros d (fl & Hfl & H1 & H2 & H3 & H4 & H5). by eapply row_key_fields.
  - intros n rows ks Hc Hf Hks.
    apply (find_meta_unique_count col query 50 n rows ks); [lia|done..].
  - intros exc Hfail.
    destruct (find_meta_failure col query 50 exc Hfail) as (Herr & _).
    split; [done|]. by apply resolve_failure.
  - apply resolve_classification.
  - apply resolve_classification.
  - apply resolve_classification.
  - apply resolve_classification.
  - intros carrier fn date ss es Hdate. unfold get_flight_basic_info. by rewrite Hdate.
Qed.

Lemma candidate_resolver_dedup_and_classification_witness :
  let col := Examples.collection_of
               [(Examples.oid1, Examples.del_bom 1); (Examples.oid2, Examples.del_bom 2);
                (Examples.oid3, Examples.del_bom 3)] in
  meta_error (_find_matching_doc_meta col [] 50) = None
  /\ meta_count (_find_matching_doc_meta col [] 50) = 1.
Proof.
  intros col.
  refine (proj1 (candidate_resolver_dedup_and_classification col [] [] EmptyString)
            3 _ (Some (inr "6E")) (Some (inl 215%Z)) (Some (inr "2024-06-23"))
            (Some (inr "DEL")) (Some (inr "BOM")) eq_refl eq_refl _ _).
  - discriminate.
  - repeat constructor; by eexists.
Defined.

End ResolverClaims.

(** ** Date validation in the lookups *)

Section DateClaims.
Import Server.

Lemma equipment_info_ignores_unparsed_date col carrier flight_number date ss es :
  Dates.validate_date date = None ->
  get_equipment_info col carrier flight_number date ss es
  = get_equipment_info col carrier flight_number EmptyString ss es.
Proof.
  intros Hd. unfold get_equipment_info, date_arg. rewrite Hd.
  by destruct (String.eqb date "").
Qed.

(** C4, at the failing input.  The date ["23-06-2024"] normalises to
    ["2024-06-23"] and ["2024-13-45"] to nothing.  [get_flight_basic_info]
    answers the unreadable date with a 400 envelope, but
    [get_equipment_info] answers it exactly as it answers a call with no
    date at all: on a collection holding the flight it returns the
    record. *)
Theorem equipment_info_accepts_invalid_date
    (col : Store) (carrier flight_number : string) (ss es : option string) :
  Dates.validate_date "23-06-2024" = Some "2024-06-23"
  /\ Dates.validate_date "2024-13-45" = None
  /\ get_flight_basic_info col carrier flight_number "2024-13-45" ss es
     = response_error
         "Invalid date_of_origin format. Expected YYYY-MM-DD or common date formats" 400
  /\ get_equipment_info col carrier flight_number "2024-13-45" ss es
     = get_equipment_info col carrier flight_number EmptyString ss es
  /\ get_equipment_info (Examples.collection_of [(Examples.oid1, Examples.del_bom 1)])
       "6E" "215" "2024-13-45" None None
     = response_ok (VDict (Examples.del_bom 1)).
Proof.
  assert (Hbad : Dates.validate_date "2024-13-45" = None) by (vm_compute; reflexivity).
  split; [vm_compute; reflexivity|]. split; [done|]. split; [|split].
  - unfold get_flight_basic_info, date_arg. simpl String.eqb. cbv iota.
    rewrite Hbad. reflexivity.
  - by apply equipment_info_ignores_unparsed_date.
  - vm_compute. reflexivity.
Qed.

End DateClaims.

(** ** Dictionaries *)

Section DictFacts.

Lemma dict_lookup_set_eq k v (d : dict) : dict_lookup k (dict_set k v d) = Some v.
Proof.
  induction d as [|[k' v'] rest IH]; simpl.
  - by rewrite String.eqb_refl.
  - destruct (String.eqb_spec k' k) as [->|Hne]; simpl.
    + by rewrite String.eqb_refl.
    + destruct (String.eqb_spec k' k); done.
Qed.

Lemma dict_lookup_set_ne k k' v (d : dict) :
  k <> k' -> dict_lookup k' (dict_set k v d) = dict_lookup k' d.
Proof.
  intros Hne. induction d as [|[k1 v1] rest IH]; simpl.
  - destruct (String.eqb_spec k k'); done.
  - destruct (String.eqb_spec k1 k) as [->|Hk]; simpl.
    + destruct (String.eqb_spec k k'); done.
    + by rewrite IH.
Qed.

Lemma dict_mem_set k v (d : dict) : dict_mem k (dict_set k v d) = true.
Proof. unfold dict_mem. rewrite dict_lookup_set_eq. by apply bool_decide_eq_true_2. Qed.

Lemma dict_lookup_elem k v (d : dict) :
  NoDup (dict_keys d) -> (k, v) ∈ d -> dict_lookup k d = Some v.
Proof.
  induction d as [|[k1 v1] rest IH]; simpl; intros Hnd Hin.
  - by apply elem_of_nil in Hin.
  - apply NoDup_cons in Hnd as [Hk1 Hnd].
    apply elem_of_cons in Hin as [[= <- <-]|Hin].
    + by rewrite String.eqb_refl.
    + destruct (String.eqb_spec k1 k) as [->|_]; [|by apply IH].
      exfalso. apply Hk1. by apply (list_elem_of_fmap_2 fst _ (k, v)).
Qed.

Lemma dict_lookup_none k (d : dict) : k ∉ dict_keys d -> dict_lookup k d = None.
Proof.
  induction d as [|[k1 v1] rest IH]; simpl; [done|].
  rewrite not_elem_of_cons. intros [Hne Hk].
  destruct (String.eqb_spec k1 k); [congruence|by apply IH].
Qed.

Lemma dict_set_keys k v (d : dict) x :
  x ∈ dict_keys (dict_set k v d) -> x = k \/ x ∈ dict_keys d.
Proof.
  induction d as [|[k1 v1] rest IH]; simpl.
  - rewrite elem_of_cons, elem_of_nil. tauto.
  - destruct (String.eqb_spec k1 k) as [->|Hne]; simpl; rewrite !elem_of_cons.
    + tauto.
    + intros [->|Hx]; [tauto|]. destruct (IH Hx); tauto.
Qed.

Lemma dict_set_NoDup k v (d : dict) :
  NoDup (dict_keys d) -> NoDup (dict_keys (dict_set k v d)).
Proof.
  induction d as [|[k1 v1] rest IH]; simpl; intros Hnd.
  - apply NoDup_singleton.
  - apply NoDup_cons in Hnd as [Hk1 Hnd].
    destruct (String.eqb_spec k1 k) as [->|Hne]; simpl.
    + by apply NoDup_cons.
    + apply NoDup_cons. split; [|by apply IH].
      intros Hin. apply dict_set_keys in Hin as [->|Hin]; done.
Qed.

(** [d.update(other)] leaves under each key what [other] holds there,
    and what [d] held where [other] has nothing. *)
Lemma dict_update_lookup (other : dict) : forall (d : dict) k,
  NoDup (dict_keys other) ->
  dict_lookup k (Server.dict_update d other)
  = match dict_lookup k other with
    | Some v => Some v
    | None => dict_lookup k d
    end.
Proof.
  unfold Server.dict_update.
  induction other as [|[k1 v1] rest IH]; intros d k Hnd; simpl; [done|].
  simpl in Hnd. apply NoDup_cons in Hnd as [Hk1 Hnd].
  rewrite IH by done.
  destruct (String.eqb_spec k1 k) as [->|Hne].
  - rewrite (dict_lookup_none k rest) by done. apply dict_lookup_set_eq.
  - destruct (dict_lookup k rest); [done|]. by apply dict_lookup_set_ne.
Qed.

End DictFacts.

(** ** The raw-filter guard *)

Section RawQueryClaims.
Import Server PyStr.
Variable json_loads : string -> option value.

Lemma forbidden_key_sigil key : startswith "$" key = true -> forbidden_key key = true.
Proof. intros H. unfold forbidden_key. rewrite H. apply orb_true_r. Qed.

(** Every operator the source lists as forbidden starts with the sigil,
    so the prefix test alone decides. *)
Lemma forbidden_ops_start_with_sigil :
  Forall (fun op => startswith "$" op = true) forbidden_ops.
Proof. repeat constructor. Qed.

(** C6, amended.  The guard of the raw-filter query looks at the keys
    of the filter document itself and keeps no safe set.  If one of these
    top-level keys starts with the sigil [$], the operation answers with
    a 400 envelope and makes no call on the collection.  If none does,
    the guard lets the filter through whatever its values hold below the
    top level: with no projection given, the one call on the collection
    is made with this very filter. *)
Theorem raw_query_rejects_operator_keys
    (col : Store) (query_json projection : string) (limit : Z) (query : dict) :
  _safe_json_loads json_loads query_json = Ok (VDict query) ->
  (forall key, key ∈ dict_keys query -> startswith "$" key = true ->
     exists msg,
       raw_mongodb_query json_loads col query_json projection limit
       = (response_error msg 400, []))
  /\ (Forall (fun key => startswith "$" key = false) (dict_keys query) ->
      snd (raw_mongodb_query json_loads col query_json EmptyString limit)
      = [CallFind query fallback_projection (Z.min (Z.max 1 limit) 50)]).
Proof.
  intros Hq. split.
  - intros key Hkey Hsigil. unfold raw_mongodb_query. rewrite Hq.
    destruct (if String.eqb projection "" then Ok VNone
              else _safe_json_loads json_loads projection) as [p|e]; [|by eauto].
    destruct (truthy p && negb (is_dict p)); [by eauto|].
    destruct (list_find _ (dict_keys query)) as [[i k]|] eqn:Hfind; [by eauto|].
    exfalso. apply list_find_None in Hfind.
    rewrite Forall_forall in Hfind. apply (Hfind key Hkey).
    by apply forbidden_key_sigil.
  - intros Hnone. unfold raw_mongodb_query. rewrite Hq. cbn [String.eqb truthy andb].
    destruct (list_find _ (dict_keys query)) as [[i k]|] eqn:Hfind.
    + exfalso. apply list_find_Some in Hfind as (Hk & Hforbidden & _).
      rewrite Forall_forall in Hnone.
      assert (Hin : k ∈ dict_keys query) by (by eapply list_elem_of_lookup_2).
      specialize (Hnone k Hin).
      unfold forbidden_key in Hforbidden. rewrite Hnone, orb_false_r in Hforbidden.
      apply bool_decide_eq_true in Hforbidden.
      pose proof forbidden_ops_start_with_sigil as Hops.
      rewrite Forall_forall in Hops. specialize (Hops k Hforbidden). congruence.
    + by destruct (find_documents col query fallback_projection _) as [[|doc docs]|e].
Qed.

End RawQueryClaims.

Lemma raw_query_rejects_operator_keys_witness :
  let decoder :=
    Examples.decode_table
      [("{'$where': 'sleep(5000)'}", VDict [("$where", VStr "sleep(5000)")])] in
  exists msg,
    Server.raw_mongodb_query decoder Examples.unreachable
      "{'$where': 'sleep(5000)'}" EmptyString 10
    = (Server.response_error msg 400, []).
Proof.
  intros decoder.
  apply (proj1 (raw_query_rejects_operator_keys decoder Examples.unreachable
                  "{'$where': 'sleep(5000)'}" EmptyString 10
                  [("$where", VStr "sleep(5000)")] eq_refl) "$where").
  - apply list_elem_of_here.
  - reflexivity.
Defined.

(** C6, as stated, fails: operator keys below the top level are not
    inspected.  This filter holds the key [$where], yet it is not
    rejected: it reaches the collection and the documents found are
    returned. *)
Lemma nested_operator_reaches_the_store :
  let text := "{'flightLegState.carrier': {'$where': 'sleep(5000)'}}" in
  let filter := [("flightLegState.carrier", VDict [("$where", VStr "sleep(5000)")])] in
  let decoder := Examples.decode_table [(text, VDict filter)] in
  let col := Examples.collection_of [(Examples.oid1, Examples.del_bom 1)] in
  "$where" ∈ Server.nested_keys (VDict filter)
  /\ PyStr.startswith "$" "$where" = true
  /\ exists data,
       Server.raw_mongodb_query decoder col text EmptyString 10
       = (Server.response_ok data,
          [Server.CallFind filter Server.fallback_projection 10]).
Proof.
  intros text filter decoder col. split; [|split].
  - vm_compute. apply list_elem_of_further, list_elem_of_here.
  - reflexivity.
  - eexists. vm_compute. reflexivity.
Qed.

(** ** Rewriting delay comparisons *)

Section DelayFilterClaims.
Import Server PyStr.

(** The inner loop only ever writes under [key]. *)
Lemma scan_conditions_other key conditions : forall new_conditions nf k,
  key <> k ->
  dict_lookup k (scan_conditions key conditions new_conditions nf).2 = dict_lookup k nf.
Proof.
  induction conditions as [|[op val] rest IH]; intros nc nf k Hne; simpl; [done|].
  destruct (String.eqb op "$gt" && eq_zero val); simpl.
  { by apply dict_lookup_set_ne. }
  destruct (String.eqb op "$eq" && eq_zero val); simpl.
  { by apply dict_lookup_set_ne. }
  by apply IH.
Qed.

Lemma zero_comparison_false op val :
  zero_comparison (op, val) = false ->
  String.eqb op "$gt" && eq_zero val = false
  /\ String.eqb op "$eq" && eq_zero val = false.
Proof.
  unfold zero_comparison. simpl.
  destruct (String.eqb op "$gt"), (String.eqb op "$eq"), (eq_zero val); simpl; auto.
Qed.

Lemma scan_conditions_gt key pre z post : forall new_conditions nf,
  forallb (fun c => negb (zero_comparison c)) pre = true ->
  eq_zero z = true ->
  (scan_conditions key (pre ++ ("$gt", z) :: post) new_conditions nf).2
  = dict_set key delayed_condition nf.
Proof.
  induction pre as [|[op val] pre IH]; intros nc nf Hpre Hz; simpl.
  - by rewrite Hz.
  - simpl in Hpre. apply andb_true_iff in Hpre as [Hc Hpre].
    apply negb_true_iff, zero_comparison_false in Hc as [-> ->].
    by apply IH.
Qed.

Lemma scan_conditions_eq key pre z post : forall new_conditions nf,
  forallb (fun c => negb (zero_comparison c)) pre = true ->
  eq_zero z = true ->
  (scan_conditions key (pre ++ ("$eq", z) :: post) new_conditions nf).2
  = dict_set key on_time_condition nf.
Proof.
  induction pre as [|[op val] pre IH]; intros nc nf Hpre Hz; simpl.
  - by rewrite Hz.
  - simpl in Hpre. apply andb_true_iff in Hpre as [Hc Hpre].
    apply negb_true_iff, zero_comparison_false in Hc as [-> ->].
    by apply IH.
Qed.

(** A turn of the outer loop only ever writes under its own key. *)
Lemma normalize_entry_other nf key value k :
  key <> k ->
  dict_lookup k (normalize_entry nf (key, value)) = dict_lookup k nf.
Proof.
  intros Hne. unfold normalize_entry.
  destruct (contains "flightNumber" key); [by apply dict_lookup_set_ne|].
  destruct (contains "delays.total" key); [|by apply dict_lookup_set_ne].
  destruct value; try by apply dict_lookup_set_ne.
  pose proof (scan_conditions_other key d [] nf k Hne) as Hscan.
  destruct (scan_conditions key d [] nf) as [nc nf']. simpl in Hscan.
  destruct (truthy (VDict nc) && negb (dict_mem key nf')); [|done].
  by rewrite dict_lookup_set_ne.
Qed.

Lemma normalize_fold_other (parsed_filter : dict) : forall nf k,
  k ∉ dict_keys parsed_filter ->
  dict_lookup k (foldl normalize_entry nf parsed_filter) = dict_lookup k nf.
Proof.
  induction parsed_filter as [|[key value] rest IH]; intros nf k Hk; simpl; [done|].
  simpl in Hk. apply not_elem_of_cons in Hk as [Hne Hk].
  rewrite IH by done. by apply normalize_entry_other.
Qed.

(** With distinct keys, what the filter holds under a key is decided by
    the one turn of the loop that handles this key. *)
Lemma normalize_fold_at (parsed_filter : dict) key value r :
  (forall nf, dict_lookup key (normalize_entry nf (key, value)) = Some r) ->
  NoDup (dict_keys parsed_filter) ->
  (key, value) ∈ parsed_filter ->
  forall nf, dict_lookup key (foldl normalize_entry nf parsed_filter) = Some r.
Proof.
  intros Hentry. induction parsed_filter as [|[k1 v1] rest IH]; intros Hnd Hin nf.
  - by apply elem_of_nil in Hin.
  - simpl in Hnd. apply NoDup_cons in Hnd as [Hk1 Hnd]. simpl.
    apply elem_of_cons in Hin as [[= <- <-]|Hin].
    + rewrite normalize_fold_other by done. apply Hentry.
    + by apply IH.
Qed.

Lemma normalize_entry_gt nf key pre z post :
  delay_key key ->
  forallb (fun c => negb (zero_comparison c)) pre = true ->
  eq_zero z = true ->
  dict_lookup key (normalize_entry nf (key, VDict (pre ++ ("$gt", z) :: post)))
  = Some delayed_condition.
Proof.
  intros [Hfn Hdt] Hpre Hz. unfold normalize_entry. rewrite Hfn, Hdt.
  pose proof (scan_conditions_gt key pre z post [] nf Hpre Hz) as Hscan.
  destruct (scan_conditions key _ [] nf) as [nc nf']. simpl in Hscan. subst nf'.
  rewrite dict_mem_set, andb_false_r. apply dict_lookup_set_eq.
Qed.

Lemma normalize_entry_eq nf key pre z post :
  delay_key key ->
  forallb (fun c => negb (zero_comparison c)) pre = true ->
  eq_zero z = true ->
  dict_lookup key (normalize_entry nf (key, VDict (pre ++ ("$eq", z) :: post)))
  = Some on_time_condition.
Proof.
  intros [Hfn Hdt] Hpre Hz. unfold normalize_entry. rewrite Hfn, Hdt.
  pose proof (scan_conditions_eq key pre z post [] nf Hpre Hz) as Hscan.
  destruct (scan_conditions key _ [] nf) as [nc nf']. simpl in Hscan. subst nf'.
  rewrite dict_mem_set, andb_false_r. apply dict_lookup_set_eq.
Qed.

Lemma normalize_entry_pass nf key value :
  contains "delays.total" key = false ->
  dict_lookup key (normalize_entry nf (key, value)) = Some value.
Proof.
  intros Hdt. unfold normalize_entry. rewrite Hdt.
  destruct (contains "flightNumber" key); apply dict_lookup_set_eq.
Qed.

Lemma scan_conditions_NoDup key conditions : forall new_conditions nf,
  NoDup (dict_keys nf) ->
  NoDup (dict_keys (scan_conditions key conditions new_conditions nf).2).
Proof.
  induction conditions as [|[op val] rest IH]; intros nc nf Hnd; simpl; [done|].
  destruct (String.eqb op "$gt" && eq_zero val); simpl; [by apply dict_set_NoDup|].
  destruct (String.eqb op "$eq" && eq_zero val); simpl; [by apply dict_set_NoDup|].
  by apply IH.
Qed.

Lemma normalize_entry_NoDup nf entry :
  NoDup (dict_keys nf) -> NoDup (dict_keys (normalize_entry nf entry)).
Proof.
  intros Hnd. destruct entry as [key value]. unfold normalize_entry.
  destruct (contains "flightNumber" key); [by apply dict_set_NoDup|].
  destruct (contains "delays.total" key); [|by apply dict_set_NoDup].
  destruct value; try by apply dict_set_NoDup.
  pose proof (scan_conditions_NoDup key d [] nf Hnd) as Hscan.
  destruct (scan_conditions key d [] nf) as [nc nf']. simpl in Hscan.
  destruct (truthy (VDict nc) && negb (dict_mem key nf')); [|done].
  by apply dict_set_NoDup.
Qed.

Lemma normalize_filter_NoDup parsed_filter :
  NoDup (dict_keys (normalize_filter parsed_filter)).
Proof.
  unfold normalize_filter.
  assert (H : forall nf, NoDup (dict_keys nf) ->
                         NoDup (dict_keys (foldl normalize_entry nf parsed_filter))).
  { induction parsed_filter as [|entry rest IH]; intros nf Hnd; simpl; [done|].
    by apply IH, normalize_entry_NoDup. }
  apply H. simpl. apply NoDup_nil_2.
Qed.

(** The [$match] stage of the aggregation is the normalised filter:
    with no carrier and no date range given, it holds under every key
    what [normalize_filter] left there. *)
Lemma match_stage_is_normalized_filter
    (json_loads : string -> option value) (filter_json : string) (parsed_filter : dict) :
  filter_json <> EmptyString ->
  json_loads (replace_char "'" quote filter_json) = Some (VDict parsed_filter) ->
  exists match_stage,
    build_match_stage json_loads EmptyString EmptyString EmptyString filter_json
    = Ok match_stage
    /\ forall key, dict_lookup key match_stage
                   = dict_lookup key (normalize_filter parsed_filter).
Proof.
  intros Hne Hjson. unfold build_match_stage.
  destruct (String.eqb_spec filter_json EmptyString) as [|_]; [done|].
  rewrite Hjson. simpl. eexists. split; [done|].
  intros key. rewrite dict_update_lookup by apply normalize_filter_NoDup.
  by destruct (dict_lookup key (normalize_filter parsed_filter)).
Qed.

(** C7, as stated, fails for the equals-zero comparison: it is matched
    against the two texts ["PT0H0M"] and ["00:00"] only, not against the
    zero-delay sentinel encodings, which also hold the empty text and
    the null value. *)
Lemma equals_zero_uses_two_encodings :
  normalize_filter [("flightLegState.delays.total", VDict [("$eq", VInt 0)])]
  = [("flightLegState.delays.total",
      VDict [("$in", VList [VStr "PT0H0M"; VStr "00:00"])])]
  /\ [VStr "PT0H0M"; VStr "00:00"] <> Duration.zero_delay_sentinels.
Proof. split; [reflexivity | discriminate]. Qed.

(** C7, amended.  In a filter document with distinct keys, an entry for
    the delay total whose first comparison against zero is [$gt: 0]
    becomes [$nin] against the zero-delay sentinel encodings (["PT0H0M"],
    ["00:00"], the empty text, null); one whose first comparison against
    zero is [$eq: 0] becomes [$in] against the two texts ["PT0H0M"] and
    ["00:00"]; an entry whose key does not name the delay total passes
    through unchanged. *)
Theorem delay_filter_rewrite (parsed_filter : dict) :
  NoDup (dict_keys parsed_filter) ->
  let normalized := normalize_filter parsed_filter in
  (forall key pre z post,
      (key, VDict (pre ++ ("$gt", z) :: post)) ∈ parsed_filter ->
      delay_key key ->
      forallb (fun c => negb (zero_comparison c)) pre = true ->
      eq_zero z = true ->
      dict_lookup key normalized
      = Some (VDict [("$nin", VList Duration.zero_delay_sentinels)]))
  /\ (forall key pre z post,
      (key, VDict (pre ++ ("$eq", z) :: post)) ∈ parsed_filter ->
      delay_key key ->
      forallb (fun c => negb (zero_comparison c)) pre = true ->
      eq_zero z = true ->
      dict_lookup key normalized
      = Some (VDict [("$in", VList [VStr "PT0H0M"; VStr "00:00"])]))
  /\ (forall key value,
      (key, value) ∈ parsed_filter ->
      contains "delays.total" key = false ->
      dict_lookup key normalized = Some value)
  /\ (forall key, key ∉ dict_keys parsed_filter -> dict_lookup key normalized = None).
Proof.
  intros Hnd normalized. subst normalized. unfold normalize_filter.
  split; [|split; [|split]].
  - intros key pre z post Hin Hkey Hpre Hz.
    apply (normalize_fold_at parsed_filter key
             (VDict (pre ++ ("$gt", z) :: post)) delayed_condition); [|done..].
    intros nf. by apply normalize_entry_gt.
  - intros key pre z post Hin Hkey Hpre Hz.
    apply (normalize_fold_at parsed_filter key
             (VDict (pre ++ ("$eq", z) :: post)) on_time_condition); [|done..].
    intros nf. by apply normalize_entry_eq.
  - intros key value Hin Hdt.
    apply (normalize_fold_at parsed_filter key value value); [|done..].
    intros nf. by apply normalize_entry_pass.
  - intros key Hkey. by rewrite normalize_fold_other.
Qed.

Lemma delay_filter_rewrite_witness :
  let parsed_filter :=
    [("flightLegState.carrier", VStr "6E");
     ("flightLegState.delays.total", VDict [("$gt", VInt 0)])] in
  dict_lookup "flightLegState.delays.total" (normalize_filter parsed_filter)
  = Some (VDict [("$nin", VList Duration.zero_delay_sentinels)])
  /\ dict_lookup "flightLegState.carrier" (normalize_filter parsed_filter)
     = Some (VStr "6E").
Proof.
  intros parsed_filter.
  assert (Hnd : NoDup (dict_keys parsed_filter)).
  { repeat constructor; rewrite ?elem_of_cons, ?elem_of_nil; intuition discriminate. }
  split.
  - apply (proj1 (delay_filter_rewrite parsed_filter Hnd)
             "flightLegState.delays.total" [] (VInt 0) []).
    + apply list_elem_of_further, list_elem_of_here.
    + split; reflexivity.
    + reflexivity.
    + reflexivity.
  - apply (proj1 (proj2 (proj2 (delay_filter_rewrite parsed_filter Hnd)))
             "flightLegState.carrier" (VStr "6E")).
    + apply list_elem_of_here.
    + reflexivity.
Defined.

End DelayFilterClaims.

(** ** The plan executor *)

Section ExecutorClaims.
Import Client.
Local Open Scope nat_scope.

Variable world : Type.
Variable invoke_tool : world -> value -> dict -> value * world.
Variable plan_tools : world -> string -> dict * world.
Variable summarize_results :
  world -> string -> value -> list (value * value) -> value * world.

Notation run_step := (run_step world invoke_tool).
Notation run_steps := (run_steps world invoke_tool).
Notation run_query := (run_query world invoke_tool plan_tools summarize_results).

(** The envelope the server sends for an ambiguous lookup is recognised
    by the executor's shape test, whatever the tool. *)
Lemma ambiguous_envelope_needs_selection tool count matches query :
  needs_route_selection tool
    (Server.envelope
       (Server.response_ok
          (VDict [("needs_route_selection", VBool true); ("count", count);
                  ("matches", matches); ("original_query", query)]))) = true.
Proof. reflexivity. Qed.

(** A turn that lets the loop go on adds one entry to the results and
    at most one invocation. *)
Lemma run_step_next st step st' :
  run_step st step = Next st' ->
  (exists entry, run_results st' = (run_results st ++ [entry])%list)
  /\ (run_calls st' = run_calls st
      \/ exists call, run_calls st' = (run_calls st ++ [call])%list).
Proof.
  unfold Client.run_step.
  destruct (prepare_step step) as [[entry|tool args]|e]; [| |done].
  - intros [= <-]. simpl. eauto.
  - destruct (invoke_tool (run_world st) tool args) as [resp w].
    destruct (hashable tool); [|done].
    destruct (needs_route_selection tool resp); [done|].
    intros [= <-]. simpl. eauto.
Qed.

(** C2.  In a plan of three steps, when step 1 completes and the
    invocation of step 2 (whose tool name is a hashable value, a text in
    practice) returns a response that carries [needs_route_selection],
    the run ends there: the result set holds
    the two entries of steps 1 and 2, the flag is set, the invocations
    made are those of steps 1 and 2 (step 1 makes at most one), and the
    world is the one step 2's invocation left, so step 3 is never
    touched. *)
Theorem executor_short_circuit
    (w w0 w2 : world) (user_query : string) (plan_data : dict)
    (s1 s2 s3 : value) (st1 : run_state world) (tool2 resp2 : value) (args2 : dict) :
  plan_tools w user_query = (plan_data, w0) ->
  dict_get "plan" plan_data (VList []) = VList [s1; s2; s3] ->
  run_step {| run_world := w0; run_results := []; run_calls := [] |} s1 = Next st1 ->
  prepare_step s2 = Ok (Invoke tool2 args2) ->
  hashable tool2 = true ->
  invoke_tool (run_world st1) tool2 args2 = (resp2, w2) ->
  needs_route_selection tool2 resp2 = true ->
  exists entry1,
    run_query w user_query
    = (NeedsRouteSelection (VList [s1; s2; s3]) [entry1; (tool2, resp2)],
       (run_calls st1 ++ [(tool2, args2)])%list, w2)
    /\ length (results_of (run_query w user_query).1.1) = 2
    /\ length (run_calls st1) <= 1.
Proof.
  intros Hplan Hsteps H1 Hprep Hhash Hinvoke Hflag.
  destruct (run_step_next _ _ _ H1) as [[entry1 Hres] Hcalls]. simpl in Hres.
  assert (Hrun : run_query w user_query
                 = (NeedsRouteSelection (VList [s1; s2; s3]) [entry1; (tool2, resp2)],
                    (run_calls st1 ++ [(tool2, args2)])%list, w2)).
  { unfold Client.run_query. rewrite Hplan, Hsteps. simpl. rewrite H1.
    unfold Client.run_step at 1. rewrite Hprep, Hinvoke, Hhash, Hflag. simpl.
    by rewrite Hres. }
  exists entry1. split; [done|]. split.
  - by rewrite Hrun.
  - destruct Hcalls as [->|[call ->]]; simpl; lia.
Qed.

(** C5, amended.  A plan with zero steps (or any plan value that is
    falsy) executes nothing: no tool is invoked, no summary is asked
    for, and the caller receives the error result. *)
Theorem empty_plan_executes_nothing
    (w w0 : world) (user_query : string) (plan_data : dict) :
  plan_tools w user_query = (plan_data, w0) ->
  truthy (dict_get "plan" plan_data (VList [])) = false ->
  run_query w user_query = (Failed "LLM did not produce a valid tool plan.", [], w0).
Proof.
  intros Hplan Hfalsy. unfold Client.run_query. by rewrite Hplan, Hfalsy.
Qed.

(** C9, amended.  The cleaning step keeps an argument exactly when its
    value is truthy and its text, trimmed and lower-cased, is not
    [unknown]; the kept arguments stand in their order with their values
    unchanged.  These are the arguments the operation is invoked with,
    except that the raw-filter operation gets its [limit] replaced by
    its integer conversion (50 when absent). *)
Theorem cleaned_arguments (args : dict) :
  (forall k v, (k, v) ∈ clean_args args
               <-> (k, v) ∈ args /\ truthy v = true /\ is_unknown v = false)
  /\ clean_args args `sublist_of` args
  /\ (forall step tool st,
        dict_get "tool" step VNone = tool ->
        dict_get "arguments" step (VDict []) = VDict args ->
        is_text "raw_mongodb_query" tool = false ->
        prepare_step (VDict step) = Ok (Invoke tool (clean_args args))
        /\ run_calls (turn_state (run_step st (VDict step)))
           = (run_calls st ++ [(tool, clean_args args)])%list)
  /\ (forall step tool limit,
        dict_get "tool" step VNone = tool ->
        dict_get "arguments" step (VDict []) = VDict args ->
        is_text "raw_mongodb_query" tool = true ->
        truthy (dict_get "query_json" (clean_args args) (VStr EmptyString)) = true ->
        py_int (dict_get "limit" (clean_args args) (VInt 50)) = Ok limit ->
        prepare_step (VDict step)
        = Ok (Invoke tool (dict_set "limit" (VInt limit) (clean_args args)))).
Proof.
  split; [|split; [|split]].
  - intros k v. unfold clean_args. rewrite list_elem_of_filter. simpl.
    unfold kept. rewrite andb_true_iff, negb_true_iff. tauto.
  - apply sublist_filter.
  - intros step tool st Htool Hargs Hraw.
    assert (Hprep : prepare_step (VDict step) = Ok (Invoke tool (clean_args args))).
    { unfold prepare_step. by rewrite Hargs, Htool, Hraw. }
    split; [done|]. unfold Client.run_step. rewrite Hprep.
    destruct (invoke_tool _ tool (clean_args args)) as [resp w'].
    destruct (hashable tool); [|done].
    by destruct (needs_route_selection tool resp).
  - intros step tool limit Htool Hargs Hraw Hq Hlimit.
    unfold prepare_step. rewrite Hargs, Htool, Hraw, Hq. simpl.
    by rewrite Hlimit.
Qed.

End ExecutorClaims.

Section ExecutorExamples.
Import Client.
Local Open Scope nat_scope.

Lemma executor_short_circuit_witness :
  exists entry1,
    run_query nat Examples.counting_invoke (Examples.fixed_plan Examples.three_step_plan)
      Examples.plain_summary 0 "delay and fuel of 6E 215 on 23 June 2024"
    = (NeedsRouteSelection Examples.three_step_plan
         [entry1; (VStr "get_delay_summary", Examples.ambiguous_answer)],
       [(VStr "health_check", []);
        (VStr "get_delay_summary",
         [("carrier", VStr "6E"); ("flight_number", VStr "215");
          ("date_of_origin", VStr "2024-06-23")])], 2)
    /\ length (results_of
         (run_query nat Examples.counting_invoke
            (Examples.fixed_plan Examples.three_step_plan) Examples.plain_summary 0
            "delay and fuel of 6E 215 on 23 June 2024").1.1) = 2
    /\ length [(VStr "health_check", ([] : dict))] <= 1.
Proof.
  exact (executor_short_circuit nat Examples.counting_invoke
           (Examples.fixed_plan Examples.three_step_plan) Examples.plain_summary
           0 0 2 "delay and fuel of 6E 215 on 23 June 2024"
           [("plan", Examples.three_step_plan)]
           (Examples.step_of "health_check" [])
           (Examples.step_of "get_delay_summary" Examples.flight_args)
           (Examples.step_of "get_fuel_summary" Examples.flight_args)
           {| run_world := 1;
              run_results := [(VStr "health_check",
                               Server.envelope
                                 (Server.response_ok (VDict [("status", VStr "ok")])))];
              run_calls := [(VStr "health_check", [])] |}
           (VStr "get_delay_summary") Examples.ambiguous_answer
           [("carrier", VStr "6E"); ("flight_number", VStr "215");
            ("date_of_origin", VStr "2024-06-23")]
           eq_refl eq_refl eq_refl eq_refl eq_refl eq_refl eq_refl).
Defined.

(** C5, as stated, fails: the empty plan by itself makes [run_query]
    hand the caller an error. *)
Lemma empty_plan_is_an_error :
  run_query nat Examples.counting_invoke (Examples.fixed_plan (VList []))
    Examples.plain_summary 0 "hello"
  = (Failed "LLM did not produce a valid tool plan.", [], 0).
Proof. reflexivity. Qed.

Lemma empty_plan_executes_nothing_witness :
  run_query nat Examples.counting_invoke (Examples.fixed_plan (VList []))
    Examples.plain_summary 0 "hello"
  = (Failed "LLM did not produce a valid tool plan.", [], 0).
Proof.
  exact (empty_plan_executes_nothing nat Examples.counting_invoke
           (Examples.fixed_plan (VList [])) Examples.plain_summary
           0 0 "hello" [("plan", VList [])] eq_refl eq_refl).
Defined.

(** C9, as stated, fails: the number zero and the value false are
    neither empty nor the token [unknown], yet the cleaning step drops
    them; and the raw-filter operation does not receive its [limit]
    unchanged. *)
Lemma zero_argument_is_dropped :
  empty_or_unknown (VInt 0) = false
  /\ clean_args [("limit", VInt 0)] = []
  /\ empty_or_unknown (VBool false) = false
  /\ clean_args [("include_cancelled", VBool false)] = []
  /\ prepare_step
       (Examples.step_of "raw_mongodb_query"
          [("query_json", VStr "{}"); ("limit", VStr "25")])
     = Ok (Invoke (VStr "raw_mongodb_query")
             [("query_json", VStr "{}"); ("limit", VInt 25)]).
Proof. repeat split; reflexivity. Qed.

Lemma cleaned_arguments_witness :
  prepare_step (Examples.step_of "get_delay_summary" Examples.flight_args)
  = Ok (Invoke (VStr "get_delay_summary")
          [("carrier", VStr "6E"); ("flight_number", VStr "215");
           ("date_of_origin", VStr "2024-06-23")]).
Proof.
  exact (proj1 (proj1 (proj2 (proj2 (cleaned_arguments nat Examples.counting_invoke
                                       Examples.flight_args)))
                 [("tool", VStr "get_delay_summary");
                  ("arguments", VDict Examples.flight_args)]
                 (VStr "get_delay_summary")
                 {| run_world := 0; run_results := []; run_calls := [] |}
                 eq_refl eq_refl eq_refl)).
Defined.

End ExecutorExamples.

(* ===================================================================== *)
(** * Further properties of the code *)
(* ===================================================================== *)

(** ** Appending texts *)

Lemma string_app_assoc (a b c : string) : (a +:+ b) +:+ c = a +:+ (b +:+ c).
Proof.
  induction a as [|x r IH]; [done|].
  change (String x ((r +:+ b) +:+ c) = String x (r +:+ (b +:+ c))). by rewrite IH.
Qed.

Lemma string_app_nil_r (a : string) : a +:+ EmptyString = a.
Proof.
  induction a as [|x r IH]; [done|].
  change (String x (r +:+ EmptyString) = String x r). by rewrite IH.
Qed.

Lemma string_app_cons x (r s : string) : String x r +:+ s = String x (r +:+ s).
Proof. reflexivity. Qed.

Lemma string_app_nil_l (s : string) : EmptyString +:+ s = s.
Proof. reflexivity. Qed.

Ltac flatten_appends :=
  repeat first [ rewrite string_app_assoc | rewrite string_app_cons
               | rewrite string_app_nil_l ].

(** ** White space *)

Section StripFacts.
Import PyStr.

Lemma rstrip_cons_nonspace c r :
  is_space c = false -> rstrip (String c r) = String c (rstrip r).
Proof. intros Hc. simpl. rewrite Hc. by destruct (rstrip r). Qed.

Lemma lstrip_head s :
  lstrip s = EmptyString \/ exists c r, lstrip s = String c r /\ is_space c = false.
Proof.
  induction s as [|c r IH]; simpl; [by left|].
  destruct (is_space c) eqn:Hc; [done|]. right. by exists c, r.
Qed.

Lemma rstrip_idem s : rstrip (rstrip s) = rstrip s.
Proof.
  induction s as [|c r IH]; simpl; [done|].
  destruct (rstrip r) as [|c' r'] eqn:Hr.
  - destruct (is_space c) eqn:Hc; simpl; [done|]. by rewrite Hc.
  - simpl in *. rewrite IH. done.
Qed.

Lemma strip_idem s : strip (strip s) = strip s.
Proof.
  unfold strip. destruct (lstrip_head s) as [->|(c & r & -> & Hc)]; [done|].
  rewrite rstrip_cons_nonspace by done. simpl lstrip. rewrite Hc.
  rewrite <- rstrip_cons_nonspace by done. apply rstrip_idem.
Qed.

Lemma rstrip_spaces w : all_chars is_space w = true -> rstrip w = EmptyString.
Proof.
  induction w as [|c r IH]; simpl; [done|].
  rewrite andb_true_iff. intros [-> Hr]. by rewrite (IH Hr).
Qed.

Lemma lstrip_spaces_app w s : all_chars is_space w = true -> lstrip (w +:+ s) = lstrip s.
Proof.
  induction w as [|c r IH]; simpl; [done|].
  rewrite andb_true_iff. intros [-> Hr]. by apply IH.
Qed.

Lemma rstrip_app_spaces s w : all_chars is_space w = true -> rstrip (s +:+ w) = rstrip s.
Proof.
  intros Hw. induction s as [|c r IH]; simpl.
  - by apply rstrip_spaces.
  - by rewrite IH.
Qed.

(** White space around a text that has none of its own is removed. *)
Lemma strip_padded l s r :
  all_chars is_space l = true -> all_chars is_space r = true ->
  all_chars (fun c => negb (is_space c)) s = true ->
  strip (l +:+ s +:+ r) = s.
Proof.
  intros Hl Hr Hs. unfold strip. rewrite lstrip_spaces_app by done.
  destruct s as [|c s'].
  - change (EmptyString +:+ r) with r.
    assert (Hlr : lstrip r = EmptyString).
    { clear -Hr. induction r as [|c r IH]; [done|]. simpl in *.
      apply andb_true_iff in Hr as [-> Hr]. by apply IH. }
    by rewrite Hlr.
  - pose proof Hs as Hs0. simpl in Hs. apply andb_true_iff in Hs as [Hc Hs'].
    apply negb_true_iff in Hc.
    change (String c s' +:+ r) with (String c (s' +:+ r)).
    cbn [lstrip]. rewrite Hc.
    change (String c (s' +:+ r)) with (String c s' +:+ r).
    rewrite rstrip_app_spaces by done.
    by apply rstrip_no_space.
Qed.

End StripFacts.

(** ** More on the duration codec *)

Section DurationMore.
Import PyStr Duration.

Lemma parse_text_nonempty c r :
  parse_iso_duration_to_minutes (VStr (String c r))
  = try_except (parse_duration_body (VStr (String c r))) (fun _ => Ok 0%Z).
Proof. reflexivity. Qed.

(** X1: white space around a stored duration never matters. *)
Theorem parse_ignores_surrounding_space (s : string) :
  parse_iso_duration_to_minutes (VStr s)
  = parse_iso_duration_to_minutes (VStr (strip s)).
Proof.
  destruct s as [|c r]; [done|].
  rewrite parse_text_nonempty.
  destruct (strip (String c r)) as [|c' r'] eqn:Hs.
  - unfold parse_duration_body. rewrite Hs. reflexivity.
  - rewrite parse_text_nonempty. unfold parse_duration_body.
    rewrite <- Hs. by rewrite strip_idem.
Qed.

Lemma opt_group_other_tag tag t ds rest :
  all_chars is_digit ds = true -> is_digit t = false -> t <> tag ->
  opt_group tag (ds +:+ String t rest) = (None, ds +:+ String t rest).
Proof.
  intros Hds Ht Hne. unfold opt_group. rewrite span_digits_run by done.
  destruct ds as [|c r]; [done|].
  destruct (Ascii.eqb_spec t tag); done.
Qed.

(** What the parser makes of a text [PT...] without colon or blank. *)
Lemma parse_designator_body body :
  all_chars (fun c => negb (is_space c)) body = true ->
  contains_char ":" body = false ->
  parse_iso_duration_to_minutes (VStr ("PT" +:+ body))
  = try_except
      (let '(g1, r1) := opt_group "H" body in
       let '(g2, _) := opt_group "M" r1 in
       hours ← group_int g1; minutes ← group_int g2; Ok (hours * 60 + minutes)%Z)
      (fun _ => Ok 0%Z).
Proof.
  intros Hns Hnc.
  change ("PT" +:+ body) with (String "P" (String "T" body)).
  rewrite parse_text_nonempty. unfold parse_duration_body.
  rewrite strip_no_space by (simpl; by rewrite Hns).
  simpl contains_char. rewrite Hnc. simpl.
  destruct (opt_group "H" body) as [g1 r1]. by destruct (opt_group "M" r1).
Qed.

(** X2: the two components of the designator form are optional, the
    minutes are not bounded by 59 (only, like the hours, by the 4300
    digits that [int()] reads), and text after the components is
    ignored. *)
Theorem designator_components_are_optional (h mi : Z) (tail : string) :
  (0 <= h < 10 ^ Z.of_nat max_str_digits)%Z ->
  (0 <= mi < 10 ^ Z.of_nat max_str_digits)%Z ->
  all_chars (fun c => negb (is_space c)) tail = true ->
  contains_char ":" tail = false ->
  parse_iso_duration_to_minutes (VStr ("PT" +:+ dec h +:+ "H")) = Ok (h * 60)%Z
  /\ parse_iso_duration_to_minutes (VStr ("PT" +:+ dec mi +:+ "M")) = Ok mi
  /\ parse_iso_duration_to_minutes
       (VStr ("PT" +:+ dec h +:+ "H" +:+ dec mi +:+ "M" +:+ tail))
     = Ok (h * 60 + mi)%Z.
Proof.
  intros Hh Hm Htail Hcolon.
  assert (Hd : forall n, (0 <= n)%Z ->
             all_chars is_digit (dec n) = true
             /\ all_chars (fun c => negb (is_space c)) (dec n) = true
             /\ contains_char ":" (dec n) = false).
  { intros n Hn. split; [by apply dec_digits|]. split.
    - apply (all_chars_weaken is_digit); [apply is_digit_not_space|by apply dec_digits].
    - apply (contains_char_all_chars is_digit); [done|by apply dec_digits]. }
  destruct (Hd h (proj1 Hh)) as (Hh0 & Hh1 & Hh2).
  destruct (Hd mi (proj1 Hm)) as (Hm0 & Hm1 & Hm2).
  split; [|split].
  - rewrite parse_designator_body.
    + change (dec h +:+ "H") with (dec h +:+ String "H" EmptyString).
      rewrite opt_group_run by (done || apply dec_nonempty).
      change (opt_group "M" EmptyString) with (@None string, EmptyString).
      cbv beta iota zeta. rewrite group_int_dec by done. simpl. f_equal. lia.
    + rewrite all_chars_app, Hh1. done.
    + rewrite contains_char_app, Hh2. done.
  - rewrite parse_designator_body.
    + change (dec mi +:+ "M") with (dec mi +:+ String "M" EmptyString).
      rewrite opt_group_other_tag by done.
      rewrite opt_group_run by (done || apply dec_nonempty).
      cbv beta iota zeta. rewrite group_int_dec by done. done.
    + rewrite all_chars_app, Hm1. done.
    + rewrite contains_char_app, Hm2. done.
  - rewrite parse_designator_body.
    + change (dec h +:+ "H" +:+ dec mi +:+ "M" +:+ tail)
        with (dec h +:+ String "H" (dec mi +:+ String "M" tail)).
      rewrite opt_group_run by (done || apply dec_nonempty).
      rewrite opt_group_run by (done || apply dec_nonempty).
      rewrite !group_int_dec by done. done.
    + rewrite !all_chars_app. simpl. by rewrite Hh1, Hm1, Htail.
    + rewrite !contains_char_app. simpl. by rewrite Hh2, Hm2, Hcolon.
Qed.

Lemma designator_components_are_optional_witness :
  parse_iso_duration_to_minutes (VStr ("PT" +:+ dec 2 +:+ "H")) = Ok 120%Z
  /\ parse_iso_duration_to_minutes (VStr ("PT" +:+ dec 90 +:+ "M")) = Ok 90%Z
  /\ parse_iso_duration_to_minutes
       (VStr ("PT" +:+ dec 2 +:+ "H" +:+ dec 90 +:+ "M" +:+ "30S")) = Ok 210%Z.
Proof.
  apply (designator_components_are_optional 2 90 "30S");
    [split; [lia|apply Z.ltb_lt; vm_compute; reflexivity]
    |split; [lia|apply Z.ltb_lt; vm_compute; reflexivity]
    |reflexivity|reflexivity].
Defined.

(** Beyond the digit limit a component is not read at all: the
    conversion raises and the parser answers 0. *)
Lemma designator_component_beyond_the_limit (h : Z) :
  (10 ^ Z.of_nat max_str_digits <= h)%Z ->
  parse_iso_duration_to_minutes (VStr ("PT" +:+ dec h +:+ "H")) = Ok 0%Z.
Proof.
  intros Hh.
  assert (Hpos : (0 < 10 ^ Z.of_nat max_str_digits)%Z) by (apply Z.pow_pos_nonneg; lia).
  assert (Hd : all_chars is_digit (dec h) = true) by (apply dec_digits; lia).
  rewrite parse_designator_body.
  - change (dec h +:+ "H") with (dec h +:+ String "H" EmptyString).
    rewrite opt_group_run by (done || apply dec_nonempty).
    change (opt_group "M" EmptyString) with (@None string, EmptyString).
    cbv beta iota zeta. rewrite group_int_text, py_int_dec_too_long by done.
    reflexivity.
  - rewrite all_chars_app.
    rewrite (all_chars_weaken is_digit _ _ is_digit_not_space) by done. done.
  - rewrite contains_char_app.
    rewrite (contains_char_all_chars is_digit) by done. done.
Qed.

(** X3: a negative total is rendered without its sign and without its
    hours: as the minutes of [m mod 60], and as the empty text when [m]
    is a multiple of 60. *)
Theorem readable_text_of_negative_total (m : Z) :
  (m < 0)%Z ->
  format_minutes_to_readable m
  = if (m mod 60 =? 0)%Z then EmptyString
    else dec (m mod 60) +:+ " minute" +:+ plural (m mod 60).
Proof.
  intros Hm. unfold format_minutes_to_readable.
  destruct (Z.eqb_spec m 0) as [|_]; [lia|].
  assert (Hq : (m / 60 < 0)%Z) by (apply Z.div_lt_upper_bound; lia).
  destruct (Z.ltb_spec 0 (m / 60)) as [|_]; [lia|].
  pose proof (Z.mod_pos_bound m 60 ltac:(lia)) as Hr.
  destruct (Z.eqb_spec (m mod 60) 0) as [->|Hne]; [done|].
  destruct (Z.ltb_spec 0 (m mod 60)) as [_|]; [|lia].
  simpl. unfold str_of_int.
  destruct (Z.ltb_spec (m mod 60) 0) as [|_]; [lia|]. done.
Qed.

Lemma readable_text_of_negative_total_witness :
  format_minutes_to_readable (-30) = "30 minutes"
  /\ format_minutes_to_readable (-120) = EmptyString.
Proof.
  split.
  - exact (readable_text_of_negative_total (-30) eq_refl).
  - exact (readable_text_of_negative_total (-120) eq_refl).
Defined.

End DurationMore.

(** ** Flight numbers *)

Section FlightNumberFacts.
Import PyStr Server Lookups.

Lemma str_of_int_no_space n :
  all_chars (fun c => negb (is_space c)) (str_of_int n) = true.
Proof.
  unfold str_of_int. destruct (Z.ltb_spec n 0); simpl.
  - apply (all_chars_weaken is_digit); [apply is_digit_not_space|apply dec_digits; lia].
  - apply (all_chars_weaken is_digit); [apply is_digit_not_space|by apply dec_digits].
Qed.

(** [int(str(n))] is [n] when the text is within the digit limit. *)
Lemma int_of_str_of_int n :
  (- 10 ^ Z.of_nat max_str_digits < n < 10 ^ Z.of_nat max_str_digits)%Z ->
  int_of_str (str_of_int n) = Some n.
Proof.
  intros Hn.
  unfold int_of_str. rewrite strip_no_space by apply str_of_int_no_space.
  unfold str_of_int. destruct (Z.ltb_spec n 0) as [Hneg|Hpos].
  - cbn [Ascii.eqb Bool.eqb]. cbv iota.
    rewrite int_digits_digits;
      [|apply dec_digits; lia|apply dec_nonempty|apply dec_fits; lia].
    rewrite dec_value by lia. simpl. f_equal. lia.
  - pose proof (int_of_str_digits (dec n) (dec_digits n Hpos) (dec_nonempty n)
                  (dec_fits n ltac:(lia))) as H.
    unfold int_of_str in H.
    rewrite strip_no_space in H
      by (apply (all_chars_weaken is_digit); [apply is_digit_not_space|by apply dec_digits]).
    rewrite H. by rewrite dec_value.
Qed.

(** The guard of the lookups on a text is the guard on the value. *)
Lemma flight_number_arg_is_guard (text : string) :
  flight_number_arg text = flight_number_guard (VStr text).
Proof.
  unfold flight_number_arg, flight_number_guard. cbn [truthy].
  by destruct (String.eqb text EmptyString).
Qed.

(** X4: a flight number given as an integer and given as its decimal
    text, with or without blanks around it, normalise to the same
    integer, as long as the text stays within the 4300 digits [int()]
    reads.  Through the guard of the lookups both build the same query
    unless the number is 0: the integer 0 is falsy and puts no flight
    number in the query, where the text of 0 puts 0. *)
Theorem flight_number_text_and_integer_agree
    (n : Z) (l r carrier : string) (date ss es : option string) :
  (- 10 ^ Z.of_nat max_str_digits < n < 10 ^ Z.of_nat max_str_digits)%Z ->
  all_chars is_space l = true -> all_chars is_space r = true ->
  let text := l +:+ str_of_int n +:+ r in
  normalize_flight_number (VStr text) = Some n
  /\ normalize_flight_number (VInt n) = Some n
  /\ flight_number_arg text = Some n
  /\ flight_number_guard (VInt n) = (if (n =? 0)%Z then None else Some n)
  /\ (n <> 0%Z ->
      make_query carrier (flight_number_arg text) date ss es
      = make_query carrier (flight_number_guard (VInt n)) date ss es).
Proof.
  intros Hn Hl Hr text. subst text.
  assert (Hne : String.eqb (l +:+ str_of_int n +:+ r) EmptyString = false).
  { apply String.eqb_neq. intros He.
    assert (Hs : strip (l +:+ str_of_int n +:+ r) = str_of_int n)
      by (apply strip_padded; [done..|apply str_of_int_no_space]).
    rewrite He in Hs. simpl in Hs.
    pose proof (int_of_str_of_int n Hn) as Hi. rewrite <- Hs in Hi. done. }
  assert (Hnorm : normalize_flight_number (VStr (l +:+ str_of_int n +:+ r)) = Some n).
  { cbn [normalize_flight_number]. rewrite Hne.
    rewrite strip_padded by (done || apply str_of_int_no_space).
    by apply int_of_str_of_int. }
  assert (Harg : flight_number_arg (l +:+ str_of_int n +:+ r) = Some n).
  { unfold flight_number_arg. by rewrite Hne. }
  assert (Hguard : flight_number_guard (VInt n) = if (n =? 0)%Z then None else Some n).
  { unfold flight_number_guard. cbn [truthy normalize_flight_number].
    by destruct (n =? 0)%Z. }
  split; [done|]. split; [done|]. split; [done|]. split; [done|].
  intros Hnz. rewrite Harg, Hguard.
  by destruct (Z.eqb_spec n 0).
Qed.

Lemma flight_number_text_and_integer_agree_witness :
  let text := " " +:+ str_of_int 215 +:+ " " in
  normalize_flight_number (VStr text) = Some 215%Z
  /\ normalize_flight_number (VInt 215) = Some 215%Z
  /\ flight_number_arg text = Some 215%Z
  /\ flight_number_guard (VInt 215) = (if (215 =? 0)%Z then None else Some 215%Z)
  /\ (215%Z <> 0%Z ->
      make_query "6E" (flight_number_arg text) (Some "2024-06-23") None None
      = make_query "6E" (flight_number_guard (VInt 215)) (Some "2024-06-23") None None).
Proof.
  apply (flight_number_text_and_integer_agree 215 " " " " "6E" (Some "2024-06-23") None None);
    [split; apply Z.ltb_lt; vm_compute; reflexivity|reflexivity|reflexivity].
Defined.

(** At 0 the two spellings part: the text keeps the flight number in
    the query, the integer drops it. *)
Example flight_number_zero_text_and_integer_differ :
  make_query "6E" (flight_number_guard (VStr "0")) None None None
  = [("flightLegState.carrier", VStr "6E"); ("flightLegState.flightNumber", VInt 0)]
  /\ make_query "6E" (flight_number_guard (VInt 0)) None None None
     = [("flightLegState.carrier", VStr "6E")].
Proof. split; reflexivity. Qed.

End FlightNumberFacts.

(** ** Normalised dates *)

Section DateFacts.
Import PyStr Dates.

Lemma years_checked : forallb DateChecks.year_text_ok DateChecks.years = true.
Proof. vm_compute. reflexivity. Qed.

(** A year from 1000 on is written with four digits. *)
Lemma year_text y :
  (1000 <= y <= 9999)%Z ->
  exists a b c d,
    dec y = String a (String b (String c (String d EmptyString)))
    /\ is_digit a && is_digit b && is_digit c && is_digit d = true
    /\ (1000 * digit_val a + 100 * digit_val b + 10 * digit_val c + digit_val d = y)%Z.
Proof.
  intros Hy. pose proof years_checked as Hall.
  rewrite forallb_forall in Hall.
  assert (Hin : In y DateChecks.years).
  { unfold DateChecks.years. apply list_elem_of_In, list_elem_of_fmap.
    exists (Z.to_nat y). split; [lia|]. apply list_elem_of_In, in_seq. lia. }
  specialize (Hall y Hin). unfold DateChecks.year_text_ok in Hall.
  destruct (dec y) as [|a [|b [|c [|d [|? ?]]]]]; try done.
  apply andb_true_iff in Hall as [Hd Hv]. apply Z.eqb_eq in Hv.
  by exists a, b, c, d.
Qed.

(** A year below 1000 is written with one to three digits. *)
Lemma short_year_text y :
  (1 <= y < 1000)%Z ->
  exists a rest,
    dec y = String a rest /\ is_digit a = true /\ all_chars is_digit rest = true
    /\ (String.length rest <= 2)%nat.
Proof.
  intros Hy.
  pose proof (dec_digits y ltac:(lia)) as Hd.
  pose proof (dec_length_le 2 y) as Hlen.
  pose proof (dec_nonempty y) as Hne.
  destruct (dec y) as [|a rest]; [done|].
  cbn [all_chars] in Hd. apply andb_true_iff in Hd as [Ha Hrest].
  exists a, rest. split; [done|]. split; [done|]. split; [done|].
  assert (H3 : (String.length (String a rest) <= 3)%nat).
  { apply Hlen. change (10 ^ Z.of_nat 3)%Z with 1000%Z. lia. }
  simpl in H3. lia.
Qed.

Ltac small_cases m :=
  destruct m as [|m|m]; try lia;
  do 5 (try (destruct m as [m|m|]; try lia)).

(** Month and day are written with two digits. *)
Lemma two_digit_text n :
  (1 <= n <= 31)%Z ->
  exists a b,
    zfill 2 (dec n) = String a (String b EmptyString)
    /\ is_digit a = true /\ is_digit b = true.
Proof.
  intros Hn.
  small_cases n; eexists _, _; (split; [vm_compute; reflexivity|split; reflexivity]).
Qed.

Lemma month_text m rest :
  (1 <= m <= 12)%Z ->
  exists more,
    month_alts (zfill 2 (dec m) +:+ String "-" rest) = (m, String "-" rest) :: more.
Proof.
  intros Hm. small_cases m; eexists; vm_compute; reflexivity.
Qed.

Lemma day_text d :
  (1 <= d <= 31)%Z ->
  exists more, day_alts (zfill 2 (dec d)) = (d, EmptyString) :: more.
Proof.
  intros Hd. small_cases d; eexists; vm_compute; reflexivity.
Qed.

Lemma days_in_month_le y m : (days_in_month y m <= 31)%Z.
Proof.
  unfold days_in_month.
  destruct (m =? 2)%Z; [destruct (is_leap y); lia|].
  destruct ((m =? 4) || (m =? 6) || (m =? 9) || (m =? 11))%Z; lia.
Qed.

Lemma valid_date_bounds f :
  valid_date f = true ->
  (1 <= f_year f <= 9999 /\ 1 <= f_month f <= 12 /\ 1 <= f_day f <= 31)%Z.
Proof.
  unfold valid_date. rewrite !andb_true_iff, !Z.leb_le.
  pose proof (days_in_month_le (f_year f) (f_month f)). lia.
Qed.

(** The first match of a format comes from the first alternative of
    its first directive, when the rest of the format matches after it. *)
Lemma match_format_head d ds s f upd rest more x xs :
  directive_alts d s = (upd, rest) :: more ->
  match_format ds rest (upd f) = x :: xs ->
  exists ys, match_format (d :: ds) s f = x :: ys.
Proof.
  intros Hd Hrest. cbn [match_format]. rewrite Hd.
  cbn [mbind list_bind]. rewrite Hrest. simpl. by eexists.
Qed.

Lemma dash_alts r : directive_alts (DLit "-") (String "-" r) = [(id, r)].
Proof. reflexivity. Qed.

(** The ISO text of a calendar date from the year 1000 on parses back,
    under the first format, to the same date. *)
Lemma iso_text_parses_back f :
  valid_date f = true -> (1000 <= f_year f)%Z ->
  strptime (strftime_iso f) "%Y-%m-%d" = Some f.
Proof.
  intros Hvalid Hlong. destruct (valid_date_bounds f Hvalid) as (Hy & Hm & Hd).
  destruct f as [y m d]. simpl in Hy, Hm, Hd, Hlong.
  destruct (year_text y ltac:(lia)) as (a & b & c & e & Hyt & Hdig & Hval).
  destruct (day_text d Hd) as (dmore & Hdt).
  destruct (month_text m (zfill 2 (dec d)) Hm) as (mmore & Hmt).
  set (f0 := set_year y default_fields).
  assert (H5 : exists ys,
             match_format [DDay] (zfill 2 (dec d)) (set_month m f0)
             = ({| f_year := y; f_month := m; f_day := d |}, EmptyString) :: ys).
  { eapply (match_format_head DDay []).
    - cbn [directive_alts]. rewrite Hdt. reflexivity.
    - reflexivity. }
  destruct H5 as [ys5 H5].
  assert (H4 : exists ys,
             match_format [DLit "-"; DDay] (String "-" (zfill 2 (dec d))) (set_month m f0)
             = ({| f_year := y; f_month := m; f_day := d |}, EmptyString) :: ys).
  { eapply (match_format_head (DLit "-")); [apply dash_alts|exact H5]. }
  destruct H4 as [ys4 H4].
  assert (H3 : exists ys,
             match_format [DMonth; DLit "-"; DDay]
               (zfill 2 (dec m) +:+ String "-" (zfill 2 (dec d))) f0
             = ({| f_year := y; f_month := m; f_day := d |}, EmptyString) :: ys).
  { eapply (match_format_head DMonth).
    - cbn [directive_alts]. rewrite Hmt. reflexivity.
    - exact H4. }
  destruct H3 as [ys3 H3].
  assert (H2 : exists ys,
             match_format [DLit "-"; DMonth; DLit "-"; DDay]
               (String "-" (zfill 2 (dec m) +:+ String "-" (zfill 2 (dec d)))) f0
             = ({| f_year := y; f_month := m; f_day := d |}, EmptyString) :: ys).
  { eapply (match_format_head (DLit "-")); [apply dash_alts|exact H3]. }
  destruct H2 as [ys2 H2].
  assert (H1 : exists ys,
             match_format [DYear; DLit "-"; DMonth; DLit "-"; DDay]
               (strftime_iso {| f_year := y; f_month := m; f_day := d |}) default_fields
             = ({| f_year := y; f_month := m; f_day := d |}, EmptyString) :: ys).
  { eapply (match_format_head DYear); [|exact H2].
    unfold strftime_iso. simpl f_year. simpl f_month. simpl f_day. rewrite Hyt.
    change (String a (String b (String c (String e EmptyString)))
            +:+ "-" +:+ zfill 2 (dec m) +:+ "-" +:+ zfill 2 (dec d))
      with (String a (String b (String c (String e
              (String "-" (zfill 2 (dec m) +:+ String "-" (zfill 2 (dec d)))))))).
    cbn [directive_alts year_alts]. rewrite Hdig, Hval. reflexivity. }
  destruct H1 as [ys1 H1].
  unfold strptime.
  change (compile_format "%Y-%m-%d") with [DYear; DLit "-"; DMonth; DLit "-"; DDay].
  rewrite H1. simpl. by rewrite Hvalid.
Qed.

Lemma strptime_valid s fmt f : strptime s fmt = Some f -> valid_date f = true.
Proof.
  unfold strptime. destruct (match_format _ _ _) as [|[f' rest] more]; [done|].
  destruct (String.eqb rest EmptyString); simpl; [|done].
  destruct (valid_date f') eqn:Hv; [|done]. by intros [= <-].
Qed.

Lemma first_format_parsed s fmts r :
  first_format s fmts = Some r ->
  exists fmt f, In fmt fmts /\ strptime s fmt = Some f /\ r = strftime_iso f.
Proof.
  induction fmts as [|fmt rest IH]; simpl; [done|].
  destruct (strptime s fmt) as [f|] eqn:Hf.
  - intros [= <-]. exists fmt, f. by auto.
  - intros Hrest. destruct (IH Hrest) as (fmt' & f & Hin & Hp & Hr).
    exists fmt', f. by auto.
Qed.

Lemma iso_text_length_from_year f :
  valid_date f = true ->
  String.length (strftime_iso f) = (String.length (dec (f_year f)) + 6)%nat.
Proof.
  intros Hvalid. destruct (valid_date_bounds f Hvalid) as (Hy & Hm & Hd).
  destruct (two_digit_text (f_month f) ltac:(lia)) as (m1 & m2 & Hmt & _).
  destruct (two_digit_text (f_day f) ltac:(lia)) as (d1 & d2 & Hdt & _).
  unfold strftime_iso. rewrite Hmt, Hdt, !string_length_append. simpl. lia.
Qed.

Lemma iso_text_length f :
  valid_date f = true -> (1000 <= f_year f)%Z ->
  String.length (strftime_iso f) = 10%nat.
Proof.
  intros Hvalid Hlong. destruct (valid_date_bounds f Hvalid) as (Hy & _).
  rewrite iso_text_length_from_year by done.
  destruct (year_text (f_year f) ltac:(lia)) as (a & b & c & e & -> & _). done.
Qed.

Lemma iso_text_short f :
  valid_date f = true -> (f_year f < 1000)%Z ->
  (String.length (strftime_iso f) < 10)%nat.
Proof.
  intros Hvalid Hshort. destruct (valid_date_bounds f Hvalid) as (Hy & _).
  rewrite iso_text_length_from_year by done.
  destruct (short_year_text (f_year f) ltac:(lia)) as (a & rest & -> & _ & _ & Hlen).
  simpl. lia.
Qed.

Lemma iso_text_accepted f :
  valid_date f = true -> (1000 <= f_year f)%Z ->
  validate_date (strftime_iso f) = Some (strftime_iso f).
Proof.
  intros Hvalid Hlong.
  pose proof (iso_text_length f Hvalid Hlong) as Hlen.
  pose proof (iso_text_parses_back f Hvalid Hlong) as Hparse.
  unfold validate_date.
  destruct (String.eqb_spec (strftime_iso f) EmptyString) as [He|_].
  { rewrite He in Hlen. done. }
  unfold formats. simpl first_format. by rewrite Hparse.
Qed.

(** *** No format reads a year of fewer than four digits

    A format is dead on a text when the matcher finds no match at
    all. *)

Notation dead ds s := (forall f : fields, match_format ds s f = []).

Lemma bind_dead {A B} (l : list A) (k : A -> list B) :
  Forall (fun x => k x = []) l -> l ≫= k = [].
Proof.
  induction 1 as [|x l Hx _ IH]; [done|]. by rewrite bind_cons, Hx, IH.
Qed.

Lemma dead_no_alternative d ds s : directive_alts d s = [] -> dead (d :: ds) s.
Proof. intros Hd f. cbn [match_format]. by rewrite Hd. Qed.

Lemma dead_literal_step c ds c' r : dead ds r -> dead (DLit c :: ds) (String c' r).
Proof.
  intros Hr f. cbn [match_format directive_alts].
  destruct (Ascii.eqb _ _); [|done]. cbn. by rewrite Hr.
Qed.

Lemma digit_is_no_dash c : is_digit c = true -> Ascii.eqb (lower_char "-") (lower_char c) = false.
Proof. destruct c as [[] [] [] [] [] [] [] []]; done. Qed.

Lemma digit_or_dash_is_no_slash c :
  DateChecks.digit_or_dash c = true -> Ascii.eqb (lower_char "/") (lower_char c) = false.
Proof. destruct c as [[] [] [] [] [] [] [] []]; done. Qed.

Lemma digit_or_dash_is_no_space c :
  DateChecks.digit_or_dash c = true -> is_space c = false.
Proof. destruct c as [[] [] [] [] [] [] [] []]; done. Qed.

Lemma digit_is_no_blank c : is_digit c = true -> Ascii.eqb c " " = false.
Proof. destruct c as [[] [] [] [] [] [] [] []]; done. Qed.

Lemma dead_dash_on_digit ds c r :
  is_digit c = true -> dead (DLit "-" :: ds) (String c r).
Proof.
  intros Hc. apply dead_no_alternative. cbn [directive_alts].
  by rewrite digit_is_no_dash.
Qed.

Lemma dead_slash ds s :
  all_chars DateChecks.digit_or_dash s = true -> dead (DLit "/" :: ds) s.
Proof.
  intros Hs. apply dead_no_alternative. destruct s as [|c r]; [done|].
  cbn [all_chars] in Hs. apply andb_true_iff in Hs as [Hc _].
  cbn [directive_alts]. by rewrite digit_or_dash_is_no_slash.
Qed.

Lemma dead_space ds s :
  all_chars DateChecks.digit_or_dash s = true -> dead (DSpace :: ds) s.
Proof.
  intros Hs. apply dead_no_alternative. destruct s as [|c r]; [done|].
  cbn [all_chars] in Hs. apply andb_true_iff in Hs as [Hc _].
  cbn [directive_alts space_alts]. by rewrite digit_or_dash_is_no_space.
Qed.

Lemma dead_name_on_digit ds c r :
  is_digit c = true ->
  dead (DMonthName :: ds) (String c r) /\ dead (DMonthAbbr :: ds) (String c r).
Proof.
  intros Hc. split; apply dead_no_alternative; revert Hc;
    destruct c as [[] [] [] [] [] [] [] []]; done.
Qed.

(** What a day or a month leaves of a text that starts with a digit:
    the text after one character, or after two. *)
Lemma day_alts_rests a r :
  is_digit a = true ->
  Forall (fun x => x.2 = r \/ exists b r', r = String b r' /\ x.2 = r')
         (day_alts (String a r)).
Proof.
  intros Ha. unfold day_alts, alt1, alt2. rewrite digit_is_no_blank by done.
  destruct r as [|b r'];
    repeat match goal with
           | |- context [if ?t then _ else _] => destruct t
           end;
    cbn [app]; repeat first [apply Forall_nil_2 | apply Forall_cons_2];
    cbn; first [by left | right; by eexists _, _].
Qed.

Lemma month_alts_rests a r :
  Forall (fun x => x.2 = r \/ exists b r', r = String b r' /\ x.2 = r')
         (month_alts (String a r)).
Proof.
  unfold month_alts, alt1, alt2.
  destruct r as [|b r'];
    repeat match goal with
           | |- context [if ?t then _ else _] => destruct t
           end;
    cbn [app]; repeat first [apply Forall_nil_2 | apply Forall_cons_2];
    cbn; first [by left | right; by eexists _, _].
Qed.

Lemma dead_day ds a r :
  is_digit a = true ->
  dead ds r -> (forall b r', r = String b r' -> dead ds r') ->
  dead (DDay :: ds) (String a r).
Proof.
  intros Ha Hr Hr' f. cbn [match_format directive_alts].
  apply bind_dead, Forall_fmap.
  eapply Forall_impl; [apply day_alts_rests; done|].
  intros [d rest] [Hx|(b & r' & Hb & Hx)]; cbn in *; subst rest; [apply Hr|].
  by eapply Hr'.
Qed.

Lemma dead_month ds a r :
  dead ds r -> (forall b r', r = String b r' -> dead ds r') ->
  dead (DMonth :: ds) (String a r).
Proof.
  intros Hr Hr' f. cbn [match_format directive_alts].
  apply bind_dead, Forall_fmap.
  eapply Forall_impl; [apply month_alts_rests|].
  intros [d rest] [Hx|(b & r' & Hb & Hx)]; cbn in *; subst rest; [apply Hr|].
  by eapply Hr'.
Qed.

Lemma all_chars_tail_of p c r : all_chars p (String c r) = true -> all_chars p r = true.
Proof. cbn [all_chars]. rewrite andb_true_iff. by intros [_ ?]. Qed.

(** The formats that put the day first and then a slash or a blank. *)
Lemma dead_day_then d2 ds a r :
  (forall s, all_chars DateChecks.digit_or_dash s = true -> dead (d2 :: ds) s) ->
  is_digit a = true -> all_chars DateChecks.digit_or_dash r = true ->
  dead (DDay :: d2 :: ds) (String a r).
Proof.
  intros Hd2 Ha Hr. apply dead_day; [done|by apply Hd2|].
  intros b r' ->. apply Hd2. by eapply all_chars_tail_of.
Qed.

Lemma strptime_dead s fmt :
  dead (compile_format fmt) s -> strptime s fmt = None.
Proof. intros Hdead. unfold strptime. by rewrite Hdead. Qed.

(** The text [y-mm-dd] of a year of one to three digits is read by no
    format. *)
Lemma short_year_text_rejected a rest m1 m2 d1 d2 :
  is_digit a = true -> all_chars is_digit rest = true ->
  (String.length rest <= 2)%nat ->
  is_digit m1 = true -> is_digit m2 = true ->
  is_digit d1 = true -> is_digit d2 = true ->
  validate_date
    (String a rest +:+ "-" +:+ String m1 (String m2 EmptyString)
     +:+ "-" +:+ String d1 (String d2 EmptyString)) = None.
Proof.
  intros Ha Hrest Hlen Hm1 Hm2 Hd1 Hd2.
  set (tail := String m1 (String m2 (String "-" (String d1 (String d2 EmptyString))))).
  set (text := String a rest +:+ _).
  assert (Htext : text = String a (rest +:+ String "-" tail)).
  { subst text tail. cbn [String.append]. reflexivity. }
  assert (Hdd_digit : forall c, is_digit c = true -> DateChecks.digit_or_dash c = true).
  { intros c Hc. unfold DateChecks.digit_or_dash. by rewrite Hc. }
  assert (Hdd : all_chars DateChecks.digit_or_dash (rest +:+ String "-" tail) = true).
  { rewrite all_chars_app. subst tail. cbn [all_chars].
    rewrite (all_chars_weaken is_digit _ rest Hdd_digit Hrest).
    rewrite (Hdd_digit m1), (Hdd_digit m2), (Hdd_digit d1), (Hdd_digit d2) by done.
    reflexivity. }
  assert (Htail : dead [DMonth; DLit "-"; DYear] tail).
  { subst tail. apply dead_month.
    - by apply dead_dash_on_digit.
    - intros b r' [= <- <-]. apply dead_literal_step.
      by apply dead_no_alternative. }
  assert (Hyear : year_alts text = []).
  { rewrite Htext. clear -Hlen.
    destruct rest as [|y2 [|y3 [|y4 more]]]; [..|simpl in Hlen; lia];
      flatten_appends; cbn [year_alts];
      change (is_digit "-") with false; by rewrite ?andb_false_r. }
  assert (Hdmy : dead [DDay; DLit "-"; DMonth; DLit "-"; DYear] text).
  { rewrite Htext.
    destruct rest as [|y2 [|y3 [|y4 more]]]; [..|simpl in Hlen; lia];
      flatten_appends; cbn [all_chars] in Hrest.
    - apply dead_day; [done|by apply dead_literal_step|].
      intros b r' [= <- <-]. by apply dead_dash_on_digit.
    - apply andb_true_iff in Hrest as [Hy2 _].
      apply dead_day; [done|by apply dead_dash_on_digit|].
      intros b r' [= <- <-]. by apply dead_literal_step.
    - apply andb_true_iff in Hrest as [Hy2 Hrest].
      apply andb_true_iff in Hrest as [Hy3 _].
      apply dead_day; [done|by apply dead_dash_on_digit|].
      intros b r' [= <- <-]. by apply dead_dash_on_digit. }
  assert (Hname : forall ds, dead (DMonthName :: ds) text /\ dead (DMonthAbbr :: ds) text).
  { intros ds. rewrite Htext. by apply dead_name_on_digit. }
  assert (Hday : forall next ds,
             (forall s, all_chars DateChecks.digit_or_dash s = true -> dead (next :: ds) s) ->
             dead (DDay :: next :: ds) text).
  { intros next ds Hnext. rewrite Htext. by apply dead_day_then. }
  unfold validate_date.
  assert (Hne : String.eqb text EmptyString = false) by (by rewrite Htext).
  rewrite Hne. unfold formats. cbn [first_format].
  rewrite (strptime_dead text "%Y-%m-%d") by (by apply dead_no_alternative; cbn; rewrite Hyear).
  rewrite (strptime_dead text "%d-%m-%Y") by exact Hdmy.
  rewrite (strptime_dead text "%Y/%m/%d") by (by apply dead_no_alternative; cbn; rewrite Hyear).
  rewrite (strptime_dead text "%d/%m/%Y") by (apply Hday; intros; by apply dead_slash).
  rewrite (strptime_dead text "%B %d, %Y") by apply Hname.
  rewrite (strptime_dead text "%d %B %Y") by (apply Hday; intros; by apply dead_space).
  rewrite (strptime_dead text "%b %d, %Y") by apply Hname.
  rewrite (strptime_dead text "%d %b %Y") by (apply Hday; intros; by apply dead_space).
  reflexivity.
Qed.

Lemma iso_text_rejected f :
  valid_date f = true -> (f_year f < 1000)%Z ->
  validate_date (strftime_iso f) = None.
Proof.
  intros Hvalid Hshort. destruct (valid_date_bounds f Hvalid) as (Hy & Hm & Hd).
  destruct (short_year_text (f_year f) ltac:(lia)) as (a & rest & Hyt & Ha & Hrest & Hlen).
  destruct (two_digit_text (f_month f) ltac:(lia)) as (m1 & m2 & Hmt & Hm1 & Hm2).
  destruct (two_digit_text (f_day f) ltac:(lia)) as (d1 & d2 & Hdt & Hd1 & Hd2).
  unfold strftime_iso. rewrite Hyt, Hmt, Hdt.
  by apply short_year_text_rejected.
Qed.

Lemma accepted_date_is_iso_text (date_str normalized : string) :
  validate_date date_str = Some normalized ->
  exists fmt f,
    In fmt formats /\ strptime date_str fmt = Some f
    /\ valid_date f = true /\ normalized = strftime_iso f.
Proof.
  unfold validate_date.
  destruct (String.eqb date_str EmptyString); [done|].
  intros Hfirst. apply first_format_parsed in Hfirst as (fmt & f & Hin & Hp & ->).
  exists fmt, f. split; [done|]. split; [done|]. split; [|done].
  by apply strptime_valid in Hp.
Qed.

(** X5: [validate_date] is idempotent from the year 1000 on, and only
    there.  What it accepts it returns as the text of the date it read;
    for a year of four digits that text has ten characters, the ISO
    format reads it back as the same date, and validating it again
    returns it unchanged; for a year below 1000 the text is shorter,
    the year being written without leading zeros, and validating it
    again fails. *)
Theorem validate_date_idempotent_from_year_1000 (date_str normalized : string) :
  validate_date date_str = Some normalized ->
  exists fmt f,
    In fmt formats /\ strptime date_str fmt = Some f
    /\ normalized = strftime_iso f
    /\ ((1000 <= f_year f)%Z ->
          String.length normalized = 10%nat
          /\ strptime normalized "%Y-%m-%d" = Some f
          /\ validate_date normalized = Some normalized)
    /\ ((f_year f < 1000)%Z ->
          (String.length normalized < 10)%nat
          /\ validate_date normalized = None).
Proof.
  intros Haccepted.
  apply accepted_date_is_iso_text in Haccepted as (fmt & f & Hin & Hp & Hvalid & ->).
  exists fmt, f. split; [done|]. split; [done|]. split; [done|]. split.
  - intros Hlong. split; [by apply iso_text_length|].
    split; [by apply iso_text_parses_back|by apply iso_text_accepted].
  - intros Hshort. split; [by apply iso_text_short|by apply iso_text_rejected].
Qed.

Lemma validate_date_idempotent_from_year_1000_witness :
  exists fmt f,
    In fmt formats /\ strptime "23 June 2024" fmt = Some f
    /\ "2024-06-23" = strftime_iso f
    /\ ((1000 <= f_year f)%Z ->
          String.length "2024-06-23" = 10%nat
          /\ strptime "2024-06-23" "%Y-%m-%d" = Some f
          /\ validate_date "2024-06-23" = Some "2024-06-23")
    /\ ((f_year f < 1000)%Z ->
          (String.length "2024-06-23" < 10)%nat
          /\ validate_date "2024-06-23" = None).
Proof.
  apply (validate_date_idempotent_from_year_1000 "23 June 2024" "2024-06-23").
  vm_compute. reflexivity.
Defined.

(** The year 999: accepted with leading zero, returned without, and
    then no longer accepted. *)
Example validate_date_year_999 :
  validate_date "0999-12-31" = Some "999-12-31"
  /\ validate_date "999-12-31" = None.
Proof. split; vm_compute; reflexivity. Qed.

(** A normalised text of ten characters is accepted again. *)
Lemma ten_characters_accepted (date_str normalized : string) :
  validate_date date_str = Some normalized ->
  String.length normalized = 10%nat ->
  validate_date normalized = Some normalized.
Proof.
  intros Haccepted Hlen.
  apply accepted_date_is_iso_text in Haccepted as (fmt & f & _ & _ & Hvalid & ->).
  destruct (Z_lt_dec (f_year f) 1000) as [Hshort|Hlong].
  - pose proof (iso_text_short f Hvalid Hshort). lia.
  - apply iso_text_accepted; [done|lia].
Qed.

End DateFacts.

(** ** Lookups and dates *)

Section LookupDateFacts.
Import Server Lookups.

Lemma date_arg_accepted date normalized :
  Dates.validate_date date = Some normalized ->
  String.length normalized = 10%nat ->
  date_arg date = Some normalized
  /\ date_arg normalized = Some normalized
  /\ date_rejected date (Some normalized) = false
  /\ date_rejected normalized (Some normalized) = false.
Proof.
  intros Hd Hlen.
  pose proof (ten_characters_accepted _ _ Hd Hlen) as Hn.
  assert (Hne : String.eqb normalized EmptyString = false).
  { apply String.eqb_neq. intros ->. done. }
  assert (Hde : String.eqb date EmptyString = false).
  { apply String.eqb_neq. intros ->. done. }
  unfold date_arg, date_rejected. simpl. rewrite Hne, Hde, Hd, Hn.
  by rewrite andb_false_r.
Qed.

(** X6: a lookup answers a date written in any recognised format
    exactly as it answers the normalised date, when the normalised
    text has its ten characters, which is so for every year from 1000
    on. *)
Theorem lookups_read_every_recognised_format
    (col : Store) (carrier flight_number date normalized : string)
    (ss es : option string) :
  Dates.validate_date date = Some normalized ->
  String.length normalized = 10%nat ->
  get_flight_basic_info col carrier flight_number date ss es
  = get_flight_basic_info col carrier flight_number normalized ss es
  /\ get_operation_times col carrier flight_number date ss es
     = get_operation_times col carrier flight_number normalized ss es
  /\ get_equipment_info col carrier flight_number date ss es
     = get_equipment_info col carrier flight_number normalized ss es
  /\ get_fuel_summary col carrier flight_number date ss es
     = get_fuel_summary col carrier flight_number normalized ss es
  /\ get_passenger_info col carrier flight_number date ss es
     = get_passenger_info col carrier flight_number normalized ss es
  /\ get_crew_info col carrier flight_number date ss es
     = get_crew_info col carrier flight_number normalized ss es.
Proof.
  intros Hd Hlen. destruct (date_arg_accepted _ _ Hd Hlen) as (H1 & H2 & H3 & H4).
  unfold get_flight_basic_info, get_operation_times, get_equipment_info,
    get_fuel_summary, get_passenger_info, get_crew_info.
  rewrite H1, H2, H3, H4. done.
Qed.

Lemma lookups_read_every_recognised_format_witness :
  let col := Examples.collection_of [(Examples.oid1, Examples.del_bom 1)] in
  get_flight_basic_info col "6E" "215" "June 23, 2024" None None
  = get_flight_basic_info col "6E" "215" "2024-06-23" None None.
Proof.
  intros col.
  apply (lookups_read_every_recognised_format col "6E" "215" "June 23, 2024" "2024-06-23").
  - vm_compute. reflexivity.
  - reflexivity.
Defined.

(** Below the year 1000 the two spellings part: the date as the caller
    wrote it is looked up, its normalised text is refused. *)
Example lookup_of_the_year_999 :
  let col := Examples.collection_of [(Examples.oid1, Examples.del_bom 1)] in
  Dates.validate_date "0999-12-31" = Some "999-12-31"
  /\ (exists data,
        get_flight_basic_info col "6E" "215" "0999-12-31" None None = response_ok data)
  /\ (exists msg,
        get_flight_basic_info col "6E" "215" "999-12-31" None None
        = response_error msg 400).
Proof.
  intros col. split; [vm_compute; reflexivity|].
  split; eexists; vm_compute; reflexivity.
Qed.

(** ** The fetch by handle *)

Lemma dict_lookup_pop_eq k (d : dict) : dict_lookup k (dict_pop k d) = None.
Proof.
  unfold dict_pop. induction d as [|[k1 v1] rest IH]; [done|].
  rewrite filter_cons. simpl. destruct (decide (k1 <> k)) as [Hne|Heq]; [|done].
  simpl. destruct (String.eqb_spec k1 k); done.
Qed.

Lemma dict_lookup_pop_ne k k' (d : dict) :
  k <> k' -> dict_lookup k' (dict_pop k d) = dict_lookup k' d.
Proof.
  intros Hne. unfold dict_pop. induction d as [|[k1 v1] rest IH]; [done|].
  rewrite filter_cons. simpl. destruct (decide (k1 <> k)) as [Hk|Hk]; simpl.
  - by rewrite IH.
  - apply dec_stable in Hk. subst k1.
    destruct (String.eqb_spec k k'); [done|]. apply IH.
Qed.

Lemma clean_document_lookup (raw : dict) :
  dict_lookup "_id" (clean_document raw) = None
  /\ dict_lookup "_class" (clean_document raw) = None
  /\ forall k, k <> "_id" -> k <> "_class" ->
       dict_lookup k (clean_document raw) = dict_lookup k raw.
Proof.
  unfold clean_document. split; [|split].
  - rewrite dict_lookup_pop_ne by done. apply dict_lookup_pop_eq.
  - apply dict_lookup_pop_eq.
  - intros k H1 H2. rewrite !dict_lookup_pop_ne by done. done.
Qed.

Lemma found_some r d : found r = Some d -> r = Ok (Some d) /\ d <> [].
Proof. destruct r as [[[|kv d']|]|]; simpl; try done. by intros [= <-]. Qed.

(** X7: a document fetched by handle is what the collection holds
    under that handle, read as an ObjectId (only when the handle is 24
    hexadecimal digits) or else as a text, with [_id] and [_class]
    taken out and every other entry left as it is. *)
Theorem fetched_document_hides_identifiers
    (col : Store) (doc_id : string) (projection result : dict) :
  _get_document_by_id col doc_id projection = Some result ->
  dict_lookup "_id" result = None
  /\ dict_lookup "_class" result = None
  /\ exists i raw,
       find_one_by_id col i projection = Ok (Some raw)
       /\ (i = ObjectId doc_id /\ valid_object_id doc_id = true \/ i = StrId doc_id)
       /\ result = clean_document raw
       /\ forall k, k <> "_id" -> k <> "_class" ->
            dict_lookup k result = dict_lookup k raw.
Proof.
  unfold _get_document_by_id.
  destruct (valid_object_id doc_id) eqn:Hvalid.
  - destruct (found (find_one_by_id col (ObjectId doc_id) projection)) as [raw|] eqn:Hf.
    + intros [= <-]. apply found_some in Hf as [Hf _].
      destruct (clean_document_lookup raw) as (H1 & H2 & H3).
      split; [done|]. split; [done|]. exists (ObjectId doc_id), raw.
      split; [done|]. split; [by left|]. by split.
    + destruct (find_one_by_id col (StrId doc_id) projection) as [o|e] eqn:Hs; [|done].
      destruct (found (Ok o)) as [raw|] eqn:Hf'; [|done].
      intros [= <-]. apply found_some in Hf' as [[= ->] _].
      destruct (clean_document_lookup raw) as (H1 & H2 & H3).
      split; [done|]. split; [done|]. exists (StrId doc_id), raw.
      split; [done|]. split; [by right|]. by split.
  - destruct (find_one_by_id col (StrId doc_id) projection) as [o|e] eqn:Hs; [|done].
    destruct (found (Ok o)) as [raw|] eqn:Hf'; [|done].
    intros [= <-]. apply found_some in Hf' as [[= ->] _].
    destruct (clean_document_lookup raw) as (H1 & H2 & H3).
    split; [done|]. split; [done|]. exists (StrId doc_id), raw.
    split; [done|]. split; [by right|]. by split.
Qed.

Lemma fetched_document_hides_identifiers_witness :
  dict_lookup "_id" (Examples.del_bom 1) = None
  /\ dict_lookup "_class" (Examples.del_bom 1) = None.
Proof.
  pose proof (fetched_document_hides_identifiers
                (Examples.collection_of [(Examples.oid1, Examples.del_bom 1)])
                "65a1f0c2e4b0a1b2c3d4e5f1" [] (Examples.del_bom 1) eq_refl) as H.
  exact (conj (proj1 H) (proj1 (proj2 H))).
Defined.

End LookupDateFacts.

(** ** The raw-filter query: what reaches the collection *)

Section RawQueryMore.
Import Server PyStr.
Variable json_loads : string -> option value.

(** X8: the raw-filter query calls the collection at most once, and
    then with a filter none of whose keys starts with [$], with a
    projection that is never empty, and with the caller's limit clamped
    into 1..50. *)
Theorem raw_query_call_is_guarded_and_clamped
    (col : Store) (query_json projection : string) (limit : Z)
    (resp : response) (calls : list store_call) :
  raw_mongodb_query json_loads col query_json projection limit = (resp, calls) ->
  calls = []
  \/ exists query proj,
       calls = [CallFind query proj (Z.min (Z.max 1 limit) 50)]
       /\ (1 <= Z.min (Z.max 1 limit) 50 <= 50)%Z
       /\ _safe_json_loads json_loads query_json = Ok (VDict query)
       /\ Forall (fun key => startswith "$" key = false) (dict_keys query)
       /\ proj <> [].
Proof.
  unfold raw_mongodb_query.
  destruct (_safe_json_loads json_loads query_json) as [q|e];
    [|intros [= <- <-]; by left].
  destruct (if String.eqb projection "" then Ok VNone
            else _safe_json_loads json_loads projection) as [p|e];
    [|intros [= <- <-]; by left].
  destruct q as [| | | | |query]; try (intros [= <- <-]; by left).
  destruct (truthy p && negb (is_dict p)); [intros [= <- <-]; by left|].
  destruct (list_find _ (dict_keys query)) as [[i k]|] eqn:Hfind;
    [intros [= <- <-]; by left|].
  apply list_find_None in Hfind.
  set (proj := match p with VDict (kv :: p0) => kv :: p0 | _ => fallback_projection end).
  intros Hres. right. exists query, proj.
  assert (Hcalls : calls = [CallFind query proj (Z.min (Z.max 1 limit) 50)]).
  { destruct (find_documents col query proj _) as [[|d ds]|e]; by injection Hres as <- <-. }
  split; [done|]. split; [lia|]. split; [done|]. split.
  - eapply Forall_impl; [exact Hfind|]. intros key Hkey. simpl in Hkey.
    destruct (startswith "$" key) eqn:Hs; [|done].
    exfalso. apply Hkey. by apply forbidden_key_sigil.
  - subst proj. destruct p as [| | | | |[|kv p0]]; done.
Qed.

(** X9: a success envelope of the raw-filter query lists at least one
    document, counts the documents it lists, and none of them shows
    [_id] or [_class]; an empty result is a 404, never a success. *)
Theorem raw_query_success_payload
    (col : Store) (query_json projection : string) (limit : Z)
    (data : value) (calls : list store_call) :
  raw_mongodb_query json_loads col query_json projection limit = (response_ok data, calls) ->
  exists query proj docs,
    calls = [CallFind query proj (Z.min (Z.max 1 limit) 50)]
    /\ docs <> []
    /\ Forall no_identifiers docs
    /\ data = VDict [("count", VInt (Z.of_nat (length docs)));
                     ("query", VDict query); ("projection", VDict proj);
                     ("documents", VList (VDict <$> docs))].
Proof.
  unfold raw_mongodb_query.
  destruct (_safe_json_loads json_loads query_json) as [q|e]; [|done].
  destruct (if String.eqb projection "" then Ok VNone
            else _safe_json_loads json_loads projection) as [p|e]; [|done].
  destruct q as [| | | | |query]; try done.
  destruct (truthy p && negb (is_dict p)); [done|].
  destruct (list_find _ (dict_keys query)) as [[i k]|]; [done|].
  set (proj := match p with VDict (kv :: p0) => kv :: p0 | _ => fallback_projection end).
  destruct (find_documents col query proj _) as [[|d ds]|e]; [done| |done].
  intros [= <- <-]. exists query, proj, (clean_document <$> (d :: ds)).
  split; [done|]. split; [done|]. split; [|done].
  apply Forall_fmap, Forall_forall. intros raw _.
  destruct (clean_document_lookup raw) as (H1 & H2 & _). by split.
Qed.

End RawQueryMore.

Lemma raw_query_call_is_guarded_and_clamped_witness :
  let text := "{'flightLegState.carrier': '6E'}" in
  let decoder :=
    Examples.decode_table [(text, VDict [("flightLegState.carrier", VStr "6E")])] in
  let col := Examples.collection_of [(Examples.oid1, Examples.del_bom 1)] in
  snd (Server.raw_mongodb_query decoder col text EmptyString 500) = []
  \/ exists query proj,
       snd (Server.raw_mongodb_query decoder col text EmptyString 500)
       = [Server.CallFind query proj (Z.min (Z.max 1 500) 50)]
       /\ (1 <= Z.min (Z.max 1 500) 50 <= 50)%Z
       /\ Server._safe_json_loads decoder text = Ok (VDict query)
       /\ Forall (fun key => PyStr.startswith "$" key = false) (dict_keys query)
       /\ proj <> [].
Proof.
  intros text decoder col.
  exact (raw_query_call_is_guarded_and_clamped decoder col text EmptyString 500
           _ _ (surjective_pairing _)).
Defined.

Lemma raw_query_success_payload_witness :
  let text := "{'flightLegState.carrier': '6E'}" in
  let decoder :=
    Examples.decode_table [(text, VDict [("flightLegState.carrier", VStr "6E")])] in
  let col := Examples.collection_of [(Examples.oid1, Examples.del_bom 1)] in
  exists query proj docs,
    [Server.CallFind [("flightLegState.carrier", VStr "6E")] Server.fallback_projection 50]
    = [Server.CallFind query proj (Z.min (Z.max 1 500) 50)]
    /\ docs <> []
    /\ Forall no_identifiers docs
    /\ VDict [("count", VInt 1);
              ("query", VDict [("flightLegState.carrier", VStr "6E")]);
              ("projection", VDict Server.fallback_projection);
              ("documents", VList [VDict (Examples.del_bom 1)])]
       = VDict [("count", VInt (Z.of_nat (length docs)));
                ("query", VDict query); ("projection", VDict proj);
                ("documents", VList (VDict <$> docs))].
Proof.
  intros text decoder col.
  exact (raw_query_success_payload decoder col text EmptyString 500 _ _ eq_refl).
Defined.

(** ** Aggregation: what the arguments do to the pipeline *)

Section AggregationMore.
Import Server PyStr.
Variable json_loads : string -> option value.

(** X10: in the [$match] stage the [carrier] argument and a complete
    date range overwrite whatever the caller's filter says under the
    same keys; a range with only one end given is ignored. *)
Theorem explicit_arguments_override_filter
    (carrier start_date end_date filter_json : string) (match_stage : dict) :
  build_match_stage json_loads carrier start_date end_date filter_json = Ok match_stage ->
  (carrier <> EmptyString ->
     dict_lookup "flightLegState.carrier" match_stage = Some (VStr carrier))
  /\ (start_date <> EmptyString -> end_date <> EmptyString ->
        dict_lookup "flightLegState.dateOfOrigin" match_stage
        = Some (VDict [("$gte", VStr start_date); ("$lte", VStr end_date)]))
  /\ (start_date = EmptyString \/ end_date = EmptyString ->
        build_match_stage json_loads carrier EmptyString EmptyString filter_json
        = Ok match_stage).
Proof.
  unfold build_match_stage.
  destruct (if String.eqb filter_json "" then Ok [] else _) as [filtered|e]; [|done].
  simpl. intros [= <-]. split; [|split].
  - intros Hc. destruct (String.eqb_spec carrier "") as [|_]; [done|].
    destruct (negb (String.eqb start_date "") && negb (String.eqb end_date ""));
      [rewrite dict_lookup_set_ne by done|]; apply dict_lookup_set_eq.
  - intros Hs He.
    destruct (String.eqb_spec start_date "") as [|_]; [done|].
    destruct (String.eqb_spec end_date "") as [|_]; [done|].
    simpl. apply dict_lookup_set_eq.
  - intros [-> | ->]; simpl; [done|]. by rewrite andb_false_r.
Qed.

(** X11: the delay total cannot be averaged, summed or ranked: under
    every name and alias of these aggregates, in any letter case, the
    request is answered 400 and the collection is not called. *)
Theorem delay_total_is_not_aggregated
    (col : Store) (query_type carrier field start_date end_date filter_json : string) :
  contains "delays.total" field = true ->
  lower query_type ∈ numeric_aggregates ->
  exists msg,
    run_aggregated_query json_loads col query_type carrier field
      start_date end_date filter_json
    = (response_error msg 400, []).
Proof.
  intros Hfield Hq. unfold run_aggregated_query. rewrite Hfield.
  assert (Hn : bool_decide
                 (normalize_query_type query_type ∈ ["average"; "sum"; "min"; "max"])
               = true).
  { unfold normalize_query_type, numeric_aggregates in *.
    rewrite !elem_of_cons, elem_of_nil in Hq.
    destruct Hq as [->|[->|[->|[->|[->|[->|[->|[->|[->|[]]]]]]]]]]; reflexivity. }
  rewrite Hn. simpl. by eexists.
Qed.

End AggregationMore.

Lemma explicit_arguments_override_filter_witness :
  let text := "{'flightLegState.carrier': 'AI'}" in
  let decoder :=
    Examples.decode_table
      [(PyStr.replace_char "'" Server.quote text,
        VDict [("flightLegState.carrier", VStr "AI")])] in
  dict_lookup "flightLegState.carrier"
    [("flightLegState.carrier", VStr "6E")] = Some (VStr "6E").
Proof.
  intros text decoder.
  refine (proj1 (explicit_arguments_override_filter decoder "6E" EmptyString EmptyString
                   text [("flightLegState.carrier", VStr "6E")] eq_refl) _).
  discriminate.
Defined.

Lemma delay_total_is_not_aggregated_witness :
  exists msg,
    Server.run_aggregated_query (Examples.decode_table []) Examples.unreachable
      "AVG" EmptyString "flightLegState.delays.total" EmptyString EmptyString EmptyString
    = (Server.response_error msg 400, []).
Proof.
  apply (delay_total_is_not_aggregated (Examples.decode_table []) Examples.unreachable
           "AVG" EmptyString "flightLegState.delays.total").
  - reflexivity.
  - unfold numeric_aggregates. simpl. do 4 apply list_elem_of_further. apply list_elem_of_here.
Defined.

(** ** The candidate list keeps the order of the cursor *)

Section CandidateOrder.
Import Server.
Local Open Scope nat_scope.

Lemma sublist_map {A B} (f : A -> B) (l1 l2 : list A) :
  l1 `sublist_of` l2 -> (f <$> l1) `sublist_of` (f <$> l2).
Proof. induction 1; simpl; by constructor. Qed.

Lemma scan_cursor_order limit rows : forall seen docs out,
  scan_cursor limit rows seen docs = Ok out ->
  exists new,
    out = (docs ++ new)%list
    /\ (doc_id <$> new) `sublist_of` ((fun d => str_of_id (row_id d)) <$> rows).
Proof.
  induction rows as [|d rest IH]; intros seen docs out; simpl.
  - intros [= <-]. exists []. split; [by rewrite app_nil_r|]. constructor.
  - destruct (leg_state d) as [fl|e]; simpl; [|done].
    destruct (unique_key fl) as [k|e]; simpl; [|done].
    destruct (decide (k ∈ seen)).
    + intros Hscan. destruct (IH _ _ _ Hscan) as (new & -> & Hsub).
      exists new. split; [done|]. by apply sublist_cons.
    + destruct (limit <=? length (docs ++ [candidate_of d fl])).
      * intros [= <-]. exists [candidate_of d fl]. split; [done|].
        simpl. apply sublist_skip, sublist_nil_l.
      * intros Hscan. destruct (IH _ _ _ Hscan) as (new & -> & Hsub).
        exists (candidate_of d fl :: new). split; [by rewrite <- app_assoc|].
        simpl. by apply sublist_skip.
Qed.

Lemma scan_cursor_bound limit rows : forall seen docs out,
  length docs < limit ->
  scan_cursor limit rows seen docs = Ok out ->
  length out <= limit.
Proof.
  induction rows as [|d rest IH]; intros seen docs out Hlen; simpl.
  - intros [= <-]. lia.
  - destruct (leg_state d) as [fl|e]; simpl; [|done].
    destruct (unique_key fl) as [k|e]; simpl; [|done].
    destruct (decide (k ∈ seen)); [by apply IH|].
    destruct (Nat.leb_spec limit (length (docs ++ [candidate_of d fl]))) as [Hle|Hgt].
    + intros [= <-]. rewrite length_app in *. simpl in *. lia.
    + by apply IH.
Qed.

(** X12: the candidates are listed in the order of the cursor, that is
    by scheduled start time; each is a row of the collection's answer,
    and there are never more of them than the limit. *)
Theorem candidates_keep_cursor_order
    (col : Store) (query : dict) (limit : nat) (rows : list meta_row) :
  0 < limit ->
  find_sorted col query = Ok rows ->
  let meta := _find_matching_doc_meta col query limit in
  (doc_id <$> meta_documents meta)
    `sublist_of` ((fun d => str_of_id (row_id d)) <$> rows)
  /\ meta_count meta <= limit.
Proof.
  intros Hlimit Hfind meta. subst meta. unfold _find_matching_doc_meta.
  destruct (count_documents col query) as [n|e]; simpl;
    [|split; [apply sublist_nil_l|lia]].
  rewrite Hfind. simpl.
  destruct (scan_cursor limit _ ∅ []) as [out|e] eqn:Hscan; simpl;
    [|split; [apply sublist_nil_l|lia]].
  split.
  - destruct (scan_cursor_order _ _ _ _ _ Hscan) as (new & -> & Hsub). simpl.
    etrans; [exact Hsub|]. apply sublist_map.
    unfold cursor_limit. destruct (limit * 2 =? 0); [done|apply sublist_take].
  - apply (scan_cursor_bound limit (cursor_limit (limit * 2) rows) ∅ [] out);
      [simpl; lia|done].
Qed.

Lemma candidates_keep_cursor_order_witness :
  let col := Examples.collection_of
               [(Examples.oid1, Examples.del_bom 1); (Examples.oid2, Examples.del_bom 2);
                (Examples.oid3, Examples.bom_goi 1)] in
  ["65a1f0c2e4b0a1b2c3d4e5f1"; "65a1f0c2e4b0a1b2c3d4e5f3"]
    `sublist_of` ["65a1f0c2e4b0a1b2c3d4e5f1"; "65a1f0c2e4b0a1b2c3d4e5f2";
                  "65a1f0c2e4b0a1b2c3d4e5f3"]
  /\ 2 <= 50.
Proof.
  intros col.
  exact (candidates_keep_cursor_order col [] 50 _ (Nat.lt_0_succ 49) eq_refl).
Defined.

End CandidateOrder.

(** ** What stops a run *)

Section StopFacts.
Import Client.

Lemma error_envelope_is_unflagged (tool : value) (msg : string) (code : Z) :
  needs_route_selection tool (Server.envelope (Server.response_error msg code)) = false.
Proof.
  destruct tool as [| | |t| |]; try reflexivity.
  destruct (String.eqb_spec "ok" t) as [<-|Hok]; [reflexivity|].
  destruct (String.eqb_spec "error" t) as [<-|Herr]; [reflexivity|].
  apply String.eqb_neq in Hok, Herr.
  unfold needs_route_selection, selection_candidate, dict_get.
  cbn [dict_lookup Server.envelope]. rewrite ?Hok, ?Herr. reflexivity.
Qed.

(** X13: on an envelope sent by the server the executor's shape test
    fires exactly when the envelope is a success whose payload is a
    mapping with a truthy [needs_route_selection]; an error envelope
    never stops a run, whatever the tool is called. *)
Theorem envelope_stops_the_run_iff_flagged (tool : value) (r : Server.response) :
  needs_route_selection tool (Server.envelope r)
  = match r with
    | Server.response_ok (VDict payload) =>
        truthy (dict_get "needs_route_selection" payload VNone)
    | _ => false
    end.
Proof.
  destruct r as [data|msg code|e]; [|apply error_envelope_is_unflagged|done].
  destruct tool as [| | |t| |];
    try (destruct data as [| | | | |payload]; reflexivity).
  destruct (String.eqb_spec "ok" t) as [<-|Hok];
    [destruct data as [| | | | |payload]; reflexivity|].
  destruct (String.eqb_spec "data" t) as [<-|Hdata];
    [destruct data as [| | | | |payload]; cbn; rewrite ?andb_false_r; reflexivity|].
  apply String.eqb_neq in Hok, Hdata.
  destruct data as [| | | | |payload]; try reflexivity.
  all: unfold needs_route_selection, selection_candidate, dict_get;
    cbn [dict_lookup Server.envelope]; rewrite ?Hok, ?Hdata; reflexivity.
Qed.

(** X14: an ambiguous lookup always stops the run; a lookup that found
    nothing or failed never does. *)
Theorem ambiguous_lookup_stops_the_run
    (col : Store) (query projection : dict) (not_found : string) (tool : value) :
  let meta := Server._find_matching_doc_meta col query 50 in
  let resp := Server.envelope (Server.resolve col query projection not_found) in
  (Server.opt_text (Server.meta_error meta) = EmptyString ->
   (1 < Server.meta_count meta)%nat -> needs_route_selection tool resp = true)
  /\ (Server.opt_text (Server.meta_error meta) <> EmptyString
      \/ Server.meta_count meta = 0%nat -> needs_route_selection tool resp = false).
Proof.
  intros meta resp. subst resp.
  destruct (resolve_classification col query projection not_found)
    as (Herr & H0 & _ & Hmany).
  fold meta in Herr, H0, Hmany. split.
  - intros He Hn. destruct (Hmany He Hn) as [_ ->].
    apply ambiguous_envelope_needs_selection.
  - intros [He|Hn].
    + rewrite (Herr He). apply error_envelope_is_unflagged.
    + destruct (String.eqb_spec (Server.opt_text (Server.meta_error meta)) EmptyString)
        as [He|He]; [rewrite (H0 He Hn)|rewrite (Herr He)];
        apply error_envelope_is_unflagged.
Qed.

Lemma ambiguous_lookup_stops_the_run_witness :
  let col := Examples.collection_of
               [(Examples.oid1, Examples.del_bom 1); (Examples.oid3, Examples.bom_goi 1)] in
  needs_route_selection (VStr "get_delay_summary")
    (Server.envelope (Server.resolve col [] [] "No matching document found.")) = true.
Proof.
  intros col.
  apply (proj1 (ambiguous_lookup_stops_the_run col [] [] "No matching document found."
                  (VStr "get_delay_summary"))).
  - reflexivity.
  - vm_compute. lia.
Defined.

End StopFacts.

(** ** Results of a run *)

Section RunInvariant.
Import Client.
Local Open Scope nat_scope.

Variable world : Type.
Variable invoke_tool : world -> value -> dict -> value * world.
Variable plan_tools : world -> string -> dict * world.
Variable summarize_results :
  world -> string -> value -> list (value * value) -> value * world.

Abbreviation unflagged := (fun e : value * value => needs_route_selection e.1 e.2 = false).

Lemma run_step_cases (st : run_state world) step :
  match Client.run_step world invoke_tool st step with
  | Next st' =>
      (exists e, run_results st' = (run_results st ++ [e])%list /\ unflagged e)
      /\ length (run_calls st') <= S (length (run_calls st))
      /\ length (run_calls st) <= length (run_calls st')
  | Stop st' =>
      exists tool resp args,
        run_results st' = (run_results st ++ [(tool, resp)])%list
        /\ needs_route_selection tool resp = true
        /\ run_calls st' = (run_calls st ++ [(tool, args)])%list
  | Crash _ st' => run_results st' = run_results st
  end.
Proof.
  unfold Client.run_step, prepare_step.
  destruct step as [| | | | |s]; try done.
  destruct (dict_get "arguments" s (VDict [])) as [| | | | |args]; try done.
  destruct (is_text "raw_mongodb_query" (dict_get "tool" s VNone)).
  - destruct (negb (truthy (dict_get "query_json" (clean_args args) (VStr "")))).
    + simpl. split; [|lia]. eexists. split; [done|]. reflexivity.
    + destruct (py_int _) as [limit|e]; simpl; [|done].
      destruct (invoke_tool _ _ _) as [resp w'].
      destruct (hashable _); [|done].
      destruct (needs_route_selection _ resp) eqn:Hflag; simpl.
      * by eexists _, _, _.
      * rewrite length_app. simpl. split; [|lia]. eexists. by split.
  - simpl. destruct (invoke_tool _ _ _) as [resp w'].
    destruct (hashable _); [|done].
    destruct (needs_route_selection _ resp) eqn:Hflag; simpl.
    + by eexists _, _, _.
    + rewrite length_app. simpl. split; [|lia]. eexists. by split.
Qed.

Lemma run_steps_cases steps : forall st : run_state world,
  Forall unflagged (run_results st) ->
  length (run_calls st) <= length (run_results st) ->
  match Client.run_steps world invoke_tool st steps with
  | Next st' =>
      Forall unflagged (run_results st')
      /\ length (run_calls st') <= length (run_results st')
      /\ length (run_results st') = length (run_results st) + length steps
  | Stop st' =>
      exists init tool resp args,
        run_results st' = (init ++ [(tool, resp)])%list
        /\ needs_route_selection tool resp = true
        /\ Forall unflagged init
        /\ last (run_calls st') = Some (tool, args)
        /\ length (run_results st') <= length (run_results st) + length steps
  | Crash _ _ => True
  end.
Proof.
  induction steps as [|step rest IH]; intros st Hun Hlen; simpl.
  - split; [done|]. split; lia.
  - pose proof (run_step_cases st step) as Hstep.
    destruct (Client.run_step world invoke_tool st step) as [st1|st1|e st1]; [| |done].
    + destruct Hstep as ((e & Hres & He) & Hc1 & Hc2).
      assert (Hun1 : Forall unflagged (run_results st1)).
      { rewrite Hres. apply Forall_app. split; [done|]. by constructor. }
      assert (Hlen1 : length (run_calls st1) <= length (run_results st1)).
      { rewrite Hres, length_app. simpl. lia. }
      specialize (IH st1 Hun1 Hlen1).
      destruct (Client.run_steps world invoke_tool st1 rest) as [st2|st2|e2 st2]; [| |done].
      * destruct IH as (H1 & H2 & H3). split; [done|]. split; [done|].
        rewrite H3, Hres, length_app. simpl. lia.
      * destruct IH as (init & tool & resp & args & H1 & H2 & H3 & H4 & H5).
        exists init, tool, resp, args. repeat (split; [done|]).
        rewrite Hres, length_app in H5. simpl in H5. lia.
    + destruct Hstep as (tool & resp & args & Hres & Hflag & Hcalls).
      exists (run_results st), tool, resp, args.
      split; [done|]. split; [done|]. split; [done|]. split.
      * rewrite Hcalls. apply last_snoc.
      * rewrite Hres, length_app. simpl. lia.
Qed.

(** X15: every step that runs leaves exactly one result.  A run that is
    summarised has as many results as its plan has steps, none of them
    flagged, and no more invocations than results.  A run that asks for
    a route selection ends with the flagged response of its last
    invocation, no earlier result is flagged, and it has no more results
    than the plan has steps. *)
Theorem run_results_invariant
    (w w' : world) (user_query : string) (outcome : Client.outcome)
    (calls : list (value * dict)) :
  Client.run_query world invoke_tool plan_tools summarize_results w user_query
  = (outcome, calls, w') ->
  match outcome with
  | Failed _ => True
  | Summarized plan results _ =>
      (exists steps, plan_steps plan = Ok steps /\ length results = length steps)
      /\ Forall unflagged results
      /\ length calls <= length results
  | NeedsRouteSelection plan results =>
      exists init tool resp args steps,
        results = (init ++ [(tool, resp)])%list
        /\ needs_route_selection tool resp = true
        /\ Forall unflagged init
        /\ last calls = Some (tool, args)
        /\ plan_steps plan = Ok steps
        /\ length results <= length steps
  end.
Proof.
  unfold Client.run_query.
  destruct (plan_tools w user_query) as [plan_data w0].
  set (plan := dict_get "plan" plan_data (VList [])).
  destruct (negb (truthy plan)); [by intros [= <- <- <-]|].
  destruct (plan_steps plan) as [steps|e] eqn:Hsteps; [|by intros [= <- <- <-]].
  pose proof (run_steps_cases steps
                {| run_world := w0; run_results := []; run_calls := [] |}
                (Forall_nil_2 _) (Nat.le_refl _)) as Hrun.
  destruct (Client.run_steps world invoke_tool _ steps) as [st|st|e st].
  - destruct (summarize_results _ _ _ _) as [summary w1].
    intros [= <- <- <-]. destruct Hrun as (H1 & H2 & H3). simpl in H3.
    split; [by exists steps|]. by split.
  - intros [= <- <- <-].
    destruct Hrun as (init & tool & resp & args & H1 & H2 & H3 & H4 & H5).
    simpl in H5. by exists init, tool, resp, args, steps.
  - by intros [= <- <- <-].
Qed.

End RunInvariant.

Lemma run_results_invariant_witness :
  exists init tool resp args steps,
    [(VStr "health_check",
      Server.envelope (Server.response_ok (VDict [("status", VStr "ok")])));
     (VStr "get_delay_summary", Examples.ambiguous_answer)]
    = (init ++ [(tool, resp)])%list
    /\ Client.needs_route_selection tool resp = true
    /\ Forall (fun e => Client.needs_route_selection e.1 e.2 = false) init
    /\ last [(VStr "health_check", ([] : dict));
             (VStr "get_delay_summary",
              [("carrier", VStr "6E"); ("flight_number", VStr "215");
               ("date_of_origin", VStr "2024-06-23")])] = Some (tool, args)
    /\ Client.plan_steps Examples.three_step_plan = Ok steps
    /\ (2 <= length steps)%nat.
Proof.
  exact (run_results_invariant nat Examples.counting_invoke
           (Examples.fixed_plan Examples.three_step_plan) Examples.plain_summary
           0%nat 2%nat "delay of 6E 215" _ _ eq_refl).
Defined.

(** ** Total delay across legs *)

Section TotalDelayFacts.
Import Server TotalDelay.

Variable find_legs : dict -> dict -> res (list dict).
Variable sorted_dates : list value -> res (list value).

Notation total_delay := (get_total_delay_aggregated find_legs sorted_dates).

Lemma sum_minutes_app (legs1 legs2 : list dict) :
  sum_minutes (legs1 ++ legs2)%list = (sum_minutes legs1 + sum_minutes legs2)%Z.
Proof.
  induction legs1 as [|leg rest IH]; [done|].
  unfold sum_minutes in *. csimpl. rewrite IH. lia.
Qed.

(** The loop adds one entry per document; each entry reports the
    minutes its raw delay text parses to, and the total grows by their
    sum. *)
Lemma scan_legs_sum cursor : forall legs total dates legs' total' dates',
  scan_legs cursor legs total dates = Ok (legs', total', dates') ->
  exists new,
    legs' = (legs ++ new)%list
    /\ length new = length cursor
    /\ total' = (total + sum_minutes new)%Z
    /\ Forall (fun leg =>
                 Duration.parse_iso_duration_to_minutes (dict_get "delayRaw" leg VNone)
                 = Ok (leg_minutes leg)) new.
Proof.
  induction cursor as [|doc rest IH]; intros legs total dates legs' total' dates'; simpl.
  - intros [= <- <- <-]. exists []. rewrite app_nil_r. unfold sum_minutes. simpl.
    split; [done|]. split; [done|]. split; [lia|constructor].
  - destruct (doc_leg_state doc) as [fl|e]; simpl; [|done].
    destruct (delay_text fl) as [delay_str|e]; simpl; [|done].
    destruct (Duration.parse_iso_duration_to_minutes delay_str) as [m|e] eqn:Hm;
      simpl; [|done].
    destruct (hash_value (fl_get "dateOfOrigin" fl)) as [h|e]; simpl; [|done].
    intros Hscan. destruct (IH _ _ _ _ _ _ Hscan) as (new & -> & Hlen & -> & Hall).
    eexists (_ :: new). split; [by rewrite <- app_assoc|].
    split; [simpl; by rewrite Hlen|]. split.
    + match goal with
      | |- _ = (_ + sum_minutes (?leg :: new))%Z =>
          change (sum_minutes (leg :: new)) with (leg_minutes leg + sum_minutes new)%Z;
          change (leg_minutes leg) with m
      end. lia.
    + constructor; [exact Hm|done].
Qed.

(** X16: the total reported is the sum of the minutes of the legs
    listed, one leg per document fetched and at least one; each leg's
    minutes are what its raw delay text parses to, and the readable
    text is the rendering of that total. *)
Theorem total_delay_is_the_sum_of_its_legs
    (carrier flight_number date_of_origin start_date end_date : string)
    (ss es : option string) (data : value) (calls : list dict) :
  total_delay carrier flight_number date_of_origin start_date end_date ss es
  = (response_ok data, calls) ->
  exists fields legs query docs,
    data = VDict fields
    /\ calls = [query]
    /\ find_legs query delay_projection = Ok docs
    /\ length legs = length docs
    /\ legs <> []
    /\ dict_lookup "legs" fields = Some (VList (VDict <$> legs))
    /\ dict_lookup "numberOfLegs" fields = Some (VInt (Z.of_nat (length legs)))
    /\ dict_lookup "totalDelayMinutes" fields = Some (VInt (sum_minutes legs))
    /\ dict_lookup "totalDelayReadable" fields
       = Some (VStr (Duration.format_minutes_to_readable (sum_minutes legs)))
    /\ Forall (fun leg =>
                 Duration.parse_iso_duration_to_minutes (dict_get "delayRaw" leg VNone)
                 = Ok (leg_minutes leg)) legs.
Proof.
  unfold get_total_delay_aggregated.
  destruct (date_constraint _ _ _) as [msg|[date_filter date_range]]; [done|].
  set (query := (_ ++ _)%list).
  destruct (find_legs query delay_projection) as [docs|e] eqn:Hfind; simpl; [|done].
  destruct (scan_legs docs [] 0%Z []) as [[[legs total] dates]|e] eqn:Hscan; simpl; [|done].
  destruct (scan_legs_sum _ _ _ _ _ _ _ Hscan) as (new & Hlegs & Hlen & Htotal & Hall).
  simpl in Hlegs. subst legs. rewrite Z.add_0_l in Htotal. subst total.
  destruct new as [|leg new]; [done|].
  destruct (sorted_dates dates) as [sorted|e]; simpl; [|done].
  intros [= <- <-]. eexists _, (leg :: new), query, docs.
  split; [reflexivity|]. repeat (split; [done|]). done.
Qed.

(** X17: the date rules of the total-delay operation.  A complete range
    takes precedence: the single date is then not even read.  With
    neither a single date nor a complete range, or with a date that is
    not recognised, the answer is 400; every 400 is given before the
    collection is called; and an empty cursor is a 404, never a total of
    zero. *)
Theorem total_delay_date_rules
    (carrier flight_number date_of_origin start_date end_date : string)
    (ss es : option string) :
  (start_date <> EmptyString -> end_date <> EmptyString ->
     total_delay carrier flight_number date_of_origin start_date end_date ss es
     = total_delay carrier flight_number EmptyString start_date end_date ss es)
  /\ (date_of_origin = EmptyString ->
      start_date = EmptyString \/ end_date = EmptyString ->
      exists msg,
        total_delay carrier flight_number date_of_origin start_date end_date ss es
        = (response_error msg 400, []))
  /\ ((start_date = EmptyString \/ end_date = EmptyString) ->
      date_of_origin <> EmptyString -> Dates.validate_date date_of_origin = None ->
      exists msg,
        total_delay carrier flight_number date_of_origin start_date end_date ss es
        = (response_error msg 400, []))
  /\ (forall msg calls,
        total_delay carrier flight_number date_of_origin start_date end_date ss es
        = (response_error msg 400, calls) -> calls = [])
  /\ (forall msg code calls query,
        total_delay carrier flight_number date_of_origin start_date end_date ss es
        = (response_error msg code, calls) ->
        calls = [query] -> find_legs query delay_projection = Ok [] ->
        code = 404%Z).
Proof.
  split; [|split; [|split; [|split]]].
  - intros Hs He. unfold get_total_delay_aggregated, date_constraint.
    destruct (String.eqb_spec start_date "") as [|_]; [done|].
    destruct (String.eqb_spec end_date "") as [|_]; [done|]. done.
  - intros -> Hrange. unfold get_total_delay_aggregated, date_constraint.
    destruct Hrange as [-> | ->]; simpl; rewrite ?andb_false_r; by eexists.
  - intros Hrange Hd Hbad. unfold get_total_delay_aggregated, date_constraint.
    destruct (String.eqb_spec date_of_origin "") as [|_]; [done|].
    rewrite Hbad. destruct Hrange as [-> | ->]; simpl; rewrite ?andb_false_r; by eexists.
  - intros msg calls. unfold get_total_delay_aggregated.
    destruct (date_constraint _ _ _) as [m|[date_filter date_range]];
      [by intros [= _ <-]|].
    set (query := (_ ++ _)%list).
    destruct (find_legs query delay_projection) as [docs|e]; simpl; [|done].
    destruct (scan_legs docs [] 0%Z []) as [[[legs total] dates]|e]; simpl; [|done].
    destruct legs; [done|]. by destruct (sorted_dates dates).
  - intros msg code calls query. unfold get_total_delay_aggregated.
    destruct (date_constraint _ _ _) as [m|[date_filter date_range]];
      [by intros [= _ _ <-]|].
    set (q := (_ ++ _)%list). intros Hres [= ->]. injection Hres as Hres Hq.
    subst query. intros Hfind. rewrite Hfind in Hres. simpl in Hres.
    by injection Hres as _ <-.
Qed.

End TotalDelayFacts.

Example total_delay_of_two_legs :
  exists fields calls,
    TotalDelay.get_total_delay_aggregated Samples.find_two_legs Samples.one_day
      "6E" "215" "23-06-2024" EmptyString EmptyString None None
    = (Server.response_ok (VDict fields), calls)
    /\ dict_lookup "totalDelayMinutes" fields = Some (VInt 108)
    /\ dict_lookup "totalDelayReadable" fields = Some (VStr "1 hour 48 minutes")
    /\ dict_lookup "dateRange" fields = Some (VStr "2024-06-23").
Proof. eexists _, _. split; [vm_compute; reflexivity|]. by repeat split. Qed.

Lemma total_delay_is_the_sum_of_its_legs_witness :
  exists data calls,
    TotalDelay.get_total_delay_aggregated Samples.find_two_legs Samples.one_day
      "6E" "215" "23-06-2024" EmptyString EmptyString None None
    = (Server.response_ok data, calls)
    /\ exists fields legs query docs,
         data = VDict fields
         /\ calls = [query]
         /\ Samples.find_two_legs query TotalDelay.delay_projection = Ok docs
         /\ length legs = length docs
         /\ legs <> []
         /\ dict_lookup "legs" fields = Some (VList (VDict <$> legs))
         /\ dict_lookup "numberOfLegs" fields = Some (VInt (Z.of_nat (length legs)))
         /\ dict_lookup "totalDelayMinutes" fields
            = Some (VInt (TotalDelay.sum_minutes legs))
         /\ dict_lookup "totalDelayReadable" fields
            = Some (VStr (Duration.format_minutes_to_readable
                            (TotalDelay.sum_minutes legs)))
         /\ Forall (fun leg =>
                      Duration.parse_iso_duration_to_minutes
                        (dict_get "delayRaw" leg VNone)
                      = Ok (TotalDelay.leg_minutes leg)) legs.
Proof.
  eexists _, _. split; [vm_compute; reflexivity|].
  apply (total_delay_is_the_sum_of_its_legs Samples.find_two_legs Samples.one_day
           "6E" "215" "23-06-2024" EmptyString EmptyString None None).
  vm_compute. reflexivity.
Defined.

Lemma total_delay_date_rules_witness :
  exists msg,
    TotalDelay.get_total_delay_aggregated Samples.find_two_legs Samples.one_day
      "6E" "215" EmptyString "2024-06-01" EmptyString None None
    = (Server.response_error msg 400, []).
Proof.
  apply (proj1 (proj2 (total_delay_date_rules Samples.find_two_legs Samples.one_day
                         "6E" "215" EmptyString "2024-06-01" EmptyString None None))).
  - reflexivity.
  - by right.
Defined.

(** ** The plan validator *)

Section PlannerFacts.
Import PyStr Planner.

Lemma lstrip_is_lstrip_by s : lstrip s = lstrip_by is_space s.
Proof. induction s as [|c r IH]; simpl; [done|]. by rewrite IH. Qed.

Lemma rstrip_is_rstrip_by s : rstrip s = rstrip_by is_space s.
Proof. induction s as [|c r IH]; simpl; [done|]. by rewrite IH. Qed.

Lemma lstrip_by_all p w s : all_chars p w = true -> lstrip_by p (w +:+ s) = lstrip_by p s.
Proof.
  induction w as [|c r IH]; simpl; [done|].
  rewrite andb_true_iff. intros [-> Hr]. by apply IH.
Qed.

Lemma lstrip_by_clean p w c r :
  all_chars (fun x => negb (p x)) w = true -> p c = false ->
  lstrip_by p (w +:+ String c r) = w +:+ String c r.
Proof.
  intros Hw Hc. destruct w as [|x w]; simpl in *; [by rewrite Hc|].
  apply andb_true_iff in Hw as [Hx _]. apply negb_true_iff in Hx. by rewrite Hx.
Qed.

Lemma rstrip_by_empty p w : all_chars p w = true -> rstrip_by p w = EmptyString.
Proof.
  induction w as [|c r IH]; simpl; [done|].
  rewrite andb_true_iff. intros [-> Hr]. by rewrite (IH Hr).
Qed.

Lemma rstrip_by_all p s w : all_chars p w = true -> rstrip_by p (s +:+ w) = rstrip_by p s.
Proof.
  intros Hw. induction s as [|c r IH]; simpl; [by apply rstrip_by_empty|]. by rewrite IH.
Qed.

Lemma rstrip_by_clean p pre suf :
  all_chars (fun x => negb (p x)) suf = true -> suf <> EmptyString ->
  rstrip_by p (pre +:+ suf) = pre +:+ suf.
Proof.
  intros Hsuf Hne.
  assert (Hbase : rstrip_by p suf = suf).
  { clear Hne. induction suf as [|c r IH]; simpl in *; [done|].
    apply andb_true_iff in Hsuf as [Hc Hr]. apply negb_true_iff in Hc.
    rewrite (IH Hr), Hc. by destruct r. }
  induction pre as [|c r IH]; [done|].
  change (String c r +:+ suf) with (String c (r +:+ suf)). cbn [rstrip_by].
  rewrite IH. destruct (r +:+ suf) eqn:He; [|done].
  destruct r; [|done]. exfalso. apply Hne. exact He.
Qed.

Lemma space_is_not_backtick c : is_space c = true -> Ascii.eqb backtick c = false.
Proof. destruct c as [[] [] [] [] [] [] [] []]; done. Qed.

Lemma space_is_not_j c : is_space c = true -> Ascii.eqb "j" (lower_char c) = false.
Proof. destruct c as [[] [] [] [] [] [] [] []]; done. Qed.

Abbreviation not_backtick := (fun c : ascii => negb (Ascii.eqb backtick c)).
Abbreviation not_space := (fun c : ascii => negb (is_space c)).

Lemma spaces_have_no_backtick w :
  all_chars is_space w = true -> all_chars not_backtick w = true.
Proof.
  apply all_chars_weaken. intros c Hc. by rewrite space_is_not_backtick.
Qed.

Lemma remove_fences_none s :
  all_chars not_backtick s = true -> remove_fences 0 s = s.
Proof.
  induction s as [|c r IH]; [done|]. intros Hs. cbn [all_chars] in Hs.
  apply andb_true_iff in Hs as [Hc Hr]. apply negb_true_iff in Hc.
  cbn [remove_fences].
  assert (Hsw : startswith "```" (String c r) = false).
  { cbn [startswith]. change (Ascii.eqb "`" c) with (Ascii.eqb backtick c). by rewrite Hc. }
  rewrite Hsw. by rewrite (IH Hr).
Qed.

(** White space around a text that begins and ends with other
    characters is all that [strip] removes. *)
Lemma strip_core l a mid b r :
  all_chars is_space l = true -> all_chars is_space r = true ->
  is_space a = false -> is_space b = false ->
  strip (l +:+ String a (mid +:+ String b EmptyString) +:+ r)
  = String a (mid +:+ String b EmptyString).
Proof.
  intros Hl Hr Ha Hb. unfold strip.
  rewrite lstrip_is_lstrip_by, rstrip_is_rstrip_by.
  rewrite lstrip_by_all by done.
  change (String a (mid +:+ String b EmptyString) +:+ r)
    with (String a ((mid +:+ String b EmptyString) +:+ r)).
  cbn [lstrip_by]. rewrite Ha.
  change (String a ((mid +:+ String b EmptyString) +:+ r))
    with (String a (mid +:+ String b EmptyString) +:+ r).
  rewrite rstrip_by_all by done.
  change (String a (mid +:+ String b EmptyString))
    with (String a mid +:+ String b EmptyString).
  apply rstrip_by_clean; [|done]. simpl. by rewrite Hb.
Qed.

(** What is left of a fenced block once the white space around it and
    the backticks at both ends are gone. *)
Lemma unfence x rest suf pre :
  Ascii.eqb backtick x = false ->
  String x rest = pre +:+ suf ->
  all_chars not_backtick suf = true -> suf <> EmptyString ->
  let text := "```" +:+ String x rest +:+ "```" in
  strip text = text
  /\ startswith "```" text = true
  /\ strip_backticks text = String x rest.
Proof.
  intros Hx Hsplit Hsuf Hne text. split; [|split].
  - unfold strip. subst text.
    change ("```" +:+ String x rest +:+ "```")
      with (String "`" (String "`" (String "`" (String x rest +:+ "```")))).
    cbn [lstrip]. change (is_space "`") with false. cbv iota.
    rewrite rstrip_is_rstrip_by.
    change (String "`" (String "`" (String "`" (String x rest +:+ "```"))))
      with ((String "`" (String "`" (String "`" EmptyString)) +:+ String x rest) +:+ "```").
    by apply rstrip_by_clean.
  - reflexivity.
  - unfold strip_backticks. subst text.
    change ("```" +:+ String x rest +:+ "```")
      with ("```" +:+ (String x rest +:+ "```")).
    rewrite lstrip_by_all by reflexivity.
    change (String x rest +:+ "```") with (String x (rest +:+ "```")).
    cbn [lstrip_by]. rewrite Hx.
    change (String x (rest +:+ "```")) with (String x rest +:+ "```").
    rewrite rstrip_by_all by reflexivity.
    rewrite Hsplit. apply rstrip_by_clean; [|done].
    eapply all_chars_weaken; [|exact Hsuf]. done.
Qed.

(** X18: a fence around a JSON object is transparent.  The object text
    [{...}], free of backticks, comes out of the cleaning unchanged
    whether it is sent bare, inside a fenced block, or inside a fenced
    block tagged [json], with any white space around it. *)
Theorem fence_is_transparent (inner ws1 ws2 : string) :
  all_chars not_backtick inner = true ->
  all_chars is_space ws1 = true -> all_chars is_space ws2 = true ->
  let body := "{" +:+ inner +:+ "}" in
  clean_plan_text (ws1 +:+ body +:+ ws2) = body
  /\ clean_plan_text (fenced EmptyString ws1 body ws2) = body
  /\ clean_plan_text (fenced "json" ws1 body ws2) = body.
Proof.
  intros Hinner Hws1 Hws2 body.
  assert (Hbody : body = String "{" (inner +:+ String "}" EmptyString)) by done.
  assert (Hcore : forall l r, all_chars is_space l = true -> all_chars is_space r = true ->
                    strip (l +:+ body +:+ r) = body).
  { intros l r Hl Hr. rewrite Hbody. by apply strip_core. }
  assert (Hbt : all_chars not_backtick body = true).
  { rewrite Hbody. cbn [all_chars]. rewrite all_chars_app, Hinner. reflexivity. }
  assert (Hself : strip body = body).
  { pose proof (Hcore EmptyString EmptyString eq_refl eq_refl) as H.
    change (strip (body +:+ EmptyString) = body) in H.
    by rewrite string_app_nil_r in H. }
  assert (Htail : all_chars not_backtick (String "}" ws2) = true).
  { cbn [all_chars]. by rewrite spaces_have_no_backtick. }
  assert (Hfinish : strip (remove_fences 0 body) = body).
  { by rewrite remove_fences_none. }
  split; [|split].
  - unfold clean_plan_text. rewrite Hcore by done. rewrite Hbody. reflexivity.
  - unfold clean_plan_text, fenced.
    change (EmptyString +:+ ws1 +:+ body +:+ ws2 +:+ "```")
      with (ws1 +:+ body +:+ ws2 +:+ "```").
    assert (Hx : exists x rest, ws1 +:+ body +:+ ws2 = String x rest
                                /\ Ascii.eqb backtick x = false
                                /\ Ascii.eqb "j" (lower_char x) = false).
    { destruct ws1 as [|c w]; simpl.
      - rewrite Hbody. by eexists _, _.
      - simpl in Hws1. apply andb_true_iff in Hws1 as [Hc _].
        exists c, (w +:+ body +:+ ws2). split; [done|].
        split; [by apply space_is_not_backtick|by apply space_is_not_j]. }
    destruct Hx as (x & rest & Hxr & Hx & Hj).
    assert (Hre : ws1 +:+ body +:+ ws2 +:+ "```" = String x rest +:+ "```").
    { rewrite <- Hxr. by flatten_appends. }
    rewrite Hre.
    destruct (unfence x rest (String "}" ws2) (ws1 +:+ String "{" inner) Hx)
      as (H1 & H2 & H3); [|done|done|].
    { rewrite <- Hxr, Hbody. by flatten_appends. }
    rewrite H1, H2, H3. cbn [lower startswith]. rewrite Hj. cbn [andb].
    rewrite <- Hxr. rewrite remove_fences_none.
    + by apply Hcore.
    + rewrite !all_chars_app, Hbt. by rewrite !spaces_have_no_backtick.
  - unfold clean_plan_text, fenced.
    assert (Hre : "json" +:+ ws1 +:+ body +:+ ws2 +:+ "```"
                  = String "j" ("son" +:+ ws1 +:+ body +:+ ws2) +:+ "```").
    { by flatten_appends. }
    rewrite Hre.
    destruct (unfence "j" ("son" +:+ ws1 +:+ body +:+ ws2) (String "}" ws2)
                ("json" +:+ ws1 +:+ String "{" inner) eq_refl)
      as (H1 & H2 & H3); [|done|done|].
    { rewrite Hbody. by flatten_appends. }
    rewrite H1, H2, H3.
    change (startswith "json" (lower (String "j" ("son" +:+ ws1 +:+ body +:+ ws2))))
      with true. cbv iota.
    change (drop_chars 4 (String "j" ("son" +:+ ws1 +:+ body +:+ ws2)))
      with (ws1 +:+ body +:+ ws2).
    rewrite Hcore by done. exact Hfinish.
Qed.

Lemma fence_is_transparent_witness :
  let body := "{" +:+ " 'plan': [] " +:+ "}" in
  let newline := String (ascii_of_nat 10) EmptyString in
  clean_plan_text (newline +:+ body +:+ newline) = body
  /\ clean_plan_text (fenced EmptyString newline body newline) = body
  /\ clean_plan_text (fenced "json" newline body newline) = body.
Proof.
  intros body newline.
  apply (fence_is_transparent " 'plan': [] " newline newline); reflexivity.
Defined.

End PlannerFacts.

Section PlannerRun.
Import Client Planner.

Variable json_loads : string -> decoding.
Variable world : Type.
Variable call_azure_openai : world -> string -> option string * world.
Variable invoke_tool : world -> value -> dict -> value * world.
Variable summarize_results :
  world -> string -> value -> list (value * value) -> value * world.

Notation plan_tools := (Planner.plan_tools json_loads world call_azure_openai).
Notation run_query :=
  (Planner.run_query json_loads world call_azure_openai invoke_tool summarize_results).

(** X19: a reply without a plan ends the run before any tool is
    invoked.  When the reply of the language model is missing or empty,
    or its cleaned text is not JSON, or is JSON but no object with a
    [plan] key (the text [_call_azure_openai] returns for a failed call
    is such an object), [run_query] fails with the message of an invalid
    plan.  When the decoder raises anything but [json.JSONDecodeError],
    the exception leaves [plan_tools] and [run_query] fails with the
    text of that exception instead.  In neither case is a tool
    invoked. *)
Theorem reply_without_plan_fails_the_run
    (w w' : world) (user_query : string) (content : option string) :
  call_azure_openai w user_query = (content, w') ->
  (forall text plan,
     content = Some text ->
     json_loads (clean_plan_text text) = Decoded (VDict plan) ->
     dict_mem "plan" plan = false) ->
  let escaped :=
    match content with
    | Some text =>
        if String.eqb text EmptyString then None
        else match json_loads (clean_plan_text text) with
             | OtherError e => Some e
             | _ => None
             end
    | None => None
    end in
  plan_tools w user_query
  = (match escaped with Some e => Raise e | None => Ok empty_plan end, w')
  /\ run_query w user_query
     = (Failed (match escaped with
                | Some e => exn_text e
                | None => "LLM did not produce a valid tool plan."
                end), [], w').
Proof.
  intros Hcall Hbad escaped.
  assert (Hplan : plan_tools w user_query
                  = (match escaped with Some e => Raise e | None => Ok empty_plan end, w')).
  { unfold Planner.plan_tools. rewrite Hcall. f_equal.
    subst escaped. unfold parse_plan. destruct content as [text|]; [|done].
    destruct (String.eqb text EmptyString); [done|].
    destruct (json_loads (clean_plan_text text)) as [v| |e] eqn:Hdecode; [|done..].
    destruct v as [| | | | |plan]; try done.
    by rewrite (Hbad text plan eq_refl Hdecode). }
  split; [done|].
  unfold Planner.run_query. rewrite Hplan.
  destruct escaped as [e|]; [done|].
  unfold Client.run_query. reflexivity.
Qed.

End PlannerRun.

Lemma reply_without_plan_fails_the_run_witness :
  let q := String Server.quote EmptyString in
  let text := "{" +:+ q +:+ "error" +:+ q +:+ ": " +:+ q +:+ "timeout" +:+ q +:+ "}" in
  let decode := fun t =>
    match Examples.decode_table [(text, VDict [("error", VStr "timeout")])] t with
    | Some v => Planner.Decoded v
    | None => Planner.JSONDecodeError
    end in
  let call := fun (w : nat) (_ : string) => (Some (Planner.fenced "json" " " text " "), S w) in
  Planner.run_query decode nat call Examples.counting_invoke Examples.plain_summary
    0%nat "delay of 6E 215"
  = (Client.Failed "LLM did not produce a valid tool plan.", [], 1%nat).
Proof.
  intros q text decode call.
  apply (reply_without_plan_fails_the_run decode nat call Examples.counting_invoke
           Examples.plain_summary 0%nat 1%nat "delay of 6E 215"
           (Some (Planner.fenced "json" " " text " "))).
  - reflexivity.
  - intros t plan [= <-]. vm_compute. by intros [= <-].
Defined.

(** A reply on which the decoder raises something else than
    [json.JSONDecodeError]: the run fails with the text of that
    exception. *)
Example decoder_exception_leaves_the_planner :
  let decode := fun _ : string => Planner.OtherError (BackendError "maximum recursion depth exceeded") in
  let call := fun (w : nat) (_ : string) => (Some "[[[[[[[[[[", S w) in
  Planner.run_query decode nat call Examples.counting_invoke Examples.plain_summary
    0%nat "delay of 6E 215"
  = (Client.Failed "maximum recursion depth exceeded", [], 1%nat).
Proof. reflexivity. Qed.

(** ** The client's tool call *)

Section ToolCallFacts.
Import Client ToolCall.

Variable json_loads : string -> option value.
Variable world : Type.
Variable call_tool : world -> value -> dict -> res (list (option string)) * world.

Notation invoke_tool := (ToolCall.invoke_tool json_loads world call_tool).

Lemma singleton_is_unflagged tool key v :
  is_dict v = false -> key <> "needs_route_selection" ->
  needs_route_selection tool (VDict [(key, v)]) = false.
Proof.
  intros Hv Hkey.
  assert (Hl : forall k, dict_lookup k [(key, v)] = None
                         \/ dict_lookup k [(key, v)] = Some v).
  { intros k. cbn [dict_lookup]. destruct (String.eqb _ _); auto. }
  assert (Hn : dict_lookup "needs_route_selection" [(key, v)] = None).
  { cbn [dict_lookup]. destruct (String.eqb _ _) eqn:He; [|done].
    apply String.eqb_eq in He. congruence. }
  unfold needs_route_selection, selection_candidate, dict_get.
  destruct (Hl "ok") as [-> | ->], (Hl "data") as [-> | ->];
    cbn [default id is_dict truthy andb]; rewrite ?Hv, ?andb_false_r;
    (destruct tool as [| | |t| |];
     [..|destruct (Hl t) as [-> | ->]| |]);
    cbn [default id is_dict truthy andb]; rewrite ?Hv, ?andb_false_r;
    rewrite ?Hn; done.
Qed.

(** X20: the executor sees a request for a route selection only in a
    response made of exactly one text item.  When the response that
    [invoke_tool] returns carries the flag, the call did not raise, its
    content had exactly one item with a text, and that text decoded to
    the flagged object; a failed call, a content without text, and a
    content of several text items (even flagged ones) never stop a
    run. *)
Theorem flag_needs_a_single_text_item
    (w : world) (tool : value) (args : dict) :
  needs_route_selection tool (invoke_tool w tool args).1 = true ->
  exists content text flagged,
    (call_tool w tool args).1 = Ok content
    /\ omap id content = [text]
    /\ json_loads text = Some (VDict flagged)
    /\ (invoke_tool w tool args).1 = VDict flagged.
Proof.
  unfold ToolCall.invoke_tool.
  destruct (call_tool w tool args) as [[content|e] w'] eqn:Hcall; cbn [fst].
  2:{ by rewrite singleton_is_unflagged. }
  intros Hflag. exists content.
  assert (Hitems : content_items json_loads content
                   = decode_item json_loads <$> omap id content).
  { clear. induction content as [|[text|] rest IH]; cbn; [done| |done]. by rewrite IH. }
  unfold decode_content in *.
  destruct content as [|item rest] eqn:Hcontent.
  { by rewrite singleton_is_unflagged in Hflag. }
  rewrite <- Hcontent in *. clear Hcontent item rest.
  rewrite Hitems in *.
  destruct (omap id content) as [|text [|text' texts]] eqn:Htexts; cbn [fmap list_fmap] in *.
  - by rewrite singleton_is_unflagged in Hflag.
  - unfold decode_item in *.
    destruct (json_loads text) as [v|] eqn:Hdecode.
    + destruct v as [| | | | |flagged]; try done.
      by exists text, flagged.
    + done.
  - by rewrite singleton_is_unflagged in Hflag.
Qed.

End ToolCallFacts.

Lemma flag_needs_a_single_text_item_witness :
  let decode := Examples.decode_table [("answer", Examples.ambiguous_answer)] in
  let call := fun (w : nat) (_ : value) (_ : dict) =>
                (Ok [None; Some "answer"], S w) in
  exists content text flagged,
    (call 0%nat (VStr "get_delay_summary") []).1 = Ok content
    /\ omap id content = [text]
    /\ decode text = Some (VDict flagged)
    /\ (ToolCall.invoke_tool decode nat call 0%nat (VStr "get_delay_summary") []).1
       = VDict flagged.
Proof.
  intros decode call.
  apply (flag_needs_a_single_text_item decode nat call 0%nat
           (VStr "get_delay_summary") []).
  vm_compute. reflexivity.
Defined.

(** Two flagged items in one response do not stop a run. *)
Example two_flagged_items_are_not_seen :
  let decode := Examples.decode_table [("answer", Examples.ambiguous_answer)] in
  let call := fun (w : nat) (_ : value) (_ : dict) =>
                (Ok [Some "answer"; Some "answer"], S w) in
  Client.needs_route_selection (VStr "get_delay_summary")
    (ToolCall.invoke_tool decode nat call 0%nat (VStr "get_delay_summary") []).1
  = false.
Proof. vm_compute. reflexivity. Qed.
